(** * BlueBubbles server: Private API FaceTime actions and the chat router

    A shallow embedding of
    [packages/server/src/server/api/privateApi/apis/PrivateApiFaceTime.ts]
    (class [PrivateApiFaceTime]) and of the [ChatRouter] HTTP handlers that
    share the file, together with the transaction-correlation core the
    design document describes (Transaction Registry, Action Dispatcher,
    inbound response handling).

    Layout:
    - [Js]: the JavaScript values and operators the source uses;
    - [Effect]: programs as trees of calls to collaborators, with an
      interpreter that records the trace of calls;
    - [Transaction], [Registry], [Dispatcher]: the correlation core, as
      the design document describes it;
    - [PrivateApiFaceTime]: the four Domain Actions;
    - [ChatRouter]: the handlers [getMessages], [query], [update],
      [addParticipant], [removeParticipant], [toggleParticipant];
    - [Sample]: one concrete runtime, server and core to run them on;
    - [ChatRouterRest]: the handlers [count], [find] and [create];
    - the properties C1 to C10, each after the lemmas it rests on, and
      [Examples];
    - the further properties X1 to X21 of the handlers and the Domain
      Actions. *)

From Stdlib Require Import Ascii String List ZArith QArith Bool Lia Lqa.
From stdpp Require Import base option list gmap strings.
Import ListNotations.
Local Open Scope string_scope.
Local Open Scope list_scope.
Set Warnings "-register-all".

(* ===================================================================== *)
(** * JavaScript values                                                   *)
(* ===================================================================== *)

Module Js.

(** A JavaScript number: the finite doubles are read as rationals, the
    three special values are kept apart because comparisons treat them
    differently ([NaN < x] and [NaN > x] are both false). *)
Inductive Num : Type :=
  | NaN
  | Infinity (negative : bool)
  | Finite (q : Q).

Definition of_Z (z : Z) : Num := Finite (inject_Z z).
Definition of_nat (n : nat) : Num := of_Z (Z.of_nat n).

(** [a < b] *)
Definition lt (a b : Num) : bool :=
  match a, b with
  | NaN, _ | _, NaN => false
  | Infinity true, Infinity true => false
  | Infinity true, _ => true
  | _, Infinity true => false
  | Infinity false, _ => false
  | Finite _, Infinity false => true
  | Finite p, Finite q => negb (Qle_bool q p)
  end.

(** [a > b] *)
Definition gt (a b : Num) : bool := lt b a.

(** [a <= b] *)
Definition le (a b : Num) : bool :=
  match a, b with
  | NaN, _ | _, NaN => false
  | Infinity true, _ => true
  | _, Infinity false => true
  | Infinity false, _ => false
  | _, Infinity true => false
  | Finite p, Finite q => Qle_bool p q
  end.

(** [a >= b] *)
Definition ge (a b : Num) : bool := le b a.

(** [a === b] on numbers *)
Definition num_eq (a b : Num) : bool :=
  match a, b with
  | Finite p, Finite q => Qeq_bool p q
  | Infinity s, Infinity t => Bool.eqb s t
  | _, _ => false
  end.

(** The values a parsed JSON body, a query string or a thrown exception
    can hold.  An object is its list of properties.  A function is its
    name and its number of parameters, the two properties it answers: a
    JSON body holds none, but an array inherits its methods, and a
    handler that reads [body?.sort] of an array body gets one. *)
Inductive Value : Type :=
  | Undefined
  | Null
  | Bool (b : bool)
  | Number (n : Num)
  | Str (s : string)
  | Array (items : list Value)
  | Object (fields : list (string * Value))
  | Function (name : string) (length : nat).

(** [v == null], the test behind [??] and [?.] *)
Definition nullish (v : Value) : bool :=
  match v with
  | Undefined | Null => true
  | _ => false
  end.

(** ToBoolean *)
Definition truthy (v : Value) : bool :=
  match v with
  | Undefined | Null => false
  | Bool b => b
  | Number NaN => false
  | Number (Infinity _) => true
  | Number (Finite q) => negb (Qeq_bool q 0)
  | Str s => negb (String.eqb s "")
  | Array _ | Object _ | Function _ _ => true
  end.

(** [a ?? b] *)
Definition coalesce (a b : Value) : Value :=
  if nullish a then b else a.

Fixpoint field (key : string) (fields : list (string * Value)) : Value :=
  match fields with
  | [] => Undefined
  | (k, v) :: rest => if String.eqb k key then v else field key rest
  end.

(** The index a property name spells: a decimal numeral without sign and
    without leading zero. *)
Fixpoint numeral (s : string) (acc : nat) : option nat :=
  match s with
  | EmptyString => Some acc
  | String c rest =>
      let n := nat_of_ascii c in
      if (48 <=? n)%nat && (n <=? 57)%nat then numeral rest (10 * acc + (n - 48)) else None
  end.

Definition index (key : string) : option nat :=
  match key with
  | EmptyString => None
  | String "0"%char EmptyString => Some 0%nat
  | String "0"%char _ => None
  | _ => numeral key 0
  end.

(** What an array inherits: the members of [Array.prototype] as of
    ECMAScript 2023 (the edition that added [with]), followed by those of
    [Object.prototype]; every one is a function. *)
Definition array_prototype : list (string * Value) :=
  [("constructor", Function "Array" 1);
   ("at", Function "at" 1); ("concat", Function "concat" 1);
   ("copyWithin", Function "copyWithin" 2); ("entries", Function "entries" 0);
   ("every", Function "every" 1); ("fill", Function "fill" 1);
   ("filter", Function "filter" 1); ("find", Function "find" 1);
   ("findIndex", Function "findIndex" 1); ("findLast", Function "findLast" 1);
   ("findLastIndex", Function "findLastIndex" 1); ("flat", Function "flat" 0);
   ("flatMap", Function "flatMap" 1); ("forEach", Function "forEach" 1);
   ("includes", Function "includes" 1); ("indexOf", Function "indexOf" 1);
   ("join", Function "join" 1); ("keys", Function "keys" 0);
   ("lastIndexOf", Function "lastIndexOf" 1); ("map", Function "map" 1);
   ("pop", Function "pop" 0); ("push", Function "push" 1);
   ("reduce", Function "reduce" 1); ("reduceRight", Function "reduceRight" 1);
   ("reverse", Function "reverse" 0); ("shift", Function "shift" 0);
   ("slice", Function "slice" 2); ("some", Function "some" 1);
   ("sort", Function "sort" 1); ("splice", Function "splice" 2);
   ("toLocaleString", Function "toLocaleString" 0);
   ("toReversed", Function "toReversed" 0); ("toSorted", Function "toSorted" 1);
   ("toSpliced", Function "toSpliced" 2); ("toString", Function "toString" 0);
   ("unshift", Function "unshift" 1); ("values", Function "values" 0);
   ("with", Function "with" 2);
   ("hasOwnProperty", Function "hasOwnProperty" 1);
   ("isPrototypeOf", Function "isPrototypeOf" 1);
   ("propertyIsEnumerable", Function "propertyIsEnumerable" 1);
   ("valueOf", Function "valueOf" 0);
   ("__defineGetter__", Function "__defineGetter__" 2);
   ("__defineSetter__", Function "__defineSetter__" 2);
   ("__lookupGetter__", Function "__lookupGetter__" 1);
   ("__lookupSetter__", Function "__lookupSetter__" 1)].

(** [v.key] for a [v] that is not nullish (the source only reads a
    property after a truthiness test or through [?.]).  An object
    answers its properties.  An array answers [length], its elements and
    what it inherits, so that [sort] and [with] of an array are
    functions.  A string answers [length] and its characters, a function
    [length] and [name]; what strings, numbers, booleans and functions
    inherit from their prototypes, and the accessor [__proto__], carry
    none of the names the handlers read and are left out. *)
Definition get (v : Value) (key : string) : Value :=
  match v with
  | Object fields => field key fields
  | Str s =>
      if String.eqb key "length" then Number (of_nat (String.length s))
      else match index key with
           | Some i =>
               match String.get i s with
               | Some c => Str (String c EmptyString)
               | None => Undefined
               end
           | None => Undefined
           end
  | Array items =>
      if String.eqb key "length" then Number (of_nat (List.length items))
      else match index key with
           | Some i => nth i items Undefined
           | None => field key array_prototype
           end
  | Function name length =>
      if String.eqb key "length" then Number (of_nat length)
      else if String.eqb key "name" then Str name
      else Undefined
  | _ => Undefined
  end.

(** [v?.key] *)
Definition opt_get (v : Value) (key : string) : Value :=
  if nullish v then Undefined else get v key.

(** [v === n] for a number literal [n] *)
Definition is_number (v : Value) (n : Num) : bool :=
  match v with
  | Number m => num_eq m n
  | _ => false
  end.

(** [obj[key] = v] on an object literal: replaces the property when it
    is there, appends it otherwise. *)
Fixpoint set_field (key : string) (v : Value) (fields : list (string * Value))
  : list (string * Value) :=
  match fields with
  | [] => [(key, v)]
  | (k, old) :: rest =>
      if String.eqb k key then (k, v) :: rest else (k, old) :: set_field key v rest
  end.

(** [obj[key] = v] *)
Definition assign (obj : Value) (key : string) (v : Value) : Value :=
  match obj with
  | Object fields => Object (set_field key v fields)
  | _ => obj
  end.

(** An optional string (a query-string entry, a nullable parameter) as a
    value. *)
Definition of_option (o : option string) : Value :=
  match o with
  | Some s => Str s
  | None => Undefined
  end.

(** What the source takes from the host runtime: the string methods, the
    integer parser and the string conversion [Array.prototype.join]
    applies to its elements. *)
Class Runtime : Type := {
  toLowerCase : string -> string;
  trim : string -> string;
  split : string -> string -> list string;
  parseInt : Value -> Num;
  toString : Value -> string
  }.

(** [xs.includes(x)] on an array of strings *)
Definition includes (xs : list string) (x : string) : bool :=
  existsb (String.eqb x) xs.

(** [xs.join(sep)]: [null] and [undefined] elements print as the empty
    string. *)
Definition join `{Runtime} (xs : list Value) (sep : string) : string :=
  String.concat sep (List.map (fun v => if nullish v then "" else toString v) xs).

End Js.

(* ===================================================================== *)
(** * Programs over collaborators                                         *)
(* ===================================================================== *)

(** The source calls code that lives elsewhere (the dispatcher, the
    repositories, the chat interface).  A program is the tree of those
    calls: each node names the call and continues with its reply.  The
    interpreter threads the state of the outside world through a handler
    and records the calls in the order they are made. *)
Module Effect.

Section Programs.
Variable Call : Type.
Variable Reply : Call -> Type.
Variable Exn : Type.

Inductive Prog (A : Type) : Type :=
  | Ret (a : A)
  | Throw (x : Exn)
  | Do (c : Call) (k : Reply c -> Prog A).

Arguments Ret {A} a.
Arguments Throw {A} x.
Arguments Do {A} c k.

Fixpoint bind {A B : Type} (p : Prog A) (f : A -> Prog B) : Prog B :=
  match p with
  | Ret a => f a
  | Throw x => Throw x
  | Do c k => Do c (fun r => bind (k r) f)
  end.

(** [try { p } catch (x) { h x }] *)
Fixpoint try_catch {A : Type} (p : Prog A) (h : Exn -> Prog A) : Prog A :=
  match p with
  | Ret a => Ret a
  | Throw x => h x
  | Do c k => Do c (fun r => try_catch (k r) h)
  end.

(** [for (const x of xs) acc = await f(acc, x)] *)
Fixpoint for_each {A S : Type} (f : S -> A -> Prog S) (xs : list A) (acc : S) : Prog S :=
  match xs with
  | [] => Ret acc
  | x :: rest => bind (f acc x) (for_each f rest)
  end.

Record Run (W A : Type) : Type := MkRun {
  trace : list Call;
  outcome : Exn + A;
  final : W
  }.

Arguments MkRun {W A} trace outcome final.
Arguments trace {W A} r.
Arguments outcome {W A} r.
Arguments final {W A} r.

Section Interpreter.
Variable W : Type.
Variable handle : forall c : Call, W -> Reply c * W.

Fixpoint run {A : Type} (p : Prog A) (w : W) : Run W A :=
  match p with
  | Ret a => MkRun [] (inr a) w
  | Throw x => MkRun [] (inl x) w
  | Do c k =>
      let (r, w') := handle c w in
      let rest := run (k r) w' in
      MkRun (c :: trace rest) (outcome rest) (final rest)
  end.
End Interpreter.
End Programs.

Arguments Ret {Call Reply Exn A} a.
Arguments Throw {Call Reply Exn A} x.
Arguments Do {Call Reply Exn A} c k.
Arguments bind {Call Reply Exn A B} p f.
Arguments try_catch {Call Reply Exn A} p h.
Arguments for_each {Call Reply Exn A S} f xs acc.
Arguments MkRun {Call Exn W A} trace outcome final.
Arguments trace {Call Exn W A} r.
Arguments outcome {Call Exn W A} r.
Arguments final {Call Exn W A} r.
Arguments run {Call Reply Exn W} handle {A} p w.

End Effect.

Notation "'let*' x ':=' p 'in' q" := (Effect.bind p (fun x => q))
  (at level 10, x name, p at level 100, q at level 200).

(* ===================================================================== *)
(** * The transaction-correlation core                                    *)
(* ===================================================================== *)

(** The source imports [TransactionPromise], [TransactionResult] and
    [TransactionType] from [managers/transactionManager/transactionPromise]
    and inherits [sendApiMessage] from [PrivateApiAction]; neither file is
    among the sources verified here.  This module follows the design
    document for them. *)
Module Transaction.

(** Modelled from the spec: the [TransactionType] enum.  The kind is "a
    small closed tag distinguishing result shapes"; the source names one
    member, [OTHER], the others are told apart by their tag. *)
Inductive TransactionType : Type :=
| OTHER
| Typed (tag : string).

(** Modelled from the spec: the [TransactionPromise] a Domain Action
    builds is the transaction request it hands to the dispatcher; what
    the dispatcher needs from it is the requested kind. *)
Record TransactionPromise : Type := {
  promiseType : TransactionType
}.

(** Modelled from the spec: the error taxonomy of section 7. *)
Inductive ApiError : Type :=
| TransportUnavailable
| Timeout
| HelperReportedError (detail : string)
| UnknownTransaction
| DuplicateIdentifier.

(** Modelled from the spec: the [TransactionResult] a caller receives,
    "either a success payload, a structured error, or a timeout
    indication" (the timeout is the [Timeout] error); a fire-and-forget
    send returns "an empty/acknowledged result". *)
Inductive TransactionResult : Type :=
| Acknowledged
| Payload (payload : Js.Value)
| Failed (error : ApiError).

(** Modelled from the spec: the states of a transaction,
    [Pending -> Resolved | Rejected | TimedOut]. *)
Inductive State : Type :=
| Pending
| Resolved
| Rejected
| TimedOut.

Definition is_pending (s : State) : bool :=
  match s with
  | Pending => true
  | _ => false
  end.

(** Modelled from the spec: the [Transaction] record of section 3.  Its
    completion slot is addressed by the transaction id (see
    [Registry.completions]). *)
Record Transaction : Type := {
  id : string;
  kind : TransactionType;
  createdAt : nat;
  state : State
}.

(** Modelled from the spec: one write to a completion slot, with the
    terminal state that caused it. *)
Record Settlement : Type := {
  settledId : string;
  settledState : State;
  settledResult : TransactionResult
}.

(** Modelled from the spec: the handle [sendApiMessage] returns.  It is
    either already complete or waits for the completion slot of a
    transaction; [since] is the number of slot writes that precede the
    creation of the transaction. *)
Inductive ResultHandle : Type :=
| Settled (result : TransactionResult)
| Awaiting (id : string) (since : nat).

(** Modelled from the spec: the outbound Action Message,
    [{ action, args, transactionId? }]. *)
Record ActionMessage : Type := {
  action : string;
  args : Js.Value;
  transactionId : option string
}.

(** Modelled from the spec: the inbound message,
    [{ transactionId?, status, payload?, error? }]; [ok] is the
    success/error discriminator. *)
Record InboundMessage : Type := {
  inboundId : option string;
  ok : bool;
  inboundPayload : option Js.Value;
  inboundError : option string
}.

End Transaction.

Module Registry.
Import Transaction.

(** Modelled from the spec: the Transaction Registry of section 4.1, the
    table of pending transactions keyed by correlation identifier,
    together with the log of writes to completion slots (oldest first). *)
Record Registry : Type := {
  pending : gmap string Transaction;
  completions : list Settlement
}.

(** Modelled from the spec: "if found and still [Pending]", the guard of
    every transition out of [Pending]. *)
Definition live (i : string) (reg : Registry) : bool :=
  match pending reg !! i with
  | Some tx => is_pending (state tx)
  | None => false
  end.

(** Modelled from the spec: the compare-and-set transition shared by
    [resolve], [reject] and the timeout: "transition only if currently
    [Pending]", deliver to the completion slot, remove the entry;
    otherwise a silent no-op. *)
Definition settle (i : string) (s : State) (r : TransactionResult) (reg : Registry)
  : Registry :=
  if live i reg then
    {| pending := delete i (pending reg);
       completions := completions reg ++ [{| settledId := i; settledState := s; settledResult := r |}] |}
  else reg.

(** Modelled from the spec: [resolve(id, payload)]. *)
Definition resolve (i : string) (payload : Js.Value) (reg : Registry) : Registry :=
  settle i Resolved (Payload payload) reg.

(** Modelled from the spec: [reject(id, error)]. *)
Definition reject (i : string) (error : string) (reg : Registry) : Registry :=
  settle i Rejected (Failed (HelperReportedError error)) reg.

(** Modelled from the spec: the per-transaction timer of [timeoutSweep]
    firing for [id]. *)
Definition timeout (i : string) (reg : Registry) : Registry :=
  settle i TimedOut (Failed Timeout) reg.

(** Modelled from the spec: [create(kind)] with the identifier the
    generator proposes; a collision with a pending transaction is the
    fatal [DuplicateIdentifier], never an overwrite. *)
Definition create (k : TransactionType) (candidate : string) (now : nat) (reg : Registry)
  : ApiError + Transaction * Registry :=
  match pending reg !! candidate with
  | Some _ => inl DuplicateIdentifier
  | None =>
      let tx := {| id := candidate; kind := k; createdAt := now; state := Pending |} in
      inr (tx, {| pending := <[candidate := tx]> (pending reg);
                  completions := completions reg |})
  end.

(** One attempt to take a transaction out of [Pending]. *)
Inductive Attempt : Type :=
| Resolve (i : string) (payload : Js.Value)
| Reject (i : string) (error : string)
| TimeOut (i : string).

Definition target (a : Attempt) : string :=
  match a with
  | Resolve i _ | Reject i _ | TimeOut i => i
  end.

Definition attempt (a : Attempt) (reg : Registry) : Registry :=
  match a with
  | Resolve i p => resolve i p reg
  | Reject i e => reject i e reg
  | TimeOut i => timeout i reg
  end.

(** What the attempt writes to the completion slot when it wins. *)
Definition verdict (a : Attempt) : TransactionResult :=
  match a with
  | Resolve _ p => Payload p
  | Reject _ e => Failed (HelperReportedError e)
  | TimeOut _ => Failed Timeout
  end.

(** The terminal state the attempt asks for. *)
Definition terminal (a : Attempt) : State :=
  match a with
  | Resolve _ _ => Resolved
  | Reject _ _ => Rejected
  | TimeOut _ => TimedOut
  end.

(** The slot write of a winning attempt. *)
Definition settlement (a : Attempt) : Settlement :=
  {| settledId := target a; settledState := terminal a; settledResult := verdict a |}.

(** Any serialisation of concurrent attempts: they run one after the
    other, each atomically. *)
Fixpoint attempts (l : list Attempt) (reg : Registry) : Registry :=
  match l with
  | [] => reg
  | a :: rest => attempts rest (attempt a reg)
  end.

(** The attempts of a serialisation that win: those that find their
    transaction still [Pending] when their turn comes. *)
Fixpoint winners (l : list Attempt) (reg : Registry) : list Attempt :=
  match l with
  | [] => []
  | a :: rest =>
      (if live (target a) reg then [a] else []) ++ winners rest (attempt a reg)
  end.

(** The attempts that lose, each with the registry it found and the
    registry it left. *)
Fixpoint losers (l : list Attempt) (reg : Registry) : list (Registry * Registry) :=
  match l with
  | [] => []
  | a :: rest =>
      (if live (target a) reg then [] else [(reg, attempt a reg)])
        ++ losers rest (attempt a reg)
  end.

Definition aims_at (i : string) (a : Attempt) : bool := String.eqb (target a) i.

(** The first attempt of a serialisation that aims at [i], if any. *)
Definition first_at (i : string) (l : list Attempt) : list Attempt :=
  firstn 1 (List.filter (aims_at i) l).

(** The writes to the completion slot of [i]. *)
Definition writes (i : string) (log : list Settlement) : list Settlement :=
  List.filter (fun s => String.eqb (settledId s) i) log.

(** Modelled from the spec: what the holder of a handle sees, "whichever
    terminal state occurs first": the first write to the slot of its
    transaction, if there is one yet. *)
Definition observe (h : ResultHandle) (reg : Registry) : option TransactionResult :=
  match h with
  | Settled r => Some r
  | Awaiting i since =>
      match writes i (drop since (completions reg)) with
      | s :: _ => Some (settledResult s)
      | [] => None
      end
  end.

End Registry.

Module Dispatcher.
Import Transaction Registry.

(** Modelled from the spec: what the Action Dispatcher works on: the
    Transport Adapter (ready or not, and the messages handed to [send]),
    the registry, the clock, the identifier generator and the
    notifications routed outside the core. *)
Record Core : Type := {
  ready : bool;
  outbox : list ActionMessage;
  registry : Registry;
  clock : nat;
  generateId : nat -> string;
  generated : nat;
  notifications : list InboundMessage
}.

Definition with_registry (reg : Registry) (c : Core) : Core :=
  {| ready := ready c; outbox := outbox c; registry := reg; clock := clock c;
     generateId := generateId c; generated := generated c;
     notifications := notifications c |}.

(** Modelled from the spec: [send(message)] of the Transport Adapter, on
    a ready transport. *)
Definition send (m : ActionMessage) (c : Core) : Core :=
  {| ready := ready c; outbox := outbox c ++ [m]; registry := registry c;
     clock := clock c; generateId := generateId c; generated := generated c;
     notifications := notifications c |}.

(** Modelled from the spec: the identifier generator hands out its next
    candidate. *)
Definition next_id (c : Core) : string * Core :=
  (generateId c (generated c),
   {| ready := ready c; outbox := outbox c; registry := registry c;
      clock := clock c; generateId := generateId c; generated := S (generated c);
      notifications := notifications c |}).

(** Modelled from the spec: [sendApiMessage(action, arguments,
    transactionRequest?)] of section 4.2, missing from the sources
    ([PrivateApiAction]).  Not ready: fails at once, nothing registered.
    No request: one message without id, an acknowledged result.  A
    request: [create] a transaction of the requested kind, attach its
    id, send, return the handle on its completion slot. *)
Definition sendApiMessage (act : string) (data : Js.Value)
    (request : option TransactionPromise) (c : Core)
  : (ApiError + ResultHandle) * Core :=
  if negb (ready c) then (inl TransportUnavailable, c)
  else
    match request with
    | None =>
        (inr (Settled Acknowledged),
         send {| action := act; args := data; transactionId := None |} c)
    | Some req =>
        let (candidate, c1) := next_id c in
        match create (promiseType req) candidate (clock c1) (registry c1) with
        | inl e => (inl e, c1)
        | inr (tx, reg) =>
            (inr (Awaiting (id tx) (List.length (completions (registry c1)))),
             send {| action := act; args := data; transactionId := Some (id tx) |}
                  (with_registry reg c1))
        end
    end.

(** Modelled from the spec: the inbound response handling of section
    4.3.  A message with an id resolves or rejects; one without is a
    notification, outside the core. *)
Definition onMessage (m : InboundMessage) (c : Core) : Core :=
  match inboundId m with
  | Some i =>
      if ok m
      then with_registry (resolve i (default Js.Undefined (inboundPayload m)) (registry c)) c
      else with_registry (reject i (default "" (inboundError m)) (registry c)) c
  | None =>
      {| ready := ready c; outbox := outbox c; registry := registry c;
         clock := clock c; generateId := generateId c; generated := generated c;
         notifications := notifications c ++ [m] |}
  end.

(** The registry operation an inbound message stands for, when it
    carries an id. *)
Definition as_attempt (m : InboundMessage) : option Attempt :=
  match inboundId m with
  | Some i =>
      Some (if ok m
            then Resolve i (default Js.Undefined (inboundPayload m))
            else Reject i (default "" (inboundError m)))
  | None => None
  end.

(** Modelled from the spec: the transport delivers inbound messages one
    at a time to the one registered handler. *)
Fixpoint deliver (ms : list InboundMessage) (c : Core) : Core :=
  match ms with
  | [] => c
  | m :: rest => deliver rest (onMessage m c)
  end.

End Dispatcher.

(* ===================================================================== *)
(** * The Domain Actions: class [PrivateApiFaceTime]                      *)
(* ===================================================================== *)

Module PrivateApiFaceTime.
Import Transaction.

(** What the class asks of code outside it: the constructor
    [new TransactionPromise(type)] and the inherited
    [this.sendApiMessage(action, data, transaction?)]. *)
Inductive Call : Type :=
| NewTransactionPromise (type : TransactionType)
| SendApiMessage (action : string) (data : Js.Value) (transaction : option TransactionPromise).

(** The constructor returns the new object; [sendApiMessage] returns the
    promise of a result, or fails. *)
Definition Reply (c : Call) : Type :=
  match c with
  | NewTransactionPromise _ => TransactionPromise
  | SendApiMessage _ _ _ => (ApiError + ResultHandle)%type
  end.

Abbreviation Action := (Effect.Prog Call Reply ApiError ResultHandle).

Definition new_TransactionPromise (type : TransactionType)
  : Effect.Prog Call Reply ApiError TransactionPromise :=
  Effect.Do (NewTransactionPromise type) (fun request => Effect.Ret request).

Definition sendApiMessage (action : string) (data : Js.Value)
    (transaction : option TransactionPromise) : Action :=
  Effect.Do (SendApiMessage action data transaction)
    (fun r => match r with
              | inl e => Effect.Throw e
              | inr handle => Effect.Ret handle
              end).

Definition answerCall (uuid : string) : Action :=
  let action := "answer-call" in
  sendApiMessage action (Js.Object [("callUUID", Js.Str uuid)]) None.

Definition leaveCall (uuid : string) : Action :=
  let action := "leave-call" in
  sendApiMessage action (Js.Object [("callUUID", Js.Str uuid)]) None.

(** [uuid: string = null]: a missing argument takes the default. *)
Definition generateLink (uuid : Js.Value) : Action :=
  let uuid := match uuid with Js.Undefined => Js.Null | _ => uuid end in
  let action := "generate-link" in
  let* request := new_TransactionPromise OTHER in
  let args := Js.Object [] in
  let args := Js.assign args "callUUID" (Js.coalesce uuid Js.Null) in
  sendApiMessage action args (Some request).

Definition admitParticipant (conversationUuid handleUuid : string) : Action :=
  let action := "admit-pending-member" in
  sendApiMessage action
    (Js.Object [("conversationUUID", Js.Str conversationUuid);
                ("handleUUID", Js.Str handleUuid)])
    None.

(** The four Domain Actions with their arguments. *)
Inductive DomainAction : Type :=
| AnswerCall (uuid : string)
| LeaveCall (uuid : string)
| GenerateLink (uuid : Js.Value)
| AdmitParticipant (conversationUuid handleUuid : string).

Definition invoke (d : DomainAction) : Action :=
  match d with
  | AnswerCall uuid => answerCall uuid
  | LeaveCall uuid => leaveCall uuid
  | GenerateLink uuid => generateLink uuid
  | AdmitParticipant c h => admitParticipant c h
  end.

(** The Domain Actions that pass no transaction request to
    [sendApiMessage]. *)
Definition fire_and_forget (d : DomainAction) : bool :=
  match d with
  | GenerateLink _ => false
  | _ => true
  end.

(** The Action Messages a run handed to [sendApiMessage]: action name,
    arguments, and whether a transaction was requested. *)
Definition sent (trace : list Call) : list (string * Js.Value * option TransactionPromise) :=
  flat_map (fun c => match c with
                     | SendApiMessage a d t => [(a, d, t)]
                     | NewTransactionPromise _ => []
                     end) trace.

(** The Domain Actions running on the correlation core. *)
Definition on_core (c : Call) (w : Dispatcher.Core) : Reply c * Dispatcher.Core :=
  match c return Reply c * Dispatcher.Core with
  | NewTransactionPromise type => ({| promiseType := type |}, w)
  | SendApiMessage a d t => Dispatcher.sendApiMessage a d t w
  end.

End PrivateApiFaceTime.

(* ===================================================================== *)
(** * The HTTP handlers: class [ChatRouter]                               *)
(* ===================================================================== *)

(** The argument of [Server().iMessageRepo.getChats]:
    [{ chatGuid, withSMS?, withParticipants }]. *)
Module ChatParams.
Record t : Type := {
  chatGuid : string;
  withSMS : option bool;
  withParticipants : option bool
}.
End ChatParams.

(** [DBMessageParams], as [getMessages] fills it. *)
Module DBMessageParams.
Record t : Type := {
  chatGuid : string;
  withAttachments : bool;
  withHandle : bool;
  withSMS : bool;
  offset : Js.Num;
  limit : Js.Num;
  sort : option string;
  before : Js.Num;
  after : Js.Num
}.
End DBMessageParams.

(** The argument of [ChatInterface.get]; [sort] is [null] or a valid sort. *)
Module GetParams.
Record t : Type := {
  guid : Js.Value;
  withSMS : bool;
  withParticipants : bool;
  withLastMessage : bool;
  withArchived : bool;
  offset : Js.Num;
  limit : Js.Num;
  sort : option string
}.
End GetParams.

(** [ctx.request]: the query string and the parsed body. *)
Module Request.
Record t : Type := {
  query : list (string * string);
  body : Js.Value
}.

(** [ctx.request.query?.name] *)
Fixpoint param (name : string) (q : list (string * string)) : option string :=
  match q with
  | [] => None
  | (k, v) :: rest => if String.eqb k name then Some v else param name rest
  end.
End Request.

Module ChatRouter.

(** ["add" | "remove"] *)
Inductive ParticipantAction : Type :=
| add
| remove.

(** [ErrorTypes], of which the handlers use one member. *)
Inductive ErrorTypes : Type :=
| IMESSAGE_ERROR.

(** The metadata [query] returns. *)
Record Metadata : Type := {
  total : Js.Value;
  offset : Js.Num;
  limit : Js.Num
}.

(** The response builders of [helpers/responses], kept as the calls the
    handlers make: builder and arguments ([None] for an argument left out
    or [null]). *)
Inductive Response : Type :=
| createSuccessResponse (data : Js.Value) (message : option string) (metadata : option Metadata)
| createNotFoundResponse (error : string)
| createBadRequestResponse (error : string)
| createServerErrorResponse (error : string) (type : ErrorTypes) (message : option string).

(** The part of the koa [RouterContext] the handlers touch; [status] and
    [body] are [None] until a handler assigns them. *)
Record RouterContext : Type := {
  request : Request.t;
  params_guid : string;
  status : option nat;
  body : option Response
}.

Definition set_status (s : nat) (ctx : RouterContext) : RouterContext :=
  {| request := request ctx; params_guid := params_guid ctx;
     status := Some s; body := body ctx |}.

Definition set_body (b : Response) (ctx : RouterContext) : RouterContext :=
  {| request := request ctx; params_guid := params_guid ctx;
     status := status ctx; body := Some b |}.

(** The collaborators of the handlers.  Chats, messages and their
    responses are JavaScript objects. *)
Inductive Call : Type :=
| checkPrivateApiStatus
| repo_getConfig (key : string)
| iMessageRepo_getChats (params : ChatParams.t)
| iMessageRepo_getMessages (opts : DBMessageParams.t)
| iMessageRepo_getChatCount
| getChatResponse (chat : Js.Value)
| getMessageResponse (msg : Js.Value)
| ChatInterface_get (params : GetParams.t)
| ChatInterface_setDisplayName (chat displayName : Js.Value)
| ChatInterface_toggleParticipant (chat address : Js.Value) (action : ParticipantAction).

Definition Result (c : Call) : Type :=
  match c with
  | checkPrivateApiStatus => unit
  | iMessageRepo_getChats _ | iMessageRepo_getMessages _ => option (list Js.Value)
  | _ => Js.Value
  end.

(** Every collaborator may throw (or reject) instead of answering. *)
Definition Reply (c : Call) : Type := (Js.Value + Result c)%type.

Abbreviation Prog := (Effect.Prog Call Reply Js.Value).

(** [await c] *)
Definition call (c : Call) : Prog (Result c) :=
  Effect.Do c (fun r => match r with
                        | inl ex => Effect.Throw ex
                        | inr v => Effect.Ret v
                        end).

(** The collaborators that change a chat; the others only read. *)
Definition mutates (c : Call) : bool :=
  match c with
  | ChatInterface_setDisplayName _ _ | ChatInterface_toggleParticipant _ _ _ => true
  | _ => false
  end.

(** [!chats || chats.length === 0] *)
Definition no_chats (chats : option (list Js.Value)) : bool :=
  match chats with
  | None | Some [] => true
  | Some (_ :: _) => false
  end.

(** [chats[0]] *)
Definition first_chat (chats : option (list Js.Value)) : Js.Value :=
  match chats with
  | Some (chat :: _) => chat
  | _ => Js.Undefined
  end.

(** The strings of an array: [.filter(e => typeof e === "string")] *)
Fixpoint strings (items : list Js.Value) : list string :=
  match items with
  | [] => []
  | Js.Str s :: rest => s :: strings rest
  | _ :: rest => strings rest
  end.

Section Handlers.
Context `{Js.Runtime}.

(** [parseNumber] of [http/helpers], not among the sources: a number, or
    [None] for [null]. *)
Variable parseNumber : Js.Value -> option Js.Num.

(** The TypeError the engine throws for a call of a missing method. *)
Variable typeError : Js.Value.

(** "Pull the pagination params and make sure they are correct": the four
    lines [getMessages] and [query] share, up to the default limit. *)
Definition pagination (offsetParam limitParam : Js.Value) (defaultLimit : Z)
  : Js.Num * Js.Num :=
  let offset := default (Js.of_Z 0) (parseNumber offsetParam) in
  let limit := default (Js.of_Z defaultLimit) (parseNumber limitParam) in
  let offset := if Js.lt offset (Js.of_Z 0) then Js.of_Z 0 else offset in
  let limit :=
    if Js.lt limit (Js.of_Z 0) || Js.gt limit (Js.of_Z 1000) then Js.of_Z 1000 else limit in
  (offset, limit).

Definition getMessages (ctx : RouterContext) : Prog RouterContext :=
  let query := Request.query (request ctx) in
  let withQuery :=
    List.map Js.trim
      (Js.split (Js.toLowerCase (default "" (Request.param "with" query))) ",") in
  let withAttachments :=
    Js.includes withQuery "attachment" || Js.includes withQuery "attachments" in
  let withHandle := Js.includes withQuery "handle" || Js.includes withQuery "handles" in
  let withSMS := Js.includes withQuery "sms" in
  let sort :=
    if Js.includes ["DESC"; "ASC"] (Js.toLowerCase (default "" (Request.param "sort" query)))
    then Request.param "sort" query
    else Some "DESC" in
  let after := Request.param "after" query in
  let before := Request.param "before" query in
  let '(offset, limit) :=
    pagination (Js.of_option (Request.param "offset" query))
               (Js.of_option (Request.param "limit" query)) 100 in
  let* chats := call (iMessageRepo_getChats {| ChatParams.chatGuid := params_guid ctx;
                                  ChatParams.withSMS := Some true;
                                  ChatParams.withParticipants := Some false |}) in
  if no_chats chats then
    Effect.Ret (set_body (createNotFoundResponse "Chat does not exist!") (set_status 404 ctx))
  else
    let opts := {| DBMessageParams.chatGuid := params_guid ctx;
                   DBMessageParams.withAttachments := withAttachments;
                   DBMessageParams.withHandle := withHandle;
                   DBMessageParams.withSMS := withSMS;
                   DBMessageParams.offset := offset;
                   DBMessageParams.limit := limit;
                   DBMessageParams.sort := sort;
                   DBMessageParams.before := Js.parseInt (Js.of_option before);
                   DBMessageParams.after := Js.parseInt (Js.of_option after) |} in
    let* messages := call (iMessageRepo_getMessages opts) in
    let* results :=
      Effect.for_each
        (fun (results : list Js.Value) (msg : Js.Value) =>
           let* r := call (getMessageResponse msg) in Effect.Ret (results ++ [r : Js.Value]))
        (default [] messages) [] in
    Effect.Ret (set_body (createSuccessResponse (Js.Array results) None None) ctx).

Definition query (ctx : RouterContext) : Prog RouterContext :=
  let body := Request.body (request ctx) in
  match Js.coalesce (Js.opt_get body "with") (Js.Array []) with
  | Js.Array items =>
      let withQuery := List.map (fun e => Js.trim (Js.toLowerCase e)) (strings items) in
      let withParticipants := Js.includes withQuery "participants" in
      let withLastMessage := Js.includes withQuery "lastmessage" in
      let withSMS := Js.includes withQuery "sms" in
      let withArchived := Js.includes withQuery "archived" in
      let guid := Js.opt_get body "guid" in
      let sort := Js.coalesce (Js.opt_get body "sort") (Js.Str "") in
      match sort with
      | Js.Str sort =>
          let sort := Js.toLowerCase sort in
          let validSorts := ["lastmessage"] in
          let sort := if negb (Js.includes validSorts sort) then None else Some sort in
          let '(offset, limit) :=
            pagination (Js.opt_get body "offset") (Js.opt_get body "limit") 1000 in
          let* results :=
            call (ChatInterface_get {| GetParams.guid := guid;
                                       GetParams.withSMS := withSMS;
                                       GetParams.withParticipants := withParticipants;
                                       GetParams.withLastMessage := withLastMessage;
                                       GetParams.withArchived := withArchived;
                                       GetParams.offset := offset;
                                       GetParams.limit := limit;
                                       GetParams.sort := sort |}) in
          let* count := call iMessageRepo_getChatCount in
          let metadata := {| total := count; offset := offset; limit := limit |} in
          Effect.Ret (set_body (createSuccessResponse results None (Some metadata)) ctx)
      | _ =>
          Effect.Ret (set_body (createBadRequestResponse "Sort parameter must be a string!")
                               (set_status 400 ctx))
      end
  | _ => Effect.Throw typeError
  end.

(** [displayName && displayName.length !== 0] *)
Definition provided (displayName : Js.Value) : bool :=
  Js.truthy displayName && negb (Js.is_number (Js.get displayName "length") (Js.of_Z 0)).

Definition update (ctx : RouterContext) : Prog RouterContext :=
  let body := Request.body (request ctx) in
  let guid := params_guid ctx in
  let displayName := Js.opt_get body "displayName" in
  let* enablePrivateApi := call (repo_getConfig "enable_private_api") in
  if negb (Js.truthy enablePrivateApi) then
    Effect.Ret (set_body (createServerErrorResponse "Private API is not enabled!"
                                                    IMESSAGE_ERROR None)
                         (set_status 404 ctx))
  else
    let* chats := call (iMessageRepo_getChats {| ChatParams.chatGuid := guid;
                                    ChatParams.withSMS := None;
                                    ChatParams.withParticipants := Some true |}) in
    if no_chats chats then
      Effect.Ret (set_body (createNotFoundResponse "Chat does not exist!") (set_status 404 ctx))
    else
      let chat := first_chat chats in
      let* changed :=
        if provided displayName then
          Effect.try_catch
            (let* chat := call (ChatInterface_setDisplayName chat displayName) in
             Effect.Ret (chat, ["displayName"], []))
            (fun ex => Effect.Ret (chat, [], [Js.coalesce (Js.opt_get ex "message") ex]))
        else Effect.Ret (chat, [], []) in
      let '(chat, updated, errors) := changed in
      if (0 <? List.length errors)%nat then
        Effect.Ret (set_body (createServerErrorResponse (Js.join errors ", ") IMESSAGE_ERROR
                                (Some "Chat update executed with errors!")) ctx)
      else if (List.length updated =? 0)%nat then
        let* response := call (getChatResponse chat) in
        Effect.Ret (set_body (createSuccessResponse response
                                (Some "Chat not updated! No update information provided!")
                                None) ctx)
      else
        let* response := call (getChatResponse chat) in
        Effect.Ret (set_body (createSuccessResponse response
                                (Some ("Successfully updated the following fields: "
                                         ++ String.concat ", " updated)%string)
                                None) ctx).

(** [!address || address.length === 0] *)
Definition not_provided (address : Js.Value) : bool :=
  negb (Js.truthy address) || Js.is_number (Js.get address "length") (Js.of_Z 0).

Definition toggleParticipant (ctx : RouterContext) (action : ParticipantAction)
  : Prog RouterContext :=
  let body := Request.body (request ctx) in
  let guid := params_guid ctx in
  let address := Js.opt_get body "address" in
  let* _ := call checkPrivateApiStatus in
  if not_provided address then
    Effect.Ret (set_body (createNotFoundResponse "Participant address not provided!")
                         (set_status 404 ctx))
  else
    let* chats := call (iMessageRepo_getChats {| ChatParams.chatGuid := guid;
                                    ChatParams.withSMS := None;
                                    ChatParams.withParticipants := Some false |}) in
    if no_chats chats then
      Effect.Ret (set_body (createNotFoundResponse "Chat does not exist!") (set_status 404 ctx))
    else
      let chat := first_chat chats in
      let* chat := call (ChatInterface_toggleParticipant chat address action) in
      let* response := call (getChatResponse chat) in
      Effect.Ret (set_body (createSuccessResponse response
                              (Some "Successfully added participant!") None) ctx).

Definition addParticipant (ctx : RouterContext) : Prog RouterContext :=
  toggleParticipant ctx add.

Definition removeParticipant (ctx : RouterContext) : Prog RouterContext :=
  toggleParticipant ctx remove.

End Handlers.

End ChatRouter.

(* ===================================================================== *)
(** * Stand-ins for running the definitions on examples                   *)
(* ===================================================================== *)

(** One concrete choice for everything the definitions above leave open:
    a runtime restricted to ASCII, a decimal [parseNumber], a server with
    a list of chats, and a correlation core.  The properties below hold
    for every choice; these are the ones the examples run on. *)
Module Sample.
Import Ascii.

Definition lower (c : ascii) : ascii :=
  let n := nat_of_ascii c in
  if (65 <=? n)%nat && (n <=? 90)%nat then ascii_of_nat (n + 32) else c.

Fixpoint toLowerCase (s : string) : string :=
  match s with
  | EmptyString => EmptyString
  | String c rest => String (lower c) (toLowerCase rest)
  end.

Fixpoint ltrim (s : string) : string :=
  match s with
  | String " " rest => ltrim rest
  | _ => s
  end.

Fixpoint rtrim (s : string) : string :=
  match s with
  | EmptyString => EmptyString
  | String c rest =>
      match rtrim rest with
      | EmptyString => if Ascii.eqb c " " then EmptyString else String c EmptyString
      | kept => String c kept
      end
  end.

Definition trim (s : string) : string := rtrim (ltrim s).

Fixpoint split_on (sep : ascii) (s : string) : list string :=
  match s with
  | EmptyString => [EmptyString]
  | String c rest =>
      if Ascii.eqb c sep then EmptyString :: split_on sep rest
      else match split_on sep rest with
           | [] => [String c EmptyString]
           | head :: tail => String c head :: tail
           end
  end.

Definition split (s sep : string) : list string :=
  match sep with
  | String c EmptyString => split_on c s
  | _ => [s]
  end.

Fixpoint digits (s : string) (acc : Z) : option Z :=
  match s with
  | EmptyString => Some acc
  | String c rest =>
      let n := nat_of_ascii c in
      if (48 <=? n)%nat && (n <=? 57)%nat
      then digits rest (10 * acc + Z.of_nat (n - 48))
      else None
  end.

Definition integer (s : string) : option Z :=
  match s with
  | EmptyString => None
  | String "-" EmptyString => None
  | String "-" rest => option_map Z.opp (digits rest 0)
  | _ => digits s 0
  end.

Definition parseInt (v : Js.Value) : Js.Num :=
  match v with
  | Js.Str s => match integer s with Some z => Js.of_Z z | None => Js.NaN end
  | Js.Number n => n
  | _ => Js.NaN
  end.

Definition toString (v : Js.Value) : string :=
  match v with
  | Js.Str s => s
  | Js.Bool true => "true"
  | Js.Bool false => "false"
  | Js.Null => "null"
  | Js.Undefined => "undefined"
  | Js.Function name _ => ("function " ++ name ++ "() { [native code] }")%string
  | _ => "[object Object]"
  end.

#[global] Instance runtime : Js.Runtime := {
  Js.toLowerCase := toLowerCase;
  Js.trim := trim;
  Js.split := split;
  Js.parseInt := parseInt;
  Js.toString := toString
}.

(** A [parseNumber]: decimal integers and numbers that are not [NaN]
    parse, everything else is [null]. *)
Definition parseNumber (v : Js.Value) : option Js.Num :=
  match v with
  | Js.Number Js.NaN => None
  | Js.Number n => Some n
  | Js.Str s => option_map Js.of_Z (integer s)
  | _ => None
  end.


Definition typeError : Js.Value :=
  Js.Object [("name", Js.Str "TypeError"); ("message", Js.Str "filter is not a function")].

(** A server: whether the helper is connected, the configuration flag,
    and the chats of the message store. *)
Record Server : Type := {
  connected : bool;
  enable_private_api : bool;
  chats : list Js.Value
}.

Definition has_guid (guid : string) (chat : Js.Value) : bool :=
  match Js.get chat "guid" with
  | Js.Str g => String.eqb g guid
  | _ => false
  end.

Definition same_guid (a b : Js.Value) : bool :=
  match Js.get a "guid" with
  | Js.Str g => has_guid g b
  | _ => false
  end.

Definition serve (c : ChatRouter.Call) (s : Server) : ChatRouter.Reply c * Server :=
  match c return ChatRouter.Reply c * Server with
  | ChatRouter.checkPrivateApiStatus =>
      (if connected s then inr tt
       else inl (Js.Object [("message", Js.Str "iMessage Private API Helper is not connected!")]),
       s)
  | ChatRouter.repo_getConfig key =>
      (inr (if String.eqb key "enable_private_api"
            then Js.Bool (enable_private_api s) else Js.Undefined), s)
  | ChatRouter.iMessageRepo_getChats params =>
      (inr (Some (List.filter (has_guid (ChatParams.chatGuid params)) (chats s))), s)
  | ChatRouter.iMessageRepo_getMessages opts =>
      (inr (Some [Js.Object [("guid", Js.Str "message-1")];
                  Js.Object [("guid", Js.Str "message-2")]]), s)
  | ChatRouter.iMessageRepo_getChatCount => (inr (Js.Number (Js.of_nat (List.length (chats s)))), s)
  | ChatRouter.getChatResponse chat => (inr chat, s)
  | ChatRouter.getMessageResponse msg => (inr msg, s)
  | ChatRouter.ChatInterface_get params => (inr (Js.Array (chats s)), s)
  | ChatRouter.ChatInterface_setDisplayName chat displayName =>
      let renamed := Js.assign chat "displayName" displayName in
      (inr renamed,
       {| connected := connected s; enable_private_api := enable_private_api s;
          chats := List.map (fun stored => if same_guid chat stored then renamed else stored)
                     (chats s) |})
  | ChatRouter.ChatInterface_toggleParticipant chat address action => (inr chat, s)
  end.

Definition chat1 : Js.Value :=
  Js.Object [("guid", Js.Str "iMessage;+;chat1"); ("displayName", Js.Str "Family")].

Definition server : Server :=
  {| connected := true; enable_private_api := true; chats := [chat1] |}.

Definition disabled : Server :=
  {| connected := true; enable_private_api := false; chats := [chat1] |}.

Definition disconnected : Server :=
  {| connected := false; enable_private_api := true; chats := [chat1] |}.

(** A request on [chat1] with the given query string and body. *)
Definition ctx (query : list (string * string)) (body : Js.Value) : ChatRouter.RouterContext :=
  {| ChatRouter.request := {| Request.query := query; Request.body := body |};
     ChatRouter.params_guid := "iMessage;+;chat1";
     ChatRouter.status := None;
     ChatRouter.body := None |}.

Definition identifier (n : nat) : string :=
  String.concat "" (List.repeat "x" (S n)).

Definition empty_registry : Registry.Registry :=
  {| Registry.pending := ∅; Registry.completions := [] |}.

(** A core with a ready transport and nothing pending. *)
Definition core : Dispatcher.Core :=
  {| Dispatcher.ready := true; Dispatcher.outbox := [];
     Dispatcher.registry := empty_registry; Dispatcher.clock := 0;
     Dispatcher.generateId := identifier; Dispatcher.generated := 0;
     Dispatcher.notifications := [] |}.

(** The same core with the transport down. *)
Definition offline : Dispatcher.Core :=
  {| Dispatcher.ready := false; Dispatcher.outbox := [];
     Dispatcher.registry := empty_registry; Dispatcher.clock := 0;
     Dispatcher.generateId := identifier; Dispatcher.generated := 0;
     Dispatcher.notifications := [] |}.

(** A dispatcher that refuses every send and keeps no record of it. *)
Definition refusing (c : PrivateApiFaceTime.Call) (w : unit)
  : PrivateApiFaceTime.Reply c * unit :=
  match c return PrivateApiFaceTime.Reply c * unit with
  | PrivateApiFaceTime.NewTransactionPromise type =>
      ({| Transaction.promiseType := type |}, w)
  | PrivateApiFaceTime.SendApiMessage _ _ _ => (inl Transaction.TransportUnavailable, w)
  end.

(** A registry in which ["x"] is pending. *)
Definition one_pending : Registry.Registry :=
  {| Registry.pending :=
       {[ "x" := {| Transaction.id := "x"; Transaction.kind := Transaction.OTHER;
                    Transaction.createdAt := 0; Transaction.state := Transaction.Pending |} ]};
     Registry.completions := [] |}.

End Sample.

(* ===================================================================== *)
(** * The rest of [ChatRouter]: [count], [find], [create]                 *)
(* ===================================================================== *)

Module ChatRouterRest.

(** The collaborators of the three handlers: those of the other handlers
    and three more, [Server().iMessageRepo.getChats({ withSMS })] without
    a chat guid, [Server().iMessageRepo.getChatLastMessage(guid)] and
    [ChatInterface.create(addresses)]. *)
Inductive Call : Type :=
| known (c : ChatRouter.Call)
| iMessageRepo_getChats_withSMS (withSMS : bool)
| iMessageRepo_getChatLastMessage (chatGuid : string)
| ChatInterface_create (addresses : Js.Value).

Definition Result (c : Call) : Type :=
  match c with
  | known c => ChatRouter.Result c
  | iMessageRepo_getChats_withSMS _ => option (list Js.Value)
  | iMessageRepo_getChatLastMessage _ | ChatInterface_create _ => Js.Value
  end.

(** Every collaborator may throw (or reject) instead of answering. *)
Definition Reply (c : Call) : Type := (Js.Value + Result c)%type.

Abbreviation Prog := (Effect.Prog Call Reply Js.Value).

(** [await c] *)
Definition call (c : Call) : Prog (Result c) :=
  Effect.Do c (fun r => match r with
                        | inl ex => Effect.Throw ex
                        | inr v => Effect.Ret v
                        end).

(** The collaborators that change something: those of the other
    handlers that change a chat, and [ChatInterface.create]. *)
Definition mutates (c : Call) : bool :=
  match c with
  | known c => ChatRouter.mutates c
  | ChatInterface_create _ => true
  | _ => false
  end.

(** The argument [count] gives [createSuccessResponse]:
    [{ total, breakdown }], the breakdown read as a finite map from
    service name to count. *)
Record Counts : Type := {
  total : nat;
  breakdown : gmap string nat
}.

(** The service name a chat is filed under, when it has a string one. *)
Definition service (chat : Js.Value) : option string :=
  match Js.get chat "serviceName" with
  | Js.Str s => Some s
  | _ => None
  end.

(** A chat object whose [serviceName] is a string other than
    ["__proto__"]. *)
Definition named (chat : Js.Value) : bool :=
  negb (Js.nullish chat)
  && match service chat with
     | Some s => negb (String.eqb s "__proto__")
     | None => false
     end.

(** The number of chats filed under the service name [s]. *)
Definition filed (s : string) (chats : list Js.Value) : nat :=
  List.length (List.filter (fun chat => bool_decide (service chat = Some s)) chats).

(** The sum of the counts of a breakdown. *)
Definition counted (m : gmap string nat) : nat :=
  map_fold (fun (_ : string) (n acc : nat) => (n + acc)%nat) 0%nat m.

(** What a handler may leave in the context when it returns: the request
    and the route parameters as they were, a body, and a status that is
    assigned with the error responses only: 404 with "not found", 400
    with "bad request", 404 or none with a server error, none with a
    success. *)
Definition responded (ctx ctx' : ChatRouter.RouterContext) : Prop :=
  ChatRouter.request ctx' = ChatRouter.request ctx
  /\ ChatRouter.params_guid ctx' = ChatRouter.params_guid ctx
  /\ exists b,
       ChatRouter.body ctx' = Some b
       /\ match b with
          | ChatRouter.createSuccessResponse _ _ _ =>
              ChatRouter.status ctx' = ChatRouter.status ctx
          | ChatRouter.createNotFoundResponse _ => ChatRouter.status ctx' = Some 404%nat
          | ChatRouter.createBadRequestResponse _ => ChatRouter.status ctx' = Some 400%nat
          | ChatRouter.createServerErrorResponse _ _ _ =>
              ChatRouter.status ctx' = Some 404%nat
              \/ ChatRouter.status ctx' = ChatRouter.status ctx
          end.

(** [answered handle msgs w rs w']: from the state [w],
    [getMessageResponse] answers [rs] for the messages [msgs], called one
    after the other in their order, and leaves the state [w']. *)
Inductive answered {W : Type}
    (handle : forall c : ChatRouter.Call, W -> ChatRouter.Reply c * W)
  : list Js.Value -> W -> list Js.Value -> W -> Prop :=
| answered_nil (w : W) : answered handle [] w [] w
| answered_cons (msg : Js.Value) (msgs : list Js.Value) (w : W)
    (r : Js.Value) (rs : list Js.Value) (w' : W) :
    fst (handle (ChatRouter.getMessageResponse msg) w) = inr r ->
    answered handle msgs (snd (handle (ChatRouter.getMessageResponse msg) w)) rs w' ->
    answered handle (msg :: msgs) w (r :: rs) w'.

Section Handlers.
Context `{Js.Runtime}.

(** The TypeError the engine throws: iterating [null], reading a
    property of [null], assigning a property of a value that is not an
    object. *)
Variable typeError : Js.Value.

(** The property key a value is used as: a string is its own key, any
    other value is converted to a string. *)
Definition property_key (v : Js.Value) : string :=
  match v with
  | Js.Str s => s
  | _ => Js.toString v
  end.

(** [Object.keys(serviceCounts).includes(v)]: the keys are strings, so
    only a string can be among them. *)
Definition keys_include (serviceCounts : gmap string nat) (v : Js.Value) : bool :=
  match v with
  | Js.Str s => bool_decide (is_Some (serviceCounts !! s))
  | _ => false
  end.

(** The body of the loop of [count] for a chat object:
    [if (!Object.keys(serviceCounts).includes(chat.serviceName))
       serviceCounts[chat.serviceName] = 0;
     serviceCounts[chat.serviceName] += 1].
    The key ["__proto__"] never becomes an own property: assigning a
    number to it is ignored. *)
Definition tally (serviceCounts : gmap string nat) (chat : Js.Value) : gmap string nat :=
  let serviceName := Js.get chat "serviceName" in
  let key := property_key serviceName in
  if String.eqb key "__proto__" then serviceCounts
  else
    let serviceCounts :=
      if keys_include serviceCounts serviceName then serviceCounts
      else <[key := 0%nat]> serviceCounts in
    <[key := (default 0%nat (serviceCounts !! key) + 1)%nat]> serviceCounts.

(** The handler reads nothing of the context and assigns [ctx.body]; the
    result is the argument of [createSuccessResponse]. *)
Definition count : Prog Counts :=
  let* chats := call (iMessageRepo_getChats_withSMS true) in
  match chats with
  | None => Effect.Throw typeError
  | Some chats =>
      let* serviceCounts :=
        Effect.for_each
          (fun (serviceCounts : gmap string nat) (chat : Js.Value) =>
             if Js.nullish chat then Effect.Throw typeError
             else Effect.Ret (tally serviceCounts chat))
          chats ∅ in
      Effect.Ret {| total := List.length chats; breakdown := serviceCounts |}
  end.

(** [res.lastMessage = ...] happens after the two awaits; it throws for a
    [res] that is not an object ([getChatResponse] builds an object, never
    an array or a function). *)
Definition find (ctx : ChatRouter.RouterContext) : Prog ChatRouter.RouterContext :=
  let query := Request.query (ChatRouter.request ctx) in
  let withQuery :=
    List.map Js.trim
      (Js.split (Js.toLowerCase (default "" (Request.param "with" query))) ",") in
  let withParticipants := Js.includes withQuery "participants" in
  let withLastMessage := Js.includes withQuery "lastmessage" in
  let* chats :=
    call (known (ChatRouter.iMessageRepo_getChats
                   {| ChatParams.chatGuid := ChatRouter.params_guid ctx;
                      ChatParams.withSMS := Some true;
                      ChatParams.withParticipants := Some withParticipants |})) in
  if ChatRouter.no_chats chats then
    Effect.Ret (ChatRouter.set_body (ChatRouter.createNotFoundResponse "Chat does not exist!")
                  (ChatRouter.set_status 404 ctx))
  else
    let* res := call (known (ChatRouter.getChatResponse (ChatRouter.first_chat chats))) in
    let* res :=
      if withLastMessage then
        let* last := call (iMessageRepo_getChatLastMessage (ChatRouter.params_guid ctx)) in
        let* lastMessage := call (known (ChatRouter.getMessageResponse last)) in
        match res with
        | Js.Object _ => Effect.Ret (Js.assign res "lastMessage" lastMessage)
        | _ => Effect.Throw typeError
        end
      else Effect.Ret (res : Js.Value) in
    Effect.Ret (ChatRouter.set_body (ChatRouter.createSuccessResponse res None None) ctx).

Definition create (ctx : ChatRouter.RouterContext) : Prog ChatRouter.RouterContext :=
  let body := Request.body (ChatRouter.request ctx) in
  let addresses := Js.opt_get body "addresses" in
  let* enablePrivateApi := call (known (ChatRouter.repo_getConfig "enable_private_api")) in
  if negb (Js.truthy enablePrivateApi) then
    Effect.Ret (ChatRouter.set_body
                  (ChatRouter.createServerErrorResponse "Private API is not enabled!"
                     ChatRouter.IMESSAGE_ERROR None)
                  (ChatRouter.set_status 404 ctx))
  else
    let* _ := call (ChatInterface_create addresses) in
    Effect.Ret (ChatRouter.set_body
                  (ChatRouter.createSuccessResponse Js.Null
                     (Some "Successfully executed create chat command!") None)
                  ctx).

End Handlers.

End ChatRouterRest.

(** Stand-ins for the three handlers: the sample server answering the
    three further calls, and chats that carry a service name. *)
Module SampleRest.

Definition serve (c : ChatRouterRest.Call) (s : Sample.Server)
  : ChatRouterRest.Reply c * Sample.Server :=
  match c return ChatRouterRest.Reply c * Sample.Server with
  | ChatRouterRest.known c => Sample.serve c s
  | ChatRouterRest.iMessageRepo_getChats_withSMS _ => (inr (Some (Sample.chats s)), s)
  | ChatRouterRest.iMessageRepo_getChatLastMessage _ =>
      (inr (Js.Object [("guid", Js.Str "message-2")]), s)
  | ChatRouterRest.ChatInterface_create _ => (inr Js.Undefined, s)
  end.

Definition chat (guid service : string) : Js.Value :=
  Js.Object [("guid", Js.Str guid); ("serviceName", Js.Str service)].

(** Two iMessage chats and one SMS chat. *)
Definition server : Sample.Server :=
  {| Sample.connected := true; Sample.enable_private_api := true;
     Sample.chats := [chat "iMessage;+;chat1" "iMessage"; chat "SMS;-;+1555" "SMS";
                      chat "iMessage;-;a@b.c" "iMessage"] |}.

(** Three chats whose [serviceName] is [null]. *)
Definition unnamed : Sample.Server :=
  {| Sample.connected := true; Sample.enable_private_api := true;
     Sample.chats := [Js.Object [("guid", Js.Str "a"); ("serviceName", Js.Null)];
                      Js.Object [("guid", Js.Str "b"); ("serviceName", Js.Null)];
                      Js.Object [("guid", Js.Str "c"); ("serviceName", Js.Null)]] |}.

(** A server whose chat interface fails. *)
Definition failing (c : ChatRouter.Call) (s : Sample.Server)
  : ChatRouter.Reply c * Sample.Server :=
  match c return ChatRouter.Reply c * Sample.Server with
  | ChatRouter.ChatInterface_setDisplayName _ _ =>
      (inl (Js.Object [("message", Js.Str "Failed to set display name")]), s)
  | ChatRouter.ChatInterface_toggleParticipant _ _ _ =>
      (inl (Js.Object [("message", Js.Str "Failed to toggle participant")]), s)
  | c => Sample.serve c s
  end.

End SampleRest.

(* ===================================================================== *)
(** * Properties of the registry                                          *)
(* ===================================================================== *)

Module RegistryFacts.
Import Transaction Registry.

Lemma attempt_settle (a : Attempt) (reg : Registry) :
  attempt a reg = settle (target a) (terminal a) (verdict a) reg.
Proof. destruct a; reflexivity. Qed.

Lemma settle_dead (i : string) (s : State) (r : TransactionResult) (reg : Registry) :
  live i reg = false -> settle i s r reg = reg.
Proof. intros Hdead. unfold settle. rewrite Hdead. reflexivity. Qed.

Lemma live_settle_eq (i : string) (s : State) (r : TransactionResult) (reg : Registry) :
  live i (settle i s r reg) = false.
Proof.
  unfold settle. destruct (live i reg) eqn:Hlive; [|exact Hlive].
  unfold live. simpl. rewrite lookup_delete_eq. reflexivity.
Qed.

Lemma live_settle_ne (i j : string) (s : State) (r : TransactionResult) (reg : Registry) :
  i <> j -> live j (settle i s r reg) = live j reg.
Proof.
  intros Hne. unfold settle. destruct (live i reg); [|reflexivity].
  unfold live. simpl. rewrite lookup_delete_ne by exact Hne. reflexivity.
Qed.

(** A transaction that left [Pending] never comes back through an
    attempt. *)
Lemma dead_stays_dead (i : string) (a : Attempt) (reg : Registry) :
  live i reg = false -> live i (attempt a reg) = false.
Proof.
  intros Hdead. rewrite attempt_settle.
  destruct (String.eqb_spec (target a) i) as [->|Hne].
  - apply live_settle_eq.
  - rewrite live_settle_ne by exact Hne. exact Hdead.
Qed.

Lemma dead_no_winner (i : string) (l : list Attempt) :
  forall reg, live i reg = false -> List.filter (aims_at i) (winners l reg) = [].
Proof.
  induction l as [|a l IH]; intros reg Hdead; [reflexivity|].
  simpl. rewrite List.filter_app, (IH _ (dead_stays_dead i a reg Hdead)), app_nil_r.
  destruct (live (target a) reg) eqn:Hlive; [|reflexivity].
  simpl. unfold aims_at. destruct (String.eqb_spec (target a) i) as [Heq|Hne]; [|reflexivity].
  rewrite Heq in Hlive. congruence.
Qed.

(** The winner among the attempts on [i] is the first of them, provided
    the transaction is pending when the race starts. *)
Lemma first_wins (i : string) (l : list Attempt) :
  forall reg,
    List.filter (aims_at i) (winners l reg) = if live i reg then first_at i l else [].
Proof.
  induction l as [|a l IH]; intros reg.
  - simpl. destruct (live i reg); reflexivity.
  - destruct (live i reg) eqn:Hlive; [|apply dead_no_winner; exact Hlive].
    simpl. rewrite List.filter_app. unfold first_at. simpl.
    destruct (aims_at i a) eqn:Haim.
    + assert (Heq : target a = i) by (apply String.eqb_eq; exact Haim).
      rewrite Heq, Hlive. simpl. rewrite Haim.
      rewrite (dead_no_winner i l); [reflexivity|].
      rewrite attempt_settle, Heq. apply live_settle_eq.
    + assert (Hne : target a <> i) by (apply String.eqb_neq; exact Haim).
      assert (Hnil : List.filter (aims_at i)
                       (if live (target a) reg then [a] else []) = []).
      { destruct (live (target a) reg); [|reflexivity]. simpl. rewrite Haim. reflexivity. }
      rewrite Hnil, IH. simpl.
      rewrite attempt_settle, live_settle_ne by exact Hne. rewrite Hlive. reflexivity.
Qed.

(** Every slot write of a serialisation is the settlement of a winner, in
    order. *)
Lemma completions_attempts (l : list Attempt) :
  forall reg,
    completions (attempts l reg) = completions reg ++ List.map settlement (winners l reg).
Proof.
  induction l as [|a l IH]; intros reg.
  - simpl. rewrite app_nil_r. reflexivity.
  - simpl. rewrite IH, attempt_settle. unfold settle.
    destruct (live (target a) reg); simpl.
    + rewrite <- app_assoc. reflexivity.
    + reflexivity.
Qed.

Lemma writes_app (i : string) (l1 l2 : list Settlement) :
  writes i (l1 ++ l2) = writes i l1 ++ writes i l2.
Proof. apply List.filter_app. Qed.

Lemma writes_settlements (i : string) (l : list Attempt) :
  writes i (List.map settlement l) = List.map settlement (List.filter (aims_at i) l).
Proof.
  induction l as [|a l IH]; [reflexivity|].
  simpl. unfold writes in *. simpl. unfold aims_at at 1.
  destruct (String.eqb (target a) i); simpl; rewrite IH; reflexivity.
Qed.

Lemma losers_noop (l : list Attempt) :
  forall reg, Forall (fun p : Registry * Registry => snd p = fst p) (losers l reg).
Proof.
  induction l as [|a l IH]; intros reg; simpl; [constructor|].
  apply Forall_app. split; [|apply IH].
  destruct (live (target a) reg) eqn:Hlive; constructor; [|constructor].
  simpl. rewrite attempt_settle. apply settle_dead. exact Hlive.
Qed.

Lemma first_at_length (i : string) (l : list Attempt) :
  List.length (first_at i l) = if existsb (aims_at i) l then 1%nat else 0%nat.
Proof.
  unfold first_at. induction l as [|a l IH]; [reflexivity|].
  simpl. destruct (aims_at i a); simpl; [reflexivity|exact IH].
Qed.

Lemma live_attempts (i : string) (l : list Attempt) :
  forall reg, live i (attempts l reg) = live i reg && negb (existsb (aims_at i) l).
Proof.
  induction l as [|a l IH]; intros reg; simpl.
  - rewrite andb_true_r. reflexivity.
  - rewrite IH, attempt_settle. destruct (aims_at i a) eqn:Haim; simpl.
    + assert (Heq : target a = i) by (apply String.eqb_eq; exact Haim).
      rewrite Heq, live_settle_eq, andb_false_r. reflexivity.
    + assert (Hne : target a <> i) by (apply String.eqb_neq; exact Haim).
      rewrite live_settle_ne by exact Hne. reflexivity.
Qed.

End RegistryFacts.

(** C1. For every transaction at most one transition out of [Pending]
    ever succeeds.  Take any registry and any serialisation [l] of
    concurrent resolve, reject and timeout attempts (on any ids), and look
    at the attempts on the id [i] that win.  There is at most one; there
    is exactly one when [i] is pending at the start and some attempt aims
    at it, and then it is the first of them; every attempt that does not
    win leaves the registry as it found it; and the completion slot of
    [i] receives exactly the winner's result, so it is written at most
    once. *)
Theorem exactly_once_resolution
    (reg : Registry.Registry) (i : string) (l : list Registry.Attempt) :
  (List.length (List.filter (Registry.aims_at i) (Registry.winners l reg)) <= 1)%nat
  /\ List.length (List.filter (Registry.aims_at i) (Registry.winners l reg))
     = (if Registry.live i reg && existsb (Registry.aims_at i) l then 1 else 0)%nat
  /\ List.filter (Registry.aims_at i) (Registry.winners l reg)
     = (if Registry.live i reg then Registry.first_at i l else [])
  /\ Forall (fun p : Registry.Registry * Registry.Registry => snd p = fst p)
            (Registry.losers l reg)
  /\ Registry.writes i (Registry.completions (Registry.attempts l reg))
     = Registry.writes i (Registry.completions reg)
       ++ List.map Registry.settlement
            (List.filter (Registry.aims_at i) (Registry.winners l reg))
  /\ Registry.live i (Registry.attempts l reg)
     = Registry.live i reg && negb (existsb (Registry.aims_at i) l).
Proof.
  pose proof (RegistryFacts.first_wins i l reg) as Hwon.
  pose proof (RegistryFacts.first_at_length i l) as Hlen.
  repeat split.
  - rewrite Hwon. destruct (Registry.live i reg); simpl; [|lia].
    rewrite Hlen. destruct (existsb (Registry.aims_at i) l); lia.
  - rewrite Hwon. destruct (Registry.live i reg); simpl; [exact Hlen|reflexivity].
  - exact Hwon.
  - apply RegistryFacts.losers_noop.
  - rewrite RegistryFacts.completions_attempts, RegistryFacts.writes_app,
      RegistryFacts.writes_settlements. reflexivity.
  - apply RegistryFacts.live_attempts.
Qed.

(* ===================================================================== *)
(** * Properties of the Domain Actions                                    *)
(* ===================================================================== *)

Module FaceTimeFacts.
Import Transaction PrivateApiFaceTime.

(** The arguments [generateLink] builds: [{ callUUID: uuid ?? null }]. *)
Lemma generateLink_args (uuid : Js.Value) :
  Js.assign (Js.Object []) "callUUID"
    (Js.coalesce (match uuid with Js.Undefined => Js.Null | _ => uuid end) Js.Null)
  = Js.Object [("callUUID", Js.coalesce uuid Js.Null)].
Proof. destruct uuid; reflexivity. Qed.

Section AnyWorld.
Variable W : Type.
Variable handle : forall c : Call, W -> Reply c * W.

(** A send is one call of the dispatcher, whatever it answers. *)
Lemma run_sendApiMessage (a : string) (d : Js.Value) (t : option TransactionPromise) (w : W) :
  Effect.run handle (sendApiMessage a d t) w
  = Effect.MkRun [SendApiMessage a d t]
      (fst (handle (SendApiMessage a d t) w))
      (snd (handle (SendApiMessage a d t) w)).
Proof.
  unfold sendApiMessage. simpl.
  destruct (handle (SendApiMessage a d t) w) as [[e|h] w']; reflexivity.
Qed.

(** [generateLink] constructs its request, then sends once. *)
Lemma run_generateLink (uuid : Js.Value) (w : W) :
  let request := fst (handle (NewTransactionPromise OTHER) w) in
  let w1 := snd (handle (NewTransactionPromise OTHER) w) in
  let send :=
    SendApiMessage "generate-link" (Js.Object [("callUUID", Js.coalesce uuid Js.Null)])
      (Some request) in
  Effect.run handle (generateLink uuid) w
  = Effect.MkRun [NewTransactionPromise OTHER; send]
      (fst (handle send w1)) (snd (handle send w1)).
Proof.
  unfold generateLink. rewrite generateLink_args.
  unfold new_TransactionPromise. simpl.
  destruct (handle (NewTransactionPromise OTHER) w) as [request w1]. simpl.
  destruct (handle _ w1) as [[e|h] w2]; reflexivity.
Qed.

End AnyWorld.
End FaceTimeFacts.

(** C2. Whatever the dispatcher and its state, each Domain Action hands
    it one Action Message with the name and the arguments of its
    operation: [answerCall(uuid)] sends "answer-call" with
    [{callUUID: uuid}], [leaveCall(uuid)] sends "leave-call" with
    [{callUUID: uuid}], [admitParticipant(c, h)] sends
    "admit-pending-member" with [{conversationUUID: c, handleUUID: h}],
    all three without a transaction request; [generateLink] constructs a
    [TransactionPromise] of type [OTHER] and sends "generate-link" with
    [{callUUID: uuid ?? null}] and that request: it is the only one that
    requests a transaction. *)
Theorem domain_actions_shape
    (W : Type)
    (handle : forall c : PrivateApiFaceTime.Call, W -> PrivateApiFaceTime.Reply c * W)
    (w : W) :
  (forall uuid,
      Effect.trace (Effect.run handle (PrivateApiFaceTime.answerCall uuid) w)
      = [PrivateApiFaceTime.SendApiMessage "answer-call"
           (Js.Object [("callUUID", Js.Str uuid)]) None])
  /\ (forall uuid,
      Effect.trace (Effect.run handle (PrivateApiFaceTime.leaveCall uuid) w)
      = [PrivateApiFaceTime.SendApiMessage "leave-call"
           (Js.Object [("callUUID", Js.Str uuid)]) None])
  /\ (forall c h,
      Effect.trace (Effect.run handle (PrivateApiFaceTime.admitParticipant c h) w)
      = [PrivateApiFaceTime.SendApiMessage "admit-pending-member"
           (Js.Object [("conversationUUID", Js.Str c); ("handleUUID", Js.Str h)]) None])
  /\ (forall uuid,
      Effect.trace (Effect.run handle (PrivateApiFaceTime.generateLink uuid) w)
      = [PrivateApiFaceTime.NewTransactionPromise Transaction.OTHER;
         PrivateApiFaceTime.SendApiMessage "generate-link"
           (Js.Object [("callUUID", Js.coalesce uuid Js.Null)])
           (Some (fst (handle (PrivateApiFaceTime.NewTransactionPromise Transaction.OTHER) w)))])
  /\ (forall d,
      existsb (fun m => match snd m with Some _ => true | None => false end)
        (PrivateApiFaceTime.sent
           (Effect.trace (Effect.run handle (PrivateApiFaceTime.invoke d) w)))
      = match d with PrivateApiFaceTime.GenerateLink _ => true | _ => false end).
Proof.
  repeat split; intros.
  - unfold PrivateApiFaceTime.answerCall. rewrite FaceTimeFacts.run_sendApiMessage. reflexivity.
  - unfold PrivateApiFaceTime.leaveCall. rewrite FaceTimeFacts.run_sendApiMessage. reflexivity.
  - unfold PrivateApiFaceTime.admitParticipant.
    rewrite FaceTimeFacts.run_sendApiMessage. reflexivity.
  - rewrite FaceTimeFacts.run_generateLink. reflexivity.
  - destruct d; simpl PrivateApiFaceTime.invoke.
    + unfold PrivateApiFaceTime.answerCall.
      rewrite FaceTimeFacts.run_sendApiMessage. reflexivity.
    + unfold PrivateApiFaceTime.leaveCall.
      rewrite FaceTimeFacts.run_sendApiMessage. reflexivity.
    + rewrite FaceTimeFacts.run_generateLink. reflexivity.
    + unfold PrivateApiFaceTime.admitParticipant.
      rewrite FaceTimeFacts.run_sendApiMessage. reflexivity.
Qed.

(* ===================================================================== *)
(** * Properties of the dispatcher                                        *)
(* ===================================================================== *)

Module DispatcherFacts.
Import Transaction Registry Dispatcher.

Lemma sendApiMessage_offline (a : string) (d : Js.Value)
    (t : option TransactionPromise) (c : Core) :
  ready c = false -> sendApiMessage a d t c = (inl TransportUnavailable, c).
Proof. intros Hdown. unfold sendApiMessage. rewrite Hdown. reflexivity. Qed.

Lemma sendApiMessage_no_request (a : string) (d : Js.Value) (c : Core) :
  sendApiMessage a d None c
  = if ready c
    then (inr (Settled Acknowledged),
          send {| action := a; args := d; transactionId := None |} c)
    else (inl TransportUnavailable, c).
Proof. unfold sendApiMessage. destruct (ready c); reflexivity. Qed.

Lemma sendApiMessage_request (a : string) (d : Js.Value) (req : TransactionPromise) (c : Core) :
  ready c = true ->
  pending (registry c) !! generateId c (generated c) = None ->
  let i := generateId c (generated c) in
  let tx := {| id := i; kind := promiseType req; createdAt := clock c; state := Pending |} in
  sendApiMessage a d (Some req) c
  = (inr (Awaiting i (List.length (completions (registry c)))),
     {| ready := true;
        outbox := outbox c ++ [{| action := a; args := d; transactionId := Some i |}];
        registry := {| pending := <[i := tx]> (pending (registry c));
                       completions := completions (registry c) |};
        clock := clock c; generateId := generateId c; generated := S (generated c);
        notifications := notifications c |}).
Proof.
  intros Hup Hfresh. unfold sendApiMessage, next_id, create. rewrite Hup. simpl.
  rewrite Hfresh. reflexivity.
Qed.

(** Inbound messages never touch a handle that is already complete. *)
Lemma observe_settled (r : TransactionResult) (reg : Registry) :
  observe (Settled r) reg = Some r.
Proof. reflexivity. Qed.

(** The holder of a fresh handle sees the first attempt on its id. *)
Lemma observe_attempts (i : string) (l : list Attempt) (reg : Registry) :
  live i reg = true ->
  observe (Awaiting i (List.length (completions reg))) (attempts l reg)
  = option_map verdict (head (List.filter (aims_at i) l)).
Proof.
  intros Hlive. unfold observe.
  rewrite RegistryFacts.completions_attempts, drop_app_length,
    RegistryFacts.writes_settlements, RegistryFacts.first_wins, Hlive.
  unfold first_at. destruct (List.filter (aims_at i) l); reflexivity.
Qed.

(** Delivering inbound messages is a serialisation of resolve and reject
    attempts. *)
Lemma registry_deliver (ms : list InboundMessage) :
  forall c : Core,
    registry (deliver ms c) = attempts (omap as_attempt ms) (registry c).
Proof.
  induction ms as [|m ms IH]; intros c; [reflexivity|].
  simpl. rewrite IH. unfold onMessage, as_attempt.
  destruct (inboundId m) as [i|]; [|reflexivity].
  destruct (ok m); reflexivity.
Qed.

End DispatcherFacts.

(** C3. [generateLink] requests a transaction.  On a ready transport,
    with an identifier that collides with no pending transaction, the
    dispatcher creates a pending transaction of the requested kind
    [OTHER] under the new id, sends one "generate-link" message that
    carries this id, and returns a handle on the transaction.  The handle
    is incomplete at first; after any serialisation of resolve, reject
    and timeout attempts (in particular after any inbound helper
    messages) it holds the result of the first attempt on its id,
    whichever that is, and stays incomplete when there is none. *)
Theorem generateLink_correlated (uuid : Js.Value) (c : Dispatcher.Core) :
  Dispatcher.ready c = true ->
  Registry.pending (Dispatcher.registry c)
    !! Dispatcher.generateId c (Dispatcher.generated c) = None ->
  let i := Dispatcher.generateId c (Dispatcher.generated c) in
  let r := Effect.run PrivateApiFaceTime.on_core (PrivateApiFaceTime.generateLink uuid) c in
  let h := Transaction.Awaiting i
             (List.length (Registry.completions (Dispatcher.registry c))) in
  Effect.trace r
  = [PrivateApiFaceTime.NewTransactionPromise Transaction.OTHER;
     PrivateApiFaceTime.SendApiMessage "generate-link"
       (Js.Object [("callUUID", Js.coalesce uuid Js.Null)])
       (Some {| Transaction.promiseType := Transaction.OTHER |})]
  /\ Effect.outcome r = inr h
  /\ Registry.pending (Dispatcher.registry (Effect.final r))
     = <[i := {| Transaction.id := i; Transaction.kind := Transaction.OTHER;
                 Transaction.createdAt := Dispatcher.clock c;
                 Transaction.state := Transaction.Pending |}]>
         (Registry.pending (Dispatcher.registry c))
  /\ Dispatcher.outbox (Effect.final r)
     = Dispatcher.outbox c
       ++ [{| Transaction.action := "generate-link";
              Transaction.args := Js.Object [("callUUID", Js.coalesce uuid Js.Null)];
              Transaction.transactionId := Some i |}]
  /\ Registry.observe h (Dispatcher.registry (Effect.final r)) = None
  /\ (forall l : list Registry.Attempt,
       Registry.observe h (Registry.attempts l (Dispatcher.registry (Effect.final r)))
       = option_map Registry.verdict (head (List.filter (Registry.aims_at i) l)))
  /\ (forall ms : list Transaction.InboundMessage,
       Registry.observe h (Dispatcher.registry (Dispatcher.deliver ms (Effect.final r)))
       = option_map Registry.verdict
           (head (List.filter (Registry.aims_at i) (omap Dispatcher.as_attempt ms)))).
Proof.
  intros Hup Hfresh i r h.
  assert (Hrun : r = Effect.MkRun
            [PrivateApiFaceTime.NewTransactionPromise Transaction.OTHER;
             PrivateApiFaceTime.SendApiMessage "generate-link"
               (Js.Object [("callUUID", Js.coalesce uuid Js.Null)])
               (Some {| Transaction.promiseType := Transaction.OTHER |})]
            (inr h)
            (snd (Dispatcher.sendApiMessage "generate-link"
                    (Js.Object [("callUUID", Js.coalesce uuid Js.Null)])
                    (Some {| Transaction.promiseType := Transaction.OTHER |}) c))).
  { subst r. rewrite FaceTimeFacts.run_generateLink. simpl.
    rewrite (DispatcherFacts.sendApiMessage_request _ _ _ c Hup Hfresh). reflexivity. }
  rewrite Hrun. simpl Effect.trace. simpl Effect.outcome. simpl Effect.final.
  rewrite (DispatcherFacts.sendApiMessage_request _ _ _ c Hup Hfresh). simpl.
  assert (Hlive : Registry.live i
            {| Registry.pending :=
                 <[i := {| Transaction.id := i; Transaction.kind := Transaction.OTHER;
                           Transaction.createdAt := Dispatcher.clock c;
                           Transaction.state := Transaction.Pending |}]>
                   (Registry.pending (Dispatcher.registry c));
               Registry.completions := Registry.completions (Dispatcher.registry c) |}
            = true).
  { unfold Registry.live. simpl. rewrite lookup_insert_eq. reflexivity. }
  repeat split.
  - apply (DispatcherFacts.observe_attempts i [] _ Hlive).
  - intros l. apply (DispatcherFacts.observe_attempts i l _ Hlive).
  - intros ms. rewrite DispatcherFacts.registry_deliver.
    apply (DispatcherFacts.observe_attempts i _ _ Hlive).
Qed.

Lemma generateLink_correlated_witness :
  Dispatcher.ready Sample.core = true
  /\ Registry.pending (Dispatcher.registry Sample.core) !! "x" = None
  /\ Registry.observe (Transaction.Awaiting "x" 0)
       (Registry.attempts
          [Registry.TimeOut "y"; Registry.Reject "x" "busy"; Registry.Resolve "x" Js.Null]
          (Dispatcher.registry
             (Effect.final
                (Effect.run PrivateApiFaceTime.on_core
                   (PrivateApiFaceTime.generateLink Js.Undefined) Sample.core))))
     = Some (Transaction.Failed (Transaction.HelperReportedError "busy")).
Proof.
  split; [reflexivity|]. split; [reflexivity|].
  destruct (generateLink_correlated Js.Undefined Sample.core eq_refl eq_refl)
    as (_ & _ & _ & _ & _ & Hfirst & _).
  exact (Hfirst [Registry.TimeOut "y"; Registry.Reject "x" "busy";
                 Registry.Resolve "x" Js.Null]).
Defined.

(** C4. A fire-and-forget Domain Action ([answerCall], [leaveCall],
    [admitParticipant]) hands the dispatcher one message without a
    transaction request; the registry (pending table and completion
    slots) is the same after the call as before; the call returns at
    once, with the acknowledged result on a ready transport and with
    [TransportUnavailable] otherwise; and the result the caller holds is
    complete at return and is the same after any inbound helper
    messages. *)
Theorem fire_and_forget_does_not_register
    (d : PrivateApiFaceTime.DomainAction) (c : Dispatcher.Core) :
  PrivateApiFaceTime.fire_and_forget d = true ->
  let r := Effect.run PrivateApiFaceTime.on_core (PrivateApiFaceTime.invoke d) c in
  (exists a data, PrivateApiFaceTime.sent (Effect.trace r) = [(a, data, None)])
  /\ Dispatcher.registry (Effect.final r) = Dispatcher.registry c
  /\ Effect.outcome r
     = (if Dispatcher.ready c
        then inr (Transaction.Settled Transaction.Acknowledged)
        else inl Transaction.TransportUnavailable)
  /\ forall (h : Transaction.ResultHandle) (ms : list Transaction.InboundMessage),
       Effect.outcome r = inr h ->
       Registry.observe h (Dispatcher.registry (Effect.final r))
       = Some Transaction.Acknowledged
       /\ Registry.observe h (Dispatcher.registry (Dispatcher.deliver ms (Effect.final r)))
          = Some Transaction.Acknowledged.
Proof.
  intros Hff r.
  assert (Hrun : exists a data,
             r = Effect.MkRun [PrivateApiFaceTime.SendApiMessage a data None]
                   (fst (Dispatcher.sendApiMessage a data None c))
                   (snd (Dispatcher.sendApiMessage a data None c))).
  { subst r. destruct d; try discriminate Hff; simpl PrivateApiFaceTime.invoke.
    - unfold PrivateApiFaceTime.answerCall. rewrite FaceTimeFacts.run_sendApiMessage. eauto.
    - unfold PrivateApiFaceTime.leaveCall. rewrite FaceTimeFacts.run_sendApiMessage. eauto.
    - unfold PrivateApiFaceTime.admitParticipant.
      rewrite FaceTimeFacts.run_sendApiMessage. eauto. }
  destruct Hrun as (a & data & ->).
  rewrite DispatcherFacts.sendApiMessage_no_request.
  destruct (Dispatcher.ready c) eqn:Hready; simpl;
    (split; [eauto|]); (split; [reflexivity|]); (split; [reflexivity|]);
    intros held ms Hheld; inversion Hheld; subst; split; reflexivity.
Qed.

Lemma fire_and_forget_does_not_register_witness :
  PrivateApiFaceTime.fire_and_forget (PrivateApiFaceTime.AnswerCall "call-1") = true
  /\ Dispatcher.registry
       (Effect.final
          (Effect.run PrivateApiFaceTime.on_core
             (PrivateApiFaceTime.answerCall "call-1") Sample.core))
     = Dispatcher.registry Sample.core.
Proof.
  split; [reflexivity|].
  exact (proj1 (proj2 (fire_and_forget_does_not_register
                         (PrivateApiFaceTime.AnswerCall "call-1") Sample.core eq_refl))).
Defined.

(* ===================================================================== *)
(** * Properties of the handlers                                          *)
(* ===================================================================== *)

Module RouterFacts.
Import ChatRouter.





Section AnyServer.
Variable W : Type.
Variable handle : forall c : Call, W -> Reply c * W.

(** Awaiting a collaborator: its exception ends the handler, its answer
    continues it. *)
Lemma run_call {A : Type} (c : Call) (k : Result c -> Prog A) (w : W) :
  Effect.run handle (Effect.bind (call c) k) w
  = match fst (handle c w) with
    | inl ex => Effect.MkRun [c] (inl ex) (snd (handle c w))
    | inr v =>
        let rest := Effect.run handle (k v) (snd (handle c w)) in
        Effect.MkRun (c :: Effect.trace rest) (Effect.outcome rest) (Effect.final rest)
    end.
Proof.
  simpl. destruct (handle c w) as [[ex|v] w1]; reflexivity.
Qed.

Lemma trace_call {A : Type} (c : Call) (k : Result c -> Prog A) (w : W) :
  Effect.trace (Effect.run handle (Effect.bind (call c) k) w)
  = c :: match fst (handle c w) with
         | inl _ => []
         | inr v => Effect.trace (Effect.run handle (k v) (snd (handle c w)))
         end.
Proof.
  rewrite run_call. destruct (fst (handle c w)); reflexivity.
Qed.

Lemma outcome_call {A : Type} (c : Call) (k : Result c -> Prog A) (w : W) :
  Effect.outcome (Effect.run handle (Effect.bind (call c) k) w)
  = match fst (handle c w) with
    | inl ex => inl ex
    | inr v => Effect.outcome (Effect.run handle (k v) (snd (handle c w)))
    end.
Proof.
  rewrite run_call. destruct (fst (handle c w)); reflexivity.
Qed.

(** Converting the messages only calls [getMessageResponse]. *)
Lemma responses_trace (msgs : list Js.Value) :
  forall (acc : list Js.Value) (w : W),
    Forall (fun c => exists msg, c = getMessageResponse msg)
      (Effect.trace
         (Effect.run handle
            (Effect.for_each
               (fun (results : list Js.Value) (msg : Js.Value) =>
                  let* r := call (getMessageResponse msg) in
                  Effect.Ret (results ++ [r : Js.Value]))
               msgs acc) w)).
Proof.
  induction msgs as [|msg msgs IH]; intros acc w; [constructor|].
  simpl. destruct (handle (getMessageResponse msg) w) as [[ex|r] w1]; simpl.
  - constructor; [eauto|constructor].
  - constructor; [eauto|]. apply IH.
Qed.

End AnyServer.
End RouterFacts.

Module EffectFacts.
Section AnyHandler.
Variable Call : Type.
Variable Reply : Call -> Type.
Variable Exn : Type.
Variable W : Type.
Variable handle : forall c : Call, W -> Reply c * W.

(** A pure last step adds no call. *)
Lemma trace_bind_ret {A B : Type} (f : A -> B) (p : Effect.Prog Call Reply Exn A) :
  forall w : W,
    Effect.trace (Effect.run handle (Effect.bind p (fun a => Effect.Ret (f a))) w)
    = Effect.trace (Effect.run handle p w).
Proof.
  induction p as [a|x|c k IH]; intros w; simpl; try reflexivity.
  destruct (handle c w) as [r w1]. simpl. rewrite IH. reflexivity.
Qed.

(** Calls the handler answers without changing the world leave the
    world as it was. *)
Lemma final_frame {A : Type} (P : Call -> Prop) (p : Effect.Prog Call Reply Exn A) :
  (forall c w, P c -> snd (handle c w) = w) ->
  forall w : W,
    Forall P (Effect.trace (Effect.run handle p w)) ->
    Effect.final (Effect.run handle p w) = w.
Proof.
  intros Hframe. induction p as [a|x|c k IH]; intros w Hall; simpl in *; try reflexivity.
  pose proof (Hframe c w) as Hc.
  destruct (handle c w) as [r w1]. simpl in *.
  inversion Hall as [|c' rest Hhead Htail]; subst.
  rewrite (IH r w1 Htail). apply Hc. exact Hhead.
Qed.

End AnyHandler.
End EffectFacts.




(** C9. Whenever a [toggleParticipant] request ends with a success
    response, the message of that response is "Successfully added
    participant!", for the action [add] as for the action [remove]; in
    particular a successful [removeParticipant] reports that a
    participant was added. *)
Theorem toggleParticipant_success_message
    (W : Type) (handle : forall c : ChatRouter.Call, W -> ChatRouter.Reply c * W)
    (w : W) (ctx ctx' : ChatRouter.RouterContext) (action : ChatRouter.ParticipantAction)
    (data : Js.Value) (message : option string) (metadata : option ChatRouter.Metadata) :
  Effect.outcome (Effect.run handle (ChatRouter.toggleParticipant ctx action) w) = inr ctx' ->
  ChatRouter.body ctx' = Some (ChatRouter.createSuccessResponse data message metadata) ->
  message = Some "Successfully added participant!"
  /\ ChatRouter.addParticipant ctx = ChatRouter.toggleParticipant ctx ChatRouter.add
  /\ ChatRouter.removeParticipant ctx = ChatRouter.toggleParticipant ctx ChatRouter.remove.
Proof.
  intros Hrun Hbody. split; [|split; reflexivity].
  unfold ChatRouter.toggleParticipant in Hrun. cbv beta iota zeta in Hrun.
  rewrite RouterFacts.outcome_call in Hrun.
  destruct (fst (handle _ w)) as [ex|[]]; [discriminate Hrun|].
  destruct (ChatRouter.not_provided _).
  { simpl in Hrun. inversion Hrun; subst. simpl in Hbody. discriminate Hbody. }
  rewrite RouterFacts.outcome_call in Hrun.
  destruct (fst (handle _ _)) as [ex|chats]; [discriminate Hrun|].
  destruct (ChatRouter.no_chats chats).
  { simpl in Hrun. inversion Hrun; subst. simpl in Hbody. discriminate Hbody. }
  rewrite RouterFacts.outcome_call in Hrun.
  destruct (fst (handle _ _)) as [ex|chat]; [discriminate Hrun|].
  rewrite RouterFacts.outcome_call in Hrun.
  destruct (fst (handle _ _)) as [ex|response]; [discriminate Hrun|].
  simpl in Hrun. inversion Hrun; subst. simpl in Hbody. inversion Hbody. reflexivity.
Qed.

Lemma toggleParticipant_success_message_witness :
  Effect.outcome
    (Effect.run Sample.serve
       (ChatRouter.toggleParticipant
          (Sample.ctx [] (Js.Object [("address", Js.Str "+15551234567")]))
          ChatRouter.remove)
       Sample.server)
  = inr (ChatRouter.set_body
           (ChatRouter.createSuccessResponse Sample.chat1
              (Some "Successfully added participant!") None)
           (Sample.ctx [] (Js.Object [("address", Js.Str "+15551234567")])))
  /\ ChatRouter.removeParticipant
       (Sample.ctx [] (Js.Object [("address", Js.Str "+15551234567")]))
     = ChatRouter.toggleParticipant
         (Sample.ctx [] (Js.Object [("address", Js.Str "+15551234567")])) ChatRouter.remove.
Proof.
  split; [reflexivity|].
  exact (proj2 (proj2
           (toggleParticipant_success_message Sample.Server Sample.serve Sample.server
              (Sample.ctx [] (Js.Object [("address", Js.Str "+15551234567")]))
              _ ChatRouter.remove Sample.chat1 _ None eq_refl eq_refl))).
Defined.

(** C10, as the code has it.  For every [update] request whose body has
    no [displayName] (or an empty one) the chat is not modified: no
    [setDisplayName] call is made, every call the handler makes is a
    read, and the state of a server whose reads change nothing is the
    same after the request as before.  When moreover the Private API is
    enabled and the chat exists (the two lookups and [getChatResponse]
    answering), the handler makes exactly these three read calls and
    responds with the success response that carries the chat as it was
    found and the message "Chat not updated! No update information
    provided!". *)
Theorem update_without_displayName
    (rt : Js.Runtime) (W : Type)
    (handle : forall c : ChatRouter.Call, W -> ChatRouter.Reply c * W)
    (w : W) (ctx : ChatRouter.RouterContext) :
  ChatRouter.provided (Js.opt_get (Request.body (ChatRouter.request ctx)) "displayName")
  = false ->
  let r := Effect.run handle (ChatRouter.update ctx) w in
  let config := ChatRouter.repo_getConfig "enable_private_api" in
  let lookup :=
    ChatRouter.iMessageRepo_getChats {| ChatParams.chatGuid := ChatRouter.params_guid ctx;
                                        ChatParams.withSMS := None;
                                        ChatParams.withParticipants := Some true |} in
  (forall chat name, ~ In (ChatRouter.ChatInterface_setDisplayName chat name) (Effect.trace r))
  /\ Forall (fun c => ChatRouter.mutates c = false) (Effect.trace r)
  /\ ((forall c w', ChatRouter.mutates c = false -> snd (handle c w') = w') ->
      Effect.final r = w)
  /\ (forall enabled chats response,
        fst (handle config w) = inr enabled ->
        Js.truthy enabled = true ->
        fst (handle lookup (snd (handle config w))) = inr chats ->
        ChatRouter.no_chats chats = false ->
        fst (handle (ChatRouter.getChatResponse (ChatRouter.first_chat chats))
               (snd (handle lookup (snd (handle config w))))) = inr response ->
        Effect.trace r
        = [config; lookup; ChatRouter.getChatResponse (ChatRouter.first_chat chats)]
        /\ Effect.outcome r
           = inr (ChatRouter.set_body
                    (ChatRouter.createSuccessResponse response
                       (Some "Chat not updated! No update information provided!") None)
                    ctx)).
Proof.
  intros Hnone r config lookup.
  assert (Hreads : Forall (fun c => ChatRouter.mutates c = false) (Effect.trace r)).
  { subst r. unfold ChatRouter.update. cbv beta iota zeta. rewrite Hnone.
    rewrite RouterFacts.trace_call. constructor; [reflexivity|].
    destruct (fst (handle _ w)) as [ex|enabled]; [constructor|].
    destruct (negb (Js.truthy enabled)); [constructor|].
    rewrite RouterFacts.trace_call. constructor; [reflexivity|].
    destruct (fst (handle _ _)) as [ex|chats]; [constructor|].
    destruct (ChatRouter.no_chats chats); [constructor|].
    simpl.
    destruct (handle (ChatRouter.getChatResponse (ChatRouter.first_chat chats)) _)
      as [[ex|response] w3]; simpl; repeat constructor. }
  split; [|split; [exact Hreads|split]].
  - intros chat name Hin. rewrite List.Forall_forall in Hreads.
    specialize (Hreads _ Hin). discriminate Hreads.
  - intros Hframe. subst r.
    apply (EffectFacts.final_frame _ _ _ _ handle
             (fun c => ChatRouter.mutates c = false) _ Hframe w Hreads).
  - intros enabled chats response Henabled Htruthy Hchats Hsome Hresponse. subst r.
    unfold ChatRouter.update. cbv beta iota zeta. rewrite Hnone.
    rewrite RouterFacts.trace_call, RouterFacts.outcome_call.
    fold config. rewrite Henabled, Htruthy. simpl negb. cbv iota.
    rewrite RouterFacts.trace_call, RouterFacts.outcome_call.
    fold lookup. rewrite Hchats, Hsome. simpl.
    destruct (handle (ChatRouter.getChatResponse (ChatRouter.first_chat chats)) _)
      as [[ex|response'] w3] eqn:Hcall; simpl in Hresponse; inversion Hresponse; subst.
    split; reflexivity.
Qed.

Lemma update_without_displayName_witness :
  ChatRouter.provided
    (Js.opt_get (Request.body (ChatRouter.request (Sample.ctx [] (Js.Object []))))
       "displayName") = false
  /\ Effect.outcome
       (Effect.run Sample.serve (ChatRouter.update (Sample.ctx [] (Js.Object [])))
          Sample.server)
     = inr (ChatRouter.set_body
              (ChatRouter.createSuccessResponse Sample.chat1
                 (Some "Chat not updated! No update information provided!") None)
              (Sample.ctx [] (Js.Object []))).
Proof.
  split; [reflexivity|].
  exact (proj2 (proj2 (proj2 (proj2
           (update_without_displayName Sample.runtime Sample.Server Sample.serve
              Sample.server (Sample.ctx [] (Js.Object [])) eq_refl)))
           (Js.Bool true) (Some [Sample.chat1]) Sample.chat1
           eq_refl eq_refl eq_refl eq_refl eq_refl)).
Defined.

(** C10 as stated fails: with the Private API disabled, a request
    without [displayName] is answered with the 404 server error
    "Private API is not enabled!", not with a success response. *)
Lemma update_without_displayName_disabled :
  ChatRouter.provided
    (Js.opt_get (Request.body (ChatRouter.request (Sample.ctx [] (Js.Object []))))
       "displayName") = false
  /\ Effect.outcome
       (Effect.run Sample.serve (ChatRouter.update (Sample.ctx [] (Js.Object [])))
          Sample.disabled)
     = inr (ChatRouter.set_body
              (ChatRouter.createServerErrorResponse "Private API is not enabled!"
                 ChatRouter.IMESSAGE_ERROR None)
              (ChatRouter.set_status 404 (Sample.ctx [] (Js.Object []))))
  /\ ~ (exists ctx' data metadata,
          Effect.outcome
            (Effect.run Sample.serve (ChatRouter.update (Sample.ctx [] (Js.Object [])))
               Sample.disabled) = inr ctx'
          /\ ChatRouter.body ctx'
             = Some (ChatRouter.createSuccessResponse data
                       (Some "Chat not updated! No update information provided!")
                       metadata)).
Proof.
  split; [reflexivity|]. split; [reflexivity|].
  intros (ctx' & data & metadata & Hrun & Hbody).
  change (inr (ChatRouter.set_body
                 (ChatRouter.createServerErrorResponse "Private API is not enabled!"
                    ChatRouter.IMESSAGE_ERROR None)
                 (ChatRouter.set_status 404 (Sample.ctx [] (Js.Object []))))
          = (inr ctx' : Js.Value + ChatRouter.RouterContext)) in Hrun.
  inversion Hrun; subst. discriminate Hbody.
Qed.

(** C6. The Domain Action layer validates nothing: [admitParticipant]
    hands any two strings, the empty ones included, to [sendApiMessage]
    and returns what the dispatcher answers.  The HTTP caller does the
    validation: for a missing, [null] or empty address
    [toggleParticipant] makes no call besides the readiness check (no
    chat lookup, no dispatch to [ChatInterface]) and, the check passing,
    answers 404 "Participant address not provided!". *)
Theorem validation_belongs_to_caller
    (W1 : Type)
    (dispatch : forall c : PrivateApiFaceTime.Call, W1 -> PrivateApiFaceTime.Reply c * W1)
    (w1 : W1)
    (W2 : Type) (handle : forall c : ChatRouter.Call, W2 -> ChatRouter.Reply c * W2)
    (w2 : W2) (ctx : ChatRouter.RouterContext) (action : ChatRouter.ParticipantAction) :
  (forall conversationUuid handleUuid,
      let send := PrivateApiFaceTime.SendApiMessage "admit-pending-member"
                    (Js.Object [("conversationUUID", Js.Str conversationUuid);
                                ("handleUUID", Js.Str handleUuid)]) None in
      Effect.run dispatch (PrivateApiFaceTime.admitParticipant conversationUuid handleUuid) w1
      = Effect.MkRun [send] (fst (dispatch send w1)) (snd (dispatch send w1)))
  /\ Effect.trace (Effect.run dispatch (PrivateApiFaceTime.admitParticipant "" "") w1)
     = [PrivateApiFaceTime.SendApiMessage "admit-pending-member"
          (Js.Object [("conversationUUID", Js.Str ""); ("handleUUID", Js.Str "")]) None]
  /\ (ChatRouter.not_provided (Js.opt_get (Request.body (ChatRouter.request ctx)) "address")
      = true ->
      Effect.trace (Effect.run handle (ChatRouter.toggleParticipant ctx action) w2)
      = [ChatRouter.checkPrivateApiStatus]
      /\ Effect.outcome (Effect.run handle (ChatRouter.toggleParticipant ctx action) w2)
         = match fst (handle ChatRouter.checkPrivateApiStatus w2) with
           | inl ex => inl ex
           | inr _ =>
               inr (ChatRouter.set_body
                      (ChatRouter.createNotFoundResponse "Participant address not provided!")
                      (ChatRouter.set_status 404 ctx))
           end)
  /\ ChatRouter.not_provided Js.Undefined = true
  /\ ChatRouter.not_provided Js.Null = true
  /\ (forall s, ChatRouter.not_provided (Js.Str s) = String.eqb s "").
Proof.
  split; [|split; [|split; [|split; [|split]]]].
  - intros c h send. unfold PrivateApiFaceTime.admitParticipant.
    apply FaceTimeFacts.run_sendApiMessage.
  - unfold PrivateApiFaceTime.admitParticipant.
    rewrite FaceTimeFacts.run_sendApiMessage. reflexivity.
  - intros Hmissing. unfold ChatRouter.toggleParticipant. cbv beta iota zeta.
    rewrite RouterFacts.trace_call, RouterFacts.outcome_call, Hmissing.
    destruct (fst (handle _ w2)) as [ex|[]]; split; reflexivity.
  - reflexivity.
  - reflexivity.
  - intros s. destruct s as [|c s]; reflexivity.
Qed.

Lemma validation_belongs_to_caller_witness :
  ChatRouter.not_provided
    (Js.opt_get (Request.body (ChatRouter.request (Sample.ctx [] (Js.Object []))))
       "address") = true
  /\ Effect.trace
       (Effect.run Sample.serve
          (ChatRouter.toggleParticipant (Sample.ctx [] (Js.Object [])) ChatRouter.add)
          Sample.server)
     = [ChatRouter.checkPrivateApiStatus].
Proof.
  split; [reflexivity|].
  exact (proj1 (proj1 (proj2 (proj2
           (validation_belongs_to_caller Dispatcher.Core PrivateApiFaceTime.on_core
              Sample.core Sample.Server Sample.serve Sample.server
              (Sample.ctx [] (Js.Object [])) ChatRouter.add))) eq_refl)).
Defined.

(** C5. With the transport not ready, [sendApiMessage] fails at once
    with [TransportUnavailable] and leaves the core as it was: nothing is
    registered, nothing is sent, and the caller gets the error itself,
    not a handle to wait on.  The same holds for every Domain Action.  In
    the HTTP caller the readiness check [checkPrivateApiStatus] is the
    first call of every [toggleParticipant] request, and when it throws
    it is the only one: no validation response, no lookup, no
    dispatch. *)
Theorem transport_unavailable_short_circuits (c : Dispatcher.Core) :
  Dispatcher.ready c = false ->
  (forall a data request,
      Dispatcher.sendApiMessage a data request c = (inl Transaction.TransportUnavailable, c))
  /\ (forall d,
      Effect.outcome (Effect.run PrivateApiFaceTime.on_core (PrivateApiFaceTime.invoke d) c)
      = inl Transaction.TransportUnavailable
      /\ Effect.final (Effect.run PrivateApiFaceTime.on_core (PrivateApiFaceTime.invoke d) c)
         = c)
  /\ (forall (W : Type) (handle : forall q : ChatRouter.Call, W -> ChatRouter.Reply q * W)
             (w : W) (ctx : ChatRouter.RouterContext) (action : ChatRouter.ParticipantAction),
      (exists rest,
          Effect.trace (Effect.run handle (ChatRouter.toggleParticipant ctx action) w)
          = ChatRouter.checkPrivateApiStatus :: rest)
      /\ forall ex,
          fst (handle ChatRouter.checkPrivateApiStatus w) = inl ex ->
          Effect.run handle (ChatRouter.toggleParticipant ctx action) w
          = Effect.MkRun [ChatRouter.checkPrivateApiStatus] (inl ex)
              (snd (handle ChatRouter.checkPrivateApiStatus w))).
Proof.
  intros Hdown. split; [|split].
  - intros a data request. apply DispatcherFacts.sendApiMessage_offline. exact Hdown.
  - intros d. destruct d; simpl PrivateApiFaceTime.invoke.
    + unfold PrivateApiFaceTime.answerCall. rewrite FaceTimeFacts.run_sendApiMessage.
      simpl. rewrite DispatcherFacts.sendApiMessage_offline by exact Hdown. split; reflexivity.
    + unfold PrivateApiFaceTime.leaveCall. rewrite FaceTimeFacts.run_sendApiMessage.
      simpl. rewrite DispatcherFacts.sendApiMessage_offline by exact Hdown. split; reflexivity.
    + rewrite FaceTimeFacts.run_generateLink.
      simpl. rewrite DispatcherFacts.sendApiMessage_offline by exact Hdown. split; reflexivity.
    + unfold PrivateApiFaceTime.admitParticipant. rewrite FaceTimeFacts.run_sendApiMessage.
      simpl. rewrite DispatcherFacts.sendApiMessage_offline by exact Hdown. split; reflexivity.
  - intros W handle w ctx action. unfold ChatRouter.toggleParticipant. cbv beta iota zeta.
    split.
    + rewrite RouterFacts.trace_call. eauto.
    + intros ex Hthrows. rewrite RouterFacts.run_call, Hthrows. reflexivity.
Qed.

Lemma transport_unavailable_short_circuits_witness :
  Dispatcher.ready Sample.offline = false
  /\ Dispatcher.sendApiMessage "generate-link" (Js.Object [("callUUID", Js.Null)])
       (Some {| Transaction.promiseType := Transaction.OTHER |}) Sample.offline
     = (inl Transaction.TransportUnavailable, Sample.offline).
Proof.
  split; [reflexivity|].
  exact (proj1 (transport_unavailable_short_circuits Sample.offline eq_refl)
           "generate-link" (Js.Object [("callUUID", Js.Null)])
           (Some {| Transaction.promiseType := Transaction.OTHER |})).
Defined.

(** C7. A Domain Action is a translation of its arguments and nothing
    else.  Two invocations with equal arguments, against any two
    dispatchers in any two states, hand over the same action name and
    the same arguments mapping, in one message; and the action keeps no
    state: when the dispatcher leaves the world as it is, so does the
    action. *)
Theorem domain_actions_pure
    (d : PrivateApiFaceTime.DomainAction)
    (W1 : Type) (h1 : forall c : PrivateApiFaceTime.Call, W1 -> PrivateApiFaceTime.Reply c * W1)
    (w1 : W1)
    (W2 : Type) (h2 : forall c : PrivateApiFaceTime.Call, W2 -> PrivateApiFaceTime.Reply c * W2)
    (w2 : W2) :
  List.map fst
    (PrivateApiFaceTime.sent (Effect.trace (Effect.run h1 (PrivateApiFaceTime.invoke d) w1)))
  = List.map fst
      (PrivateApiFaceTime.sent (Effect.trace (Effect.run h2 (PrivateApiFaceTime.invoke d) w2)))
  /\ List.length
       (PrivateApiFaceTime.sent (Effect.trace (Effect.run h1 (PrivateApiFaceTime.invoke d) w1)))
     = 1%nat
  /\ ((forall c w, snd (h1 c w) = w) ->
      Effect.final (Effect.run h1 (PrivateApiFaceTime.invoke d) w1) = w1).
Proof.
  destruct d; simpl PrivateApiFaceTime.invoke.
  - unfold PrivateApiFaceTime.answerCall. rewrite !FaceTimeFacts.run_sendApiMessage.
    split; [reflexivity|]. split; [reflexivity|]. intros Hframe. exact (Hframe _ _).
  - unfold PrivateApiFaceTime.leaveCall. rewrite !FaceTimeFacts.run_sendApiMessage.
    split; [reflexivity|]. split; [reflexivity|]. intros Hframe. exact (Hframe _ _).
  - rewrite !FaceTimeFacts.run_generateLink.
    split; [reflexivity|]. split; [reflexivity|]. intros Hframe.
    etransitivity; [exact (Hframe _ _)|exact (Hframe _ _)].
  - unfold PrivateApiFaceTime.admitParticipant. rewrite !FaceTimeFacts.run_sendApiMessage.
    split; [reflexivity|]. split; [reflexivity|]. intros Hframe. exact (Hframe _ _).
Qed.

Lemma domain_actions_pure_witness :
  (forall c w, snd (Sample.refusing c w) = w)
  /\ Effect.final
       (Effect.run Sample.refusing
          (PrivateApiFaceTime.generateLink (Js.Str "call-1")) tt) = tt.
Proof.
  split; [intros [t|a data request] w; reflexivity|].
  exact (proj2 (proj2
           (domain_actions_pure (PrivateApiFaceTime.GenerateLink (Js.Str "call-1"))
              unit Sample.refusing tt Dispatcher.Core PrivateApiFaceTime.on_core Sample.core))
           (fun c w => match c with
                       | PrivateApiFaceTime.NewTransactionPromise _ => eq_refl
                       | PrivateApiFaceTime.SendApiMessage _ _ _ => eq_refl
                       end)).
Defined.

(* ===================================================================== *)
(** * The definitions at work                                             *)
(* ===================================================================== *)

Module Examples.

(** A race on ["x"]: the timer fires first, the late reply and the late
    error find nothing to do. *)
Example race_on_x :
  Registry.winners
    [Registry.TimeOut "x"; Registry.Resolve "x" (Js.Str "link"); Registry.Reject "x" "late"]
    Sample.one_pending
  = [Registry.TimeOut "x"]
  /\ Registry.completions
       (Registry.attempts
          [Registry.TimeOut "x"; Registry.Resolve "x" (Js.Str "link");
           Registry.Reject "x" "late"]
          Sample.one_pending)
     = [{| Transaction.settledId := "x";
           Transaction.settledState := Transaction.TimedOut;
           Transaction.settledResult := Transaction.Failed Transaction.Timeout |}].
Proof. split; reflexivity. Qed.

(** The helper's reply to a generated link reaches the caller's handle. *)
Example generateLink_then_reply :
  let sent := Effect.run PrivateApiFaceTime.on_core
                (PrivateApiFaceTime.generateLink Js.Undefined) Sample.core in
  let reply := {| Transaction.inboundId := Some "x"; Transaction.ok := true;
                  Transaction.inboundPayload := Some (Js.Str "https://facetime.example/link");
                  Transaction.inboundError := None |} in
  Effect.outcome sent = inr (Transaction.Awaiting "x" 0)
  /\ Registry.observe (Transaction.Awaiting "x" 0)
       (Dispatcher.registry (Dispatcher.deliver [reply; reply] (Effect.final sent)))
     = Some (Transaction.Payload (Js.Str "https://facetime.example/link")).
Proof. split; reflexivity. Qed.

(** [GET .../message?limit=-1&offset=-5&with=Attachment, handle] *)
Example getMessages_limit_minus_one :
  Effect.trace
    (Effect.run Sample.serve
       (ChatRouter.getMessages Sample.parseNumber
          (Sample.ctx [("limit", "-1"); ("offset", "-5"); ("with", "Attachment, handle")]
             Js.Null))
       Sample.server)
  = [ChatRouter.iMessageRepo_getChats
       {| ChatParams.chatGuid := "iMessage;+;chat1";
          ChatParams.withSMS := Some true;
          ChatParams.withParticipants := Some false |};
     ChatRouter.iMessageRepo_getMessages
       {| DBMessageParams.chatGuid := "iMessage;+;chat1";
          DBMessageParams.withAttachments := true;
          DBMessageParams.withHandle := true;
          DBMessageParams.withSMS := false;
          DBMessageParams.offset := Js.of_Z 0;
          DBMessageParams.limit := Js.of_Z 1000;
          DBMessageParams.sort := Some "DESC";
          DBMessageParams.before := Js.NaN;
          DBMessageParams.after := Js.NaN |};
     ChatRouter.getMessageResponse (Js.Object [("guid", Js.Str "message-1")]);
     ChatRouter.getMessageResponse (Js.Object [("guid", Js.Str "message-2")])].
Proof. reflexivity. Qed.

(** [POST .../query] with a limit of 5000 and no offset. *)
Example query_limit_5000 :
  Effect.trace
    (Effect.run Sample.serve
       (ChatRouter.query Sample.parseNumber Sample.typeError
          (Sample.ctx []
             (Js.Object [("limit", Js.Number (Js.of_Z 5000));
                         ("with", Js.Array [Js.Str "SMS"; Js.Number Js.NaN]);
                         ("sort", Js.Str "LastMessage")])))
       Sample.server)
  = [ChatRouter.ChatInterface_get
       {| GetParams.guid := Js.Undefined;
          GetParams.withSMS := true;
          GetParams.withParticipants := false;
          GetParams.withLastMessage := false;
          GetParams.withArchived := false;
          GetParams.offset := Js.of_Z 0;
          GetParams.limit := Js.of_Z 1000;
          GetParams.sort := Some "lastmessage" |};
     ChatRouter.iMessageRepo_getChatCount].
Proof. reflexivity. Qed.

(** With a [displayName] the chat is renamed and the response says so. *)
Example update_with_displayName :
  let r := Effect.run Sample.serve
             (ChatRouter.update (Sample.ctx [] (Js.Object [("displayName", Js.Str "Friends")])))
             Sample.server in
  Effect.trace r
  = [ChatRouter.repo_getConfig "enable_private_api";
     ChatRouter.iMessageRepo_getChats
       {| ChatParams.chatGuid := "iMessage;+;chat1";
          ChatParams.withSMS := None;
          ChatParams.withParticipants := Some true |};
     ChatRouter.ChatInterface_setDisplayName Sample.chat1 (Js.Str "Friends");
     ChatRouter.getChatResponse
       (Js.Object [("guid", Js.Str "iMessage;+;chat1"); ("displayName", Js.Str "Friends")])]
  /\ option_map
       (fun response =>
          match response with
          | ChatRouter.createSuccessResponse _ message _ => message
          | _ => None
          end)
       (match Effect.outcome r with
        | inr ctx => ChatRouter.body ctx
        | inl _ => None
        end)
     = Some (Some "Successfully updated the following fields: displayName").
Proof. split; reflexivity. Qed.

(** With the helper disconnected [addParticipant] stops at the check. *)
Example addParticipant_disconnected :
  Effect.run Sample.serve
    (ChatRouter.addParticipant (Sample.ctx [] (Js.Object [("address", Js.Str "a@b.c")])))
    Sample.disconnected
  = Effect.MkRun [ChatRouter.checkPrivateApiStatus]
      (inl (Js.Object [("message", Js.Str "iMessage Private API Helper is not connected!")]))
      Sample.disconnected.
Proof. reflexivity. Qed.

(** A body that is a JSON array: [body?.with] is the method the array
    inherits, which has no [filter], so [query] throws before it calls
    anything.  (On an engine older than ECMAScript 2023 [body?.with] is
    missing and [body?.sort], a function as well, is answered with 400;
    no call is made either way.) *)
Remark query_array_body
    (rt : Js.Runtime) (parseNumber : Js.Value -> option Js.Num) (typeError : Js.Value)
    (W : Type) (handle : forall c : ChatRouter.Call, W -> ChatRouter.Reply c * W)
    (w : W) (ctx : ChatRouter.RouterContext) (items : list Js.Value) :
  Request.body (ChatRouter.request ctx) = Js.Array items ->
  Effect.run handle (ChatRouter.query parseNumber typeError ctx) w
  = Effect.MkRun [] (inl typeError) w
  /\ Js.opt_get (Js.Array items) "sort" = Js.Function "sort" 1.
Proof.
  intros Hbody. unfold ChatRouter.query. rewrite Hbody. split; reflexivity.
Qed.

(** Why the bounds on the pagination ask for a [parseNumber] that never
    answers [NaN]: the clamp lets [NaN] through, and [NaN >= 0] is
    false. *)
Remark pagination_NaN (parseNumber : Js.Value -> option Js.Num) (o l : Js.Value) (d : Z) :
  parseNumber o = Some Js.NaN ->
  fst (ChatRouter.pagination parseNumber o l d) = Js.NaN
  /\ Js.ge Js.NaN (Js.of_Z 0) = false.
Proof.
  intros Ho. unfold ChatRouter.pagination. rewrite Ho. split; reflexivity.
Qed.

End Examples.

(* ===================================================================== *)
(** * Further properties of the handlers                                  *)
(* ===================================================================== *)

Module RestFacts.
Import ChatRouterRest.

Section AnyServer.
Variable W : Type.
Variable handle : forall c : Call, W -> Reply c * W.

Lemma rest_run_call {A : Type} (c : Call) (k : Result c -> Prog A) (w : W) :
  Effect.run handle (Effect.bind (call c) k) w
  = match fst (handle c w) with
    | inl ex => Effect.MkRun [c] (inl ex) (snd (handle c w))
    | inr v =>
        let rest := Effect.run handle (k v) (snd (handle c w)) in
        Effect.MkRun (c :: Effect.trace rest) (Effect.outcome rest) (Effect.final rest)
    end.
Proof.
  simpl. destruct (handle c w) as [[ex|v] w1]; reflexivity.
Qed.

Lemma rest_trace_call {A : Type} (c : Call) (k : Result c -> Prog A) (w : W) :
  Effect.trace (Effect.run handle (Effect.bind (call c) k) w)
  = c :: match fst (handle c w) with
         | inl _ => []
         | inr v => Effect.trace (Effect.run handle (k v) (snd (handle c w)))
         end.
Proof.
  rewrite rest_run_call. destruct (fst (handle c w)); reflexivity.
Qed.

Lemma rest_outcome_call {A : Type} (c : Call) (k : Result c -> Prog A) (w : W) :
  Effect.outcome (Effect.run handle (Effect.bind (call c) k) w)
  = match fst (handle c w) with
    | inl ex => inl ex
    | inr v => Effect.outcome (Effect.run handle (k v) (snd (handle c w)))
    end.
Proof.
  rewrite rest_run_call. destruct (fst (handle c w)); reflexivity.
Qed.

(** Running [p] and then [f]: the calls of [p], then those of [f] on
    its result; an exception of [p] ends the run. *)
Lemma rest_run_bind {A B : Type} (p : Prog A) (f : A -> Prog B) :
  forall w : W,
    Effect.run handle (Effect.bind p f) w
    = match Effect.outcome (Effect.run handle p w) with
      | inl ex =>
          Effect.MkRun (Effect.trace (Effect.run handle p w)) (inl ex)
            (Effect.final (Effect.run handle p w))
      | inr a =>
          let rest := Effect.run handle (f a) (Effect.final (Effect.run handle p w)) in
          Effect.MkRun (Effect.trace (Effect.run handle p w) ++ Effect.trace rest)
            (Effect.outcome rest) (Effect.final rest)
      end.
Proof.
  induction p as [a|x|c k IH]; intros w; simpl.
  - destruct (Effect.run handle (f a) w); reflexivity.
  - reflexivity.
  - destruct (handle c w) as [r w1]. simpl. rewrite IH.
    destruct (Effect.outcome (Effect.run handle (k r) w1)); reflexivity.
Qed.

(** Over chat objects the loop of [count] makes no call and runs to the
    fold of its body. *)
Lemma run_tally (typeError : Js.Value) `{Js.Runtime} (chats : list Js.Value) :
  forall (acc : gmap string nat) (w : W),
    Forall (fun chat => Js.nullish chat = false) chats ->
    Effect.run handle
      (Effect.for_each
         (fun (serviceCounts : gmap string nat) (chat : Js.Value) =>
            if Js.nullish chat then Effect.Throw typeError
            else Effect.Ret (tally serviceCounts chat))
         chats acc) w
    = Effect.MkRun [] (inr (fold_left tally chats acc)) w.
Proof.
  induction chats as [|chat chats IH]; intros acc w Hobjects; [reflexivity|].
  inversion Hobjects as [|? ? Hchat Hrest]; subst.
  simpl. rewrite Hchat. simpl. apply IH. exact Hrest.
Qed.

End AnyServer.

Section Tally.
Context `{Js.Runtime}.

(** For a chat with a proper service name the loop body adds one to the
    counter of that name, creating it at need. *)
Lemma tally_named (m : gmap string nat) (chat : Js.Value) (s : string) :
  named chat = true -> service chat = Some s ->
  tally m chat = <[s := (default 0 (m !! s) + 1)%nat]> m.
Proof.
  unfold named, tally, service. intros Hnamed Hservice.
  destruct (Js.get chat "serviceName") as [| | | |name| | |]; try discriminate Hservice.
  inversion Hservice; subst. simpl in *.
  apply andb_true_iff in Hnamed as [_ Hproto]. apply negb_true_iff in Hproto.
  rewrite Hproto. case_bool_decide as Hkey.
  - reflexivity.
  - assert (Hnone : m !! s = None).
    { destruct (m !! s) eqn:E; [|reflexivity]. exfalso. apply Hkey. eauto. }
    rewrite lookup_insert_eq, insert_insert_eq, Hnone. reflexivity.
Qed.

Lemma named_object (chats : list Js.Value) :
  Forall (fun chat => named chat = true) chats ->
  Forall (fun chat => Js.nullish chat = false) chats.
Proof.
  intros Hall. eapply Forall_impl; [exact Hall|].
  intros chat Hnamed. unfold named in Hnamed.
  apply andb_true_iff in Hnamed as [Hobj _]. apply negb_true_iff in Hobj. exact Hobj.
Qed.

(** For a chat whose service name is not a string the loop body resets
    the counter of its key to one. *)
Lemma tally_unnamed (m : gmap string nat) (chat v : Js.Value) :
  Js.get chat "serviceName" = v ->
  (forall s, v <> Js.Str s) ->
  property_key v <> "__proto__" ->
  tally m chat = <[property_key v := 1%nat]> m.
Proof.
  intros Hget Hv Hkey. unfold tally. rewrite Hget.
  apply String.eqb_neq in Hkey. rewrite Hkey.
  assert (Hkeys : keys_include m v = false).
  { destruct v; try reflexivity. exfalso. eapply Hv. reflexivity. }
  rewrite Hkeys, lookup_insert_eq, insert_insert_eq. reflexivity.
Qed.

Lemma named_service (chat : Js.Value) :
  named chat = true -> exists s, service chat = Some s.
Proof.
  unfold named. intros Hnamed. apply andb_true_iff in Hnamed as [_ Hs].
  destruct (service chat) as [s|]; [eauto|discriminate Hs].
Qed.

Lemma filed_cons (s : string) (chat : Js.Value) (chats : list Js.Value) :
  filed s (chat :: chats)
  = ((if bool_decide (service chat = Some s) then 1 else 0) + filed s chats)%nat.
Proof.
  unfold filed. simpl. destruct (bool_decide (service chat = Some s)); reflexivity.
Qed.

(** The counter of every name after the loop: what it was, plus the
    chats filed under the name. *)
Lemma tally_lookup (chats : list Js.Value) :
  forall (m : gmap string nat) (s : string),
    Forall (fun chat => named chat = true) chats ->
    default 0%nat (fold_left tally chats m !! s)
    = (default 0%nat (m !! s) + filed s chats)%nat
    /\ (is_Some (fold_left tally chats m !! s)
        <-> is_Some (m !! s) \/ (0 < filed s chats)%nat).
Proof.
  induction chats as [|chat chats IH]; intros m s Hnamed.
  - simpl. unfold filed. simpl. split; [lia|]. split; [auto|intros [?|?]; [assumption|lia]].
  - inversion Hnamed as [|? ? Hchat Hrest]; subst.
    destruct (named_service chat Hchat) as [name Hname].
    simpl. rewrite (tally_named m chat name Hchat Hname).
    destruct (IH (<[name := (default 0 (m !! name) + 1)%nat]> m) s Hrest) as [Hval Hdom].
    rewrite Hval, Hdom, filed_cons, Hname. clear Hval Hdom.
    case_bool_decide as Heq.
    + inversion Heq; subst. rewrite lookup_insert_eq. simpl. split; [lia|].
      split; [intros _; right; lia|intros _; left; eauto].
    + assert (Hne : name <> s) by congruence.
      rewrite lookup_insert_ne by exact Hne. simpl. split; [lia|]. reflexivity.
Qed.

Lemma counted_insert_fresh (m : gmap string nat) (s : string) (n : nat) :
  m !! s = None -> counted (<[s := n]> m) = (n + counted m)%nat.
Proof.
  intros Hfresh. unfold counted. apply map_fold_insert_L; [|exact Hfresh].
  intros. lia.
Qed.

(** Adding one to a counter adds one to the sum. *)
Lemma counted_bump (m : gmap string nat) (s : string) :
  counted (<[s := (default 0 (m !! s) + 1)%nat]> m) = S (counted m).
Proof.
  destruct (m !! s) as [n|] eqn:Hs; simpl.
  - rewrite <- (insert_delete_eq m).
    rewrite counted_insert_fresh by apply lookup_delete_eq.
    rewrite <- (insert_delete_id m s n Hs) at 2.
    rewrite counted_insert_fresh by apply lookup_delete_eq. lia.
  - rewrite counted_insert_fresh by exact Hs. lia.
Qed.

Lemma tally_counted (chats : list Js.Value) :
  forall m : gmap string nat,
    Forall (fun chat => named chat = true) chats ->
    counted (fold_left tally chats m) = (counted m + List.length chats)%nat.
Proof.
  induction chats as [|chat chats IH]; intros m Hnamed; simpl; [lia|].
  inversion Hnamed as [|? ? Hchat Hrest]; subst.
  destruct (named_service chat Hchat) as [name Hname].
  rewrite (tally_named m chat name Hchat Hname), (IH _ Hrest), counted_bump. lia.
Qed.

End Tally.
End RestFacts.

(** X1. [count] files every chat under its service name.  When the
    repository answers chat objects whose [serviceName] is a string
    (other than ["__proto__"]), the handler makes that one call and
    responds with [total], the number of chats, and a [breakdown] that
    has an entry exactly for the service names that occur, each with the
    number of chats of that service; the entries add up to [total]. *)
Theorem count_by_service
    (rt : Js.Runtime) (typeError : Js.Value) (W : Type)
    (handle : forall c : ChatRouterRest.Call, W -> ChatRouterRest.Reply c * W)
    (w : W) (chats : list Js.Value) :
  fst (handle (ChatRouterRest.iMessageRepo_getChats_withSMS true) w) = inr (Some chats) ->
  Forall (fun chat => ChatRouterRest.named chat = true) chats ->
  exists counts : ChatRouterRest.Counts,
    Effect.run handle (ChatRouterRest.count typeError) w
    = Effect.MkRun [ChatRouterRest.iMessageRepo_getChats_withSMS true] (inr counts)
        (snd (handle (ChatRouterRest.iMessageRepo_getChats_withSMS true) w))
    /\ ChatRouterRest.total counts = List.length chats
    /\ (forall s,
          ChatRouterRest.breakdown counts !! s
          = if (ChatRouterRest.filed s chats =? 0)%nat then None
            else Some (ChatRouterRest.filed s chats))
    /\ ChatRouterRest.counted (ChatRouterRest.breakdown counts) = List.length chats.
Proof.
  intros Hchats Hnamed.
  exists {| ChatRouterRest.total := List.length chats;
            ChatRouterRest.breakdown := fold_left ChatRouterRest.tally chats ∅ |}.
  split; [|split; [reflexivity|split]].
  - unfold ChatRouterRest.count. rewrite RestFacts.rest_run_call, Hchats. cbv beta iota zeta.
    rewrite RestFacts.rest_run_bind, RestFacts.run_tally by (apply RestFacts.named_object; exact Hnamed).
    reflexivity.
  - intros s. simpl.
    destruct (RestFacts.tally_lookup chats ∅ s Hnamed) as [Hval Hdom].
    rewrite lookup_empty in Hval, Hdom. simpl in Hval.
    destruct (fold_left ChatRouterRest.tally chats ∅ !! s) as [n|] eqn:Hs; simpl in Hval.
    + assert (Hpos : (0 < ChatRouterRest.filed s chats)%nat).
      { destruct Hdom as [Hdom _]. destruct Hdom as [[? Habs]|Hpos]; eauto. discriminate Habs. }
      destruct (Nat.eqb_spec (ChatRouterRest.filed s chats) 0); [lia|]. congruence.
    + destruct (Nat.eqb_spec (ChatRouterRest.filed s chats) 0) as [|Hpos]; [reflexivity|].
      destruct Hdom as [_ Hdom]. destruct Hdom as [? Habs]; [right; lia|discriminate Habs].
  - simpl. rewrite RestFacts.tally_counted by exact Hnamed.
    unfold ChatRouterRest.counted. rewrite map_fold_empty. reflexivity.
Qed.

Lemma count_by_service_witness :
  Forall (fun chat => ChatRouterRest.named chat = true) (Sample.chats SampleRest.server)
  /\ exists counts : ChatRouterRest.Counts,
       Effect.outcome
         (Effect.run SampleRest.serve (ChatRouterRest.count Sample.typeError)
            SampleRest.server) = inr counts
       /\ ChatRouterRest.total counts = 3%nat
       /\ ChatRouterRest.breakdown counts !! "iMessage" = Some 2%nat
       /\ ChatRouterRest.breakdown counts !! "SMS" = Some 1%nat
       /\ ChatRouterRest.breakdown counts !! "RCS" = None.
Proof.
  assert (Hnamed : Forall (fun chat => ChatRouterRest.named chat = true)
                     (Sample.chats SampleRest.server))
    by (repeat constructor).
  split; [exact Hnamed|].
  destruct (count_by_service Sample.runtime Sample.typeError Sample.Server SampleRest.serve
              SampleRest.server (Sample.chats SampleRest.server) eq_refl Hnamed)
    as (counts & Hrun & Htotal & Hbreakdown & _).
  exists counts. rewrite Hrun. split; [reflexivity|]. split; [exact Htotal|].
  rewrite !Hbreakdown. repeat split.
Defined.

(** X2. A service name that is not a string is never found among the
    keys of the breakdown, so its counter is reset for every chat: when
    all the chats carry the same [serviceName] that is not a string
    ([null], say), the breakdown is the single entry of its key with
    count one, however many chats there are, while [total] is their
    number. *)
Theorem count_resets_unnamed
    (rt : Js.Runtime) (typeError : Js.Value) (W : Type)
    (handle : forall c : ChatRouterRest.Call, W -> ChatRouterRest.Reply c * W)
    (w : W) (chats : list Js.Value) (v : Js.Value) :
  fst (handle (ChatRouterRest.iMessageRepo_getChats_withSMS true) w) = inr (Some chats) ->
  chats <> [] ->
  (forall s, v <> Js.Str s) ->
  ChatRouterRest.property_key v <> "__proto__" ->
  Forall (fun chat => Js.nullish chat = false /\ Js.get chat "serviceName" = v) chats ->
  Effect.outcome (Effect.run handle (ChatRouterRest.count typeError) w)
  = inr {| ChatRouterRest.total := List.length chats;
           ChatRouterRest.breakdown := {[ ChatRouterRest.property_key v := 1%nat ]} |}.
Proof.
  intros Hchats Hsome Hv Hkey Hall.
  assert (Hobjects : Forall (fun chat => Js.nullish chat = false) chats).
  { eapply Forall_impl; [exact Hall|]. intros chat [Hobj _]. exact Hobj. }
  assert (Hfold : forall l m,
             Forall (fun chat => Js.nullish chat = false /\ Js.get chat "serviceName" = v) l ->
             l <> [] ->
             fold_left ChatRouterRest.tally l m = <[ChatRouterRest.property_key v := 1%nat]> m).
  { induction l as [|chat l IH]; intros m Hl Hne; [congruence|].
    inversion Hl as [|? ? [_ Hget] Hrest]; subst. simpl.
    rewrite (RestFacts.tally_unnamed m chat _ eq_refl Hv Hkey).
    destruct l as [|chat' l]; [reflexivity|].
    rewrite IH by (auto; discriminate). apply insert_insert_eq. }
  unfold ChatRouterRest.count. rewrite RestFacts.rest_run_call, Hchats. cbv beta iota zeta.
  rewrite RestFacts.rest_run_bind, RestFacts.run_tally by exact Hobjects.
  simpl. rewrite (Hfold chats ∅ Hall Hsome), insert_empty. reflexivity.
Qed.

Lemma count_resets_unnamed_witness :
  Sample.chats SampleRest.unnamed <> []
  /\ ChatRouterRest.property_key Js.Null <> "__proto__"
  /\ Effect.outcome
       (Effect.run SampleRest.serve (ChatRouterRest.count Sample.typeError)
          SampleRest.unnamed)
     = inr {| ChatRouterRest.total := 3; ChatRouterRest.breakdown := {[ "null" := 1%nat ]} |}.
Proof.
  split; [discriminate|]. split; [discriminate|].
  exact (count_resets_unnamed Sample.runtime Sample.typeError Sample.Server SampleRest.serve
           SampleRest.unnamed (Sample.chats SampleRest.unnamed) Js.Null eq_refl
           ltac:(discriminate) ltac:(discriminate) ltac:(discriminate)
           ltac:(repeat constructor)).
Defined.

Module JsFacts.

(** Reading back the property an assignment wrote. *)
Lemma field_set_field_eq (key : string) (v : Js.Value) (fields : list (string * Js.Value)) :
  Js.field key (Js.set_field key v fields) = v.
Proof.
  induction fields as [|[k old] fields IH]; simpl.
  - rewrite String.eqb_refl. reflexivity.
  - destruct (String.eqb k key) eqn:Hk; simpl; rewrite Hk; [reflexivity|exact IH].
Qed.

(** The other properties are as they were. *)
Lemma field_set_field_ne (key other : string) (v : Js.Value)
    (fields : list (string * Js.Value)) :
  other <> key ->
  Js.field other (Js.set_field key v fields) = Js.field other fields.
Proof.
  intros Hne. induction fields as [|[k old] fields IH]; simpl.
  - destruct (String.eqb_spec key other); [congruence|reflexivity].
  - destruct (String.eqb_spec k key) as [->|Hk]; simpl.
    + destruct (String.eqb_spec key other); [congruence|reflexivity].
    + destruct (String.eqb k other); [reflexivity|exact IH].
Qed.

End JsFacts.

(** X3. [find] answers 404 "Chat does not exist!" when the repository
    has no chat for the guid ([null] or an empty list): the lookup, which
    asks for the chat of the route's guid with SMS and with participants
    exactly when the query lists "participants", is the only call. *)
Theorem find_chat_not_found
    (rt : Js.Runtime) (typeError : Js.Value) (W : Type)
    (handle : forall c : ChatRouterRest.Call, W -> ChatRouterRest.Reply c * W)
    (w : W) (ctx : ChatRouter.RouterContext) (chats : option (list Js.Value)) :
  let withQuery :=
    List.map Js.trim
      (Js.split
         (Js.toLowerCase
            (default "" (Request.param "with" (Request.query (ChatRouter.request ctx)))))
         ",") in
  let lookup :=
    ChatRouterRest.known
      (ChatRouter.iMessageRepo_getChats
         {| ChatParams.chatGuid := ChatRouter.params_guid ctx;
            ChatParams.withSMS := Some true;
            ChatParams.withParticipants := Some (Js.includes withQuery "participants") |}) in
  fst (handle lookup w) = inr chats ->
  ChatRouter.no_chats chats = true ->
  Effect.run handle (ChatRouterRest.find typeError ctx) w
  = Effect.MkRun [lookup]
      (inr (ChatRouter.set_body (ChatRouter.createNotFoundResponse "Chat does not exist!")
              (ChatRouter.set_status 404 ctx)))
      (snd (handle lookup w)).
Proof.
  intros withQuery lookup Hchats Hnone.
  unfold ChatRouterRest.find. cbv beta iota zeta.
  fold withQuery. fold lookup.
  rewrite RestFacts.rest_run_call, Hchats. cbv beta iota zeta. rewrite Hnone. reflexivity.
Qed.

Lemma find_chat_not_found_witness :
  Effect.outcome
    (Effect.run SampleRest.serve
       (ChatRouterRest.find Sample.typeError
          {| ChatRouter.request := {| Request.query := []; Request.body := Js.Null |};
             ChatRouter.params_guid := "iMessage;+;missing";
             ChatRouter.status := None; ChatRouter.body := None |})
       SampleRest.server)
  = inr {| ChatRouter.request := {| Request.query := []; Request.body := Js.Null |};
           ChatRouter.params_guid := "iMessage;+;missing";
           ChatRouter.status := Some 404%nat;
           ChatRouter.body := Some (ChatRouter.createNotFoundResponse "Chat does not exist!") |}.
Proof.
  exact (f_equal Effect.outcome
           (find_chat_not_found Sample.runtime Sample.typeError Sample.Server SampleRest.serve
              SampleRest.server
              {| ChatRouter.request := {| Request.query := []; Request.body := Js.Null |};
                 ChatRouter.params_guid := "iMessage;+;missing";
                 ChatRouter.status := None; ChatRouter.body := None |}
              (Some []) eq_refl eq_refl)).
Defined.

(** X4. [find] reads the last message only when the query asks for it:
    unless "lastmessage" is listed in [with], no run of the handler calls
    [getChatLastMessage] or [getMessageResponse], whatever the
    collaborators answer. *)
Theorem find_last_message_on_request
    (rt : Js.Runtime) (typeError : Js.Value) (W : Type)
    (handle : forall c : ChatRouterRest.Call, W -> ChatRouterRest.Reply c * W)
    (w : W) (ctx : ChatRouter.RouterContext) :
  Js.includes
    (List.map Js.trim
       (Js.split
          (Js.toLowerCase
             (default "" (Request.param "with" (Request.query (ChatRouter.request ctx)))))
          ","))
    "lastmessage" = false ->
  forall c,
    In c (Effect.trace (Effect.run handle (ChatRouterRest.find typeError ctx) w)) ->
    (exists params, c = ChatRouterRest.known (ChatRouter.iMessageRepo_getChats params))
    \/ (exists chat, c = ChatRouterRest.known (ChatRouter.getChatResponse chat)).
Proof.
  intros Hwithout c Hin.
  unfold ChatRouterRest.find in Hin. cbv beta iota zeta in Hin. rewrite Hwithout in Hin.
  rewrite RestFacts.rest_trace_call in Hin.
  apply List.in_inv in Hin. destruct Hin as [<-|Hin]; [left; eauto|].
  destruct (fst (handle _ w)) as [ex|chats]; [destruct Hin|].
  destruct (ChatRouter.no_chats chats); [destruct Hin|].
  rewrite RestFacts.rest_trace_call in Hin.
  apply List.in_inv in Hin. destruct Hin as [<-|Hin]; [right; eauto|].
  destruct (fst (handle _ _)) as [ex|res]; destruct Hin.
Qed.

Lemma find_last_message_on_request_witness :
  Effect.trace
    (Effect.run SampleRest.serve
       (ChatRouterRest.find Sample.typeError
          (Sample.ctx [("with", "Participants")] Js.Null))
       Sample.server)
  = [ChatRouterRest.known
       (ChatRouter.iMessageRepo_getChats
          {| ChatParams.chatGuid := "iMessage;+;chat1";
             ChatParams.withSMS := Some true;
             ChatParams.withParticipants := Some true |});
     ChatRouterRest.known (ChatRouter.getChatResponse Sample.chat1)]
  /\ ((exists params,
          ChatRouterRest.known (ChatRouter.getChatResponse Sample.chat1)
          = ChatRouterRest.known (ChatRouter.iMessageRepo_getChats params))
      \/ (exists chat,
          ChatRouterRest.known (ChatRouter.getChatResponse Sample.chat1)
          = ChatRouterRest.known (ChatRouter.getChatResponse chat))).
Proof.
  split; [reflexivity|].
  apply (find_last_message_on_request Sample.runtime Sample.typeError Sample.Server
           SampleRest.serve Sample.server (Sample.ctx [("with", "Participants")] Js.Null)
           eq_refl).
  right. left. reflexivity.
Defined.

(** X5. With "lastmessage" listed in [with], a found chat is answered
    with its chat response extended by the last message: after the
    lookup and [getChatResponse] the handler reads the last message of
    the route's guid, converts it with [getMessageResponse], and responds
    with the chat response in which [lastMessage] is that conversion and
    every other property is as [getChatResponse] gave it. *)
Theorem find_with_last_message
    (rt : Js.Runtime) (typeError : Js.Value) (W : Type)
    (handle : forall c : ChatRouterRest.Call, W -> ChatRouterRest.Reply c * W)
    (w : W) (ctx : ChatRouter.RouterContext) (chats : option (list Js.Value))
    (fields : list (string * Js.Value)) (last lastMessage : Js.Value) :
  let withQuery :=
    List.map Js.trim
      (Js.split
         (Js.toLowerCase
            (default "" (Request.param "with" (Request.query (ChatRouter.request ctx)))))
         ",") in
  let lookup :=
    ChatRouterRest.known
      (ChatRouter.iMessageRepo_getChats
         {| ChatParams.chatGuid := ChatRouter.params_guid ctx;
            ChatParams.withSMS := Some true;
            ChatParams.withParticipants := Some (Js.includes withQuery "participants") |}) in
  let respond := ChatRouterRest.known (ChatRouter.getChatResponse (ChatRouter.first_chat chats)) in
  let read := ChatRouterRest.iMessageRepo_getChatLastMessage (ChatRouter.params_guid ctx) in
  let convert := ChatRouterRest.known (ChatRouter.getMessageResponse last) in
  let w1 := snd (handle lookup w) in
  let w2 := snd (handle respond w1) in
  let w3 := snd (handle read w2) in
  Js.includes withQuery "lastmessage" = true ->
  fst (handle lookup w) = inr chats ->
  ChatRouter.no_chats chats = false ->
  fst (handle respond w1) = inr (Js.Object fields) ->
  fst (handle read w2) = inr last ->
  fst (handle convert w3) = inr lastMessage ->
  exists data,
    Effect.run handle (ChatRouterRest.find typeError ctx) w
    = Effect.MkRun [lookup; respond; read; convert]
        (inr (ChatRouter.set_body (ChatRouter.createSuccessResponse data None None) ctx))
        (snd (handle convert w3))
    /\ Js.get data "lastMessage" = lastMessage
    /\ forall key, key <> "lastMessage" -> Js.get data key = Js.get (Js.Object fields) key.
Proof.
  intros withQuery lookup respond read convert w1 w2 w3
         Hwith Hchats Hsome Hres Hlast Hconverted.
  exists (Js.assign (Js.Object fields) "lastMessage" lastMessage).
  split; [|split].
  - unfold ChatRouterRest.find. cbv beta iota zeta.
    fold withQuery. fold lookup. rewrite Hwith.
    rewrite RestFacts.rest_run_call, Hchats. cbv beta iota zeta. rewrite Hsome.
    fold w1. fold respond.
    rewrite RestFacts.rest_run_call, Hres. cbv beta iota zeta. fold w2.
    rewrite RestFacts.rest_run_bind. fold read.
    rewrite RestFacts.rest_run_call, Hlast. cbv beta iota zeta. fold w3. fold convert.
    rewrite RestFacts.rest_run_call, Hconverted. reflexivity.
  - apply JsFacts.field_set_field_eq.
  - intros key Hkey. simpl. apply JsFacts.field_set_field_ne. exact Hkey.
Qed.

Lemma find_with_last_message_witness :
  Js.includes
    (List.map Js.trim (Js.split (Js.toLowerCase "participants, LastMessage") ","))
    "lastmessage" = true
  /\ exists data,
       Effect.outcome
         (Effect.run SampleRest.serve
            (ChatRouterRest.find Sample.typeError
               (Sample.ctx [("with", "participants, LastMessage")] Js.Null))
            Sample.server)
       = inr (ChatRouter.set_body (ChatRouter.createSuccessResponse data None None)
                (Sample.ctx [("with", "participants, LastMessage")] Js.Null))
       /\ Js.get data "lastMessage" = Js.Object [("guid", Js.Str "message-2")]
       /\ Js.get data "displayName" = Js.Str "Family".
Proof.
  split; [reflexivity|].
  destruct (find_with_last_message Sample.runtime Sample.typeError Sample.Server
              SampleRest.serve Sample.server
              (Sample.ctx [("with", "participants, LastMessage")] Js.Null)
              (Some [Sample.chat1])
              [("guid", Js.Str "iMessage;+;chat1"); ("displayName", Js.Str "Family")]
              (Js.Object [("guid", Js.Str "message-2")])
              (Js.Object [("guid", Js.Str "message-2")])
              eq_refl eq_refl eq_refl eq_refl eq_refl eq_refl)
    as (data & Hrun & Hlast & Hother).
  exists data. rewrite Hrun. split; [reflexivity|]. split; [exact Hlast|].
  rewrite Hother by discriminate. reflexivity.
Defined.

(** X6. [create] is guarded by the configuration and validates nothing.
    With [enable_private_api] falsy it answers the 404 server error
    "Private API is not enabled!" after the configuration read alone.
    Otherwise it hands [body?.addresses] to [ChatInterface.create] as it
    is, missing or not, exactly once; when that call answers, the
    response is the success response without data and with the message
    "Successfully executed create chat command!", and when it throws the
    handler throws the same exception. *)
Theorem create_guarded
    (W : Type) (handle : forall c : ChatRouterRest.Call, W -> ChatRouterRest.Reply c * W)
    (w : W) (ctx : ChatRouter.RouterContext) (enabled : Js.Value) :
  let config := ChatRouterRest.known (ChatRouter.repo_getConfig "enable_private_api") in
  let dispatch :=
    ChatRouterRest.ChatInterface_create
      (Js.opt_get (Request.body (ChatRouter.request ctx)) "addresses") in
  fst (handle config w) = inr enabled ->
  Effect.run handle (ChatRouterRest.create ctx) w
  = if Js.truthy enabled then
      Effect.MkRun [config; dispatch]
        (match fst (handle dispatch (snd (handle config w))) with
         | inl ex => inl ex
         | inr _ =>
             inr (ChatRouter.set_body
                    (ChatRouter.createSuccessResponse Js.Null
                       (Some "Successfully executed create chat command!") None)
                    ctx)
         end)
        (snd (handle dispatch (snd (handle config w))))
    else
      Effect.MkRun [config]
        (inr (ChatRouter.set_body
                (ChatRouter.createServerErrorResponse "Private API is not enabled!"
                   ChatRouter.IMESSAGE_ERROR None)
                (ChatRouter.set_status 404 ctx)))
        (snd (handle config w)).
Proof.
  intros config dispatch Henabled.
  unfold ChatRouterRest.create. cbv beta iota zeta. fold config.
  rewrite RestFacts.rest_run_call, Henabled. cbv beta iota zeta.
  destruct (Js.truthy enabled); simpl negb; cbv iota; [|reflexivity].
  fold dispatch. rewrite RestFacts.rest_run_call.
  destruct (fst (handle dispatch _)); reflexivity.
Qed.

Lemma create_guarded_witness :
  Effect.run SampleRest.serve (ChatRouterRest.create (Sample.ctx [] (Js.Object [])))
    Sample.disabled
  = Effect.MkRun [ChatRouterRest.known (ChatRouter.repo_getConfig "enable_private_api")]
      (inr (ChatRouter.set_body
              (ChatRouter.createServerErrorResponse "Private API is not enabled!"
                 ChatRouter.IMESSAGE_ERROR None)
              (ChatRouter.set_status 404 (Sample.ctx [] (Js.Object [])))))
      Sample.disabled.
Proof.
  exact (create_guarded Sample.Server SampleRest.serve Sample.disabled
           (Sample.ctx [] (Js.Object [])) (Js.Bool false) eq_refl).
Defined.

Module ProgFacts.
Section AnyHandler.
Variable Call : Type.
Variable Reply : Call -> Type.
Variable Exn : Type.
Variable W : Type.
Variable handle : forall c : Call, W -> Reply c * W.

(** Sequencing: the calls of the first part, then those of the second
    on its result; an exception of the first part ends the run. *)
Lemma run_bind {A B : Type} (p : Effect.Prog Call Reply Exn A)
    (f : A -> Effect.Prog Call Reply Exn B) :
  forall w : W,
    Effect.run handle (Effect.bind p f) w
    = match Effect.outcome (Effect.run handle p w) with
      | inl ex =>
          Effect.MkRun (Effect.trace (Effect.run handle p w)) (inl ex)
            (Effect.final (Effect.run handle p w))
      | inr a =>
          let rest := Effect.run handle (f a) (Effect.final (Effect.run handle p w)) in
          Effect.MkRun (Effect.trace (Effect.run handle p w) ++ Effect.trace rest)
            (Effect.outcome rest) (Effect.final rest)
      end.
Proof.
  induction p as [a|x|c k IH]; intros w; simpl.
  - destruct (Effect.run handle (f a) w); reflexivity.
  - reflexivity.
  - destruct (handle c w) as [r w1]. simpl. rewrite IH.
    destruct (Effect.outcome (Effect.run handle (k r) w1)); reflexivity.
Qed.

End AnyHandler.
End ProgFacts.

Module RouterMoreFacts.
Import ChatRouter.

(** The sample runtime lowers every capital letter, so it never answers
    one of the two sort orders, which are spelled in capitals. *)
Lemma sample_toLowerCase_not_an_order (s : string) :
  Sample.toLowerCase s <> "DESC" /\ Sample.toLowerCase s <> "ASC".
Proof.
  destruct s as [|c s]; simpl; [split; discriminate|].
  split; intros Heq; inversion Heq as [[Hc Hs]]; clear Heq Hs;
    destruct c as [[] [] [] [] [] [] [] []]; vm_compute in Hc; discriminate Hc.
Qed.

Section AnyServer.
Variable W : Type.
Variable handle : forall c : Call, W -> Reply c * W.

(** The conversion loop calls [getMessageResponse] once per message, in
    order, and appends each answer to the results. *)
Lemma run_answered (msgs rs : list Js.Value) (w w' : W) :
  ChatRouterRest.answered handle msgs w rs w' ->
  forall acc : list Js.Value,
    Effect.run handle
      (Effect.for_each
         (fun (results : list Js.Value) (msg : Js.Value) =>
            let* r := call (getMessageResponse msg) in
            Effect.Ret (results ++ [r : Js.Value]))
         msgs acc) w
    = Effect.MkRun (List.map getMessageResponse msgs) (inr (acc ++ rs)) w'.
Proof.
  induction 1 as [w|msg msgs w r rs w' Hr Hrest IH]; intros acc.
  - simpl. rewrite app_nil_r. reflexivity.
  - cbn [Effect.for_each]. rewrite ProgFacts.run_bind, RouterFacts.run_call, Hr.
    cbn [Effect.run Effect.trace Effect.outcome Effect.final].
    rewrite IH. cbn [Effect.trace Effect.outcome Effect.final List.map app].
    rewrite <- app_assoc. reflexivity.
Qed.

Lemma answered_length (msgs rs : list Js.Value) (w w' : W) :
  ChatRouterRest.answered handle msgs w rs w' -> List.length rs = List.length msgs.
Proof.
  induction 1 as [w|msg msgs w r rs w' Hr Hrest IH]; [reflexivity|].
  simpl. rewrite IH. reflexivity.
Qed.

End AnyServer.
End RouterMoreFacts.

(** X7. [getMessages] always asks the repository for descending order.
    The handler accepts the [sort] of the query only if its lower-cased
    form is "DESC" or "ASC"; a lower-cased string is neither (the
    assumption on the runtime), so whatever the query says, "ASC"
    included, every message query carries [sort = "DESC"]. *)
Theorem getMessages_sort_is_always_DESC
    (rt : Js.Runtime) (parseNumber : Js.Value -> option Js.Num)
    (W : Type) (handle : forall c : ChatRouter.Call, W -> ChatRouter.Reply c * W)
    (w : W) (ctx : ChatRouter.RouterContext) :
  (forall s, Js.toLowerCase s <> "DESC" /\ Js.toLowerCase s <> "ASC") ->
  forall opts,
    In (ChatRouter.iMessageRepo_getMessages opts)
       (Effect.trace (Effect.run handle (ChatRouter.getMessages parseNumber ctx) w)) ->
    DBMessageParams.sort opts = Some "DESC".
Proof.
  intros Hlower opts Hin. unfold ChatRouter.getMessages in Hin.
  destruct (ChatRouter.pagination parseNumber _ _ 100) as [offset limit].
  cbv beta iota zeta in Hin.
  assert (Hsort : Js.includes ["DESC"; "ASC"]
                    (Js.toLowerCase
                       (default "" (Request.param "sort"
                                      (Request.query (ChatRouter.request ctx)))))
                  = false).
  { destruct (Hlower (default "" (Request.param "sort"
                                    (Request.query (ChatRouter.request ctx)))))
      as [Hdesc Hasc].
    unfold Js.includes. simpl.
    apply String.eqb_neq in Hdesc. apply String.eqb_neq in Hasc.
    rewrite Hdesc, Hasc. reflexivity. }
  rewrite Hsort in Hin.
  rewrite RouterFacts.trace_call in Hin.
  apply List.in_inv in Hin. destruct Hin as [Hin|Hin]; [discriminate Hin|].
  destruct (fst (handle _ w)) as [ex|chats]; [destruct Hin|].
  destruct (ChatRouter.no_chats chats); [destruct Hin|].
  rewrite RouterFacts.trace_call in Hin.
  apply List.in_inv in Hin. destruct Hin as [Hin|Hin].
  { inversion Hin; subst. reflexivity. }
  destruct (fst (handle _ _)) as [ex|messages]; [destruct Hin|].
  rewrite EffectFacts.trace_bind_ret in Hin.
  match type of Hin with
  | In _ (Effect.trace (Effect.run _ _ ?w1)) =>
      pose proof (RouterFacts.responses_trace W handle (default [] messages) [] w1) as Hall
  end.
  rewrite List.Forall_forall in Hall. destruct (Hall _ Hin) as [msg Hmsg]. discriminate Hmsg.
Qed.

Lemma getMessages_sort_is_always_DESC_witness :
  (forall s, Sample.toLowerCase s <> "DESC" /\ Sample.toLowerCase s <> "ASC")
  /\ (forall opts,
        In (ChatRouter.iMessageRepo_getMessages opts)
           (Effect.trace
              (Effect.run Sample.serve
                 (ChatRouter.getMessages Sample.parseNumber
                    (Sample.ctx [("sort", "ASC")] Js.Null))
                 Sample.server)) ->
        DBMessageParams.sort opts = Some "DESC")
  /\ List.map
       (fun c => match c with
                 | ChatRouter.iMessageRepo_getMessages opts => DBMessageParams.sort opts
                 | _ => None
                 end)
       (Effect.trace
          (Effect.run Sample.serve
             (ChatRouter.getMessages Sample.parseNumber (Sample.ctx [("sort", "ASC")] Js.Null))
             Sample.server))
     = [None; Some "DESC"; None; None].
Proof.
  split; [exact RouterMoreFacts.sample_toLowerCase_not_an_order|].
  split; [|reflexivity].
  exact (getMessages_sort_is_always_DESC Sample.runtime Sample.parseNumber
           Sample.Server Sample.serve Sample.server
           (Sample.ctx [("sort", "ASC")] Js.Null)
           RouterMoreFacts.sample_toLowerCase_not_an_order).
Defined.

(** X8. [getMessages] answers one converted message per message of the
    repository, in the repository's order.  When the chat lookup finds
    the chat, the message query the handler makes answers [messages], and
    [getMessageResponse], called on them one after the other, answers
    [results], the handler has made exactly these calls and responds with
    the success response whose data is the array [results], which has one
    entry per message (none when the repository answers [null]); the
    status is not assigned. *)
Theorem getMessages_responses_in_order
    (rt : Js.Runtime) (parseNumber : Js.Value -> option Js.Num)
    (W : Type) (handle : forall c : ChatRouter.Call, W -> ChatRouter.Reply c * W)
    (w w' : W) (ctx : ChatRouter.RouterContext)
    (chats messages : option (list Js.Value)) (results : list Js.Value) :
  let query := Request.query (ChatRouter.request ctx) in
  let withQuery :=
    List.map Js.trim
      (Js.split (Js.toLowerCase (default "" (Request.param "with" query))) ",") in
  let page :=
    ChatRouter.pagination parseNumber
      (Js.of_option (Request.param "offset" query))
      (Js.of_option (Request.param "limit" query)) 100 in
  let lookup :=
    ChatRouter.iMessageRepo_getChats {| ChatParams.chatGuid := ChatRouter.params_guid ctx;
                                        ChatParams.withSMS := Some true;
                                        ChatParams.withParticipants := Some false |} in
  let fetch :=
    ChatRouter.iMessageRepo_getMessages
      {| DBMessageParams.chatGuid := ChatRouter.params_guid ctx;
         DBMessageParams.withAttachments :=
           Js.includes withQuery "attachment" || Js.includes withQuery "attachments";
         DBMessageParams.withHandle :=
           Js.includes withQuery "handle" || Js.includes withQuery "handles";
         DBMessageParams.withSMS := Js.includes withQuery "sms";
         DBMessageParams.offset := fst page;
         DBMessageParams.limit := snd page;
         DBMessageParams.sort :=
           if Js.includes ["DESC"; "ASC"]
                (Js.toLowerCase (default "" (Request.param "sort" query)))
           then Request.param "sort" query
           else Some "DESC";
         DBMessageParams.before := Js.parseInt (Js.of_option (Request.param "before" query));
         DBMessageParams.after := Js.parseInt (Js.of_option (Request.param "after" query)) |} in
  let w1 := snd (handle lookup w) in
  let w2 := snd (handle fetch w1) in
  fst (handle lookup w) = inr chats ->
  ChatRouter.no_chats chats = false ->
  fst (handle fetch w1) = inr messages ->
  ChatRouterRest.answered handle (default [] messages) w2 results w' ->
  Effect.run handle (ChatRouter.getMessages parseNumber ctx) w
  = Effect.MkRun
      ([lookup; fetch] ++ List.map ChatRouter.getMessageResponse (default [] messages))
      (inr (ChatRouter.set_body
              (ChatRouter.createSuccessResponse (Js.Array results) None None) ctx))
      w'
  /\ List.length results = List.length (default [] messages).
Proof.
  cbv zeta. intros Hchats Hsome Hmessages Hanswered.
  split; [|exact (RouterMoreFacts.answered_length W handle _ _ _ _ Hanswered)].
  unfold ChatRouter.getMessages.
  destruct (ChatRouter.pagination parseNumber _ _ 100) as [offset limit].
  cbv beta iota zeta. cbn [fst snd] in *.
  rewrite RouterFacts.run_call, Hchats. cbv beta iota zeta. rewrite Hsome.
  rewrite RouterFacts.run_call, Hmessages. cbv beta iota zeta.
  rewrite ProgFacts.run_bind, (RouterMoreFacts.run_answered W handle _ _ _ _ Hanswered).
  cbv beta iota zeta. cbn [Effect.trace Effect.outcome Effect.final Effect.run app].
  rewrite app_nil_r. reflexivity.
Qed.

Lemma getMessages_responses_in_order_witness :
  Effect.run Sample.serve (ChatRouter.getMessages Sample.parseNumber (Sample.ctx [] Js.Null))
    Sample.server
  = Effect.MkRun
      [ChatRouter.iMessageRepo_getChats
         {| ChatParams.chatGuid := "iMessage;+;chat1"; ChatParams.withSMS := Some true;
            ChatParams.withParticipants := Some false |};
       ChatRouter.iMessageRepo_getMessages
         {| DBMessageParams.chatGuid := "iMessage;+;chat1";
            DBMessageParams.withAttachments := false;
            DBMessageParams.withHandle := false;
            DBMessageParams.withSMS := false;
            DBMessageParams.offset := Js.of_Z 0;
            DBMessageParams.limit := Js.of_Z 100;
            DBMessageParams.sort := Some "DESC";
            DBMessageParams.before := Js.NaN;
            DBMessageParams.after := Js.NaN |};
       ChatRouter.getMessageResponse (Js.Object [("guid", Js.Str "message-1")]);
       ChatRouter.getMessageResponse (Js.Object [("guid", Js.Str "message-2")])]
      (inr (ChatRouter.set_body
              (ChatRouter.createSuccessResponse
                 (Js.Array [Js.Object [("guid", Js.Str "message-1")];
                            Js.Object [("guid", Js.Str "message-2")]])
                 None None)
              (Sample.ctx [] Js.Null)))
      Sample.server.
Proof.
  apply (proj1 (getMessages_responses_in_order Sample.runtime Sample.parseNumber
                  Sample.Server Sample.serve Sample.server Sample.server
                  (Sample.ctx [] Js.Null)
                  (Some [Sample.chat1])
                  (Some [Js.Object [("guid", Js.Str "message-1")];
                         Js.Object [("guid", Js.Str "message-2")]])
                  [Js.Object [("guid", Js.Str "message-1")];
                   Js.Object [("guid", Js.Str "message-2")]]
                  eq_refl eq_refl eq_refl
                  (ChatRouterRest.answered_cons Sample.serve _ _ _ _ _ _ eq_refl
                     (ChatRouterRest.answered_cons Sample.serve _ _ _ _ _ _ eq_refl
                        (ChatRouterRest.answered_nil Sample.serve _))))).
Defined.

(** X9. A chat lookup that finds nothing ends the handler.  When the
    repository answers [null] or an empty list for the route's guid,
    [getMessages], [update] (Private API enabled) and [toggleParticipant]
    (check passed, address given) answer 404 "Chat does not exist!" and
    make no call after the lookup: no message query, no rename, no
    participant change. *)
Theorem chat_not_found
    (rt : Js.Runtime) (parseNumber : Js.Value -> option Js.Num)
    (W : Type) (handle : forall c : ChatRouter.Call, W -> ChatRouter.Reply c * W)
    (w : W) (ctx : ChatRouter.RouterContext) (chats : option (list Js.Value)) :
  let lookup (withSMS withParticipants : option bool) :=
    ChatRouter.iMessageRepo_getChats {| ChatParams.chatGuid := ChatRouter.params_guid ctx;
                                        ChatParams.withSMS := withSMS;
                                        ChatParams.withParticipants := withParticipants |} in
  let config := ChatRouter.repo_getConfig "enable_private_api" in
  let check := ChatRouter.checkPrivateApiStatus in
  let missing :=
    ChatRouter.set_body (ChatRouter.createNotFoundResponse "Chat does not exist!")
      (ChatRouter.set_status 404 ctx) in
  ChatRouter.no_chats chats = true ->
  (fst (handle (lookup (Some true) (Some false)) w) = inr chats ->
   Effect.run handle (ChatRouter.getMessages parseNumber ctx) w
   = Effect.MkRun [lookup (Some true) (Some false)] (inr missing)
       (snd (handle (lookup (Some true) (Some false)) w)))
  /\ (forall enabled,
        fst (handle config w) = inr enabled ->
        Js.truthy enabled = true ->
        fst (handle (lookup None (Some true)) (snd (handle config w))) = inr chats ->
        Effect.run handle (ChatRouter.update ctx) w
        = Effect.MkRun [config; lookup None (Some true)] (inr missing)
            (snd (handle (lookup None (Some true)) (snd (handle config w)))))
  /\ (forall action,
        fst (handle check w) = inr tt ->
        ChatRouter.not_provided (Js.opt_get (Request.body (ChatRouter.request ctx)) "address")
        = false ->
        fst (handle (lookup None (Some false)) (snd (handle check w))) = inr chats ->
        Effect.run handle (ChatRouter.toggleParticipant ctx action) w
        = Effect.MkRun [check; lookup None (Some false)] (inr missing)
            (snd (handle (lookup None (Some false)) (snd (handle check w))))).
Proof.
  intros lookup config check missing Hnone. split; [|split].
  - intros Hchats. unfold ChatRouter.getMessages.
    destruct (ChatRouter.pagination parseNumber _ _ 100) as [offset limit].
    cbv beta iota zeta. fold (lookup (Some true) (Some false)).
    rewrite RouterFacts.run_call, Hchats. cbv beta iota zeta. rewrite Hnone. reflexivity.
  - intros enabled Henabled Htruthy Hchats. unfold ChatRouter.update. cbv beta iota zeta.
    fold config. rewrite RouterFacts.run_call, Henabled. cbv beta iota zeta.
    rewrite Htruthy. simpl negb. cbv iota. fold (lookup None (Some true)).
    rewrite RouterFacts.run_call, Hchats. cbv beta iota zeta. rewrite Hnone. reflexivity.
  - intros action Hcheck Hgiven Hchats. unfold ChatRouter.toggleParticipant.
    cbv beta iota zeta. fold check. rewrite RouterFacts.run_call, Hcheck.
    cbv beta iota zeta. rewrite Hgiven. fold (lookup None (Some false)).
    rewrite RouterFacts.run_call, Hchats. cbv beta iota zeta. rewrite Hnone. reflexivity.
Qed.

Lemma chat_not_found_witness :
  ChatRouter.no_chats (Some []) = true
  /\ Effect.run Sample.serve
       (ChatRouter.toggleParticipant
          {| ChatRouter.request :=
               {| Request.query := [];
                  Request.body := Js.Object [("address", Js.Str "a@b.c")] |};
             ChatRouter.params_guid := "iMessage;+;missing";
             ChatRouter.status := None; ChatRouter.body := None |}
          ChatRouter.add)
       Sample.server
     = Effect.MkRun
         [ChatRouter.checkPrivateApiStatus;
          ChatRouter.iMessageRepo_getChats
            {| ChatParams.chatGuid := "iMessage;+;missing"; ChatParams.withSMS := None;
               ChatParams.withParticipants := Some false |}]
         (inr {| ChatRouter.request :=
                   {| Request.query := [];
                      Request.body := Js.Object [("address", Js.Str "a@b.c")] |};
                 ChatRouter.params_guid := "iMessage;+;missing";
                 ChatRouter.status := Some 404%nat;
                 ChatRouter.body :=
                   Some (ChatRouter.createNotFoundResponse "Chat does not exist!") |})
         Sample.server.
Proof.
  split; [reflexivity|].
  exact (proj2 (proj2
           (chat_not_found Sample.runtime Sample.parseNumber Sample.Server Sample.serve
              Sample.server
              {| ChatRouter.request :=
                   {| Request.query := [];
                      Request.body := Js.Object [("address", Js.Str "a@b.c")] |};
                 ChatRouter.params_guid := "iMessage;+;missing";
                 ChatRouter.status := None; ChatRouter.body := None |}
              (Some []) eq_refl))
           ChatRouter.add eq_refl eq_refl eq_refl).
Defined.

(** X10. [query] passes a sort to [ChatInterface.get] only from its
    whitelist.  Whatever string the body gives (none counts as the empty
    string), the sort the chat interface receives is "lastmessage" when
    the lower-cased string is "lastmessage" and [null] otherwise. *)
Theorem query_sort_whitelist
    (rt : Js.Runtime) (parseNumber : Js.Value -> option Js.Num) (typeError : Js.Value)
    (W : Type) (handle : forall c : ChatRouter.Call, W -> ChatRouter.Reply c * W)
    (w : W) (ctx : ChatRouter.RouterContext) (params : GetParams.t) :
  In (ChatRouter.ChatInterface_get params)
     (Effect.trace (Effect.run handle (ChatRouter.query parseNumber typeError ctx) w)) ->
  exists s,
    Js.coalesce (Js.opt_get (Request.body (ChatRouter.request ctx)) "sort") (Js.Str "")
    = Js.Str s
    /\ GetParams.sort params
       = if String.eqb (Js.toLowerCase s) "lastmessage" then Some "lastmessage" else None.
Proof.
  intros Hin. unfold ChatRouter.query in Hin.
  destruct (ChatRouter.pagination parseNumber _ _ 1000) as [offset limit].
  cbv beta iota zeta in Hin.
  destruct (Js.coalesce (Js.opt_get _ "with") _); try (destruct Hin).
  destruct (Js.coalesce (Js.opt_get _ "sort") _) as [| | | |s| | |]; try (destruct Hin).
  exists s. split; [reflexivity|].
  rewrite RouterFacts.trace_call in Hin.
  apply List.in_inv in Hin. destruct Hin as [Hin|Hin].
  - inversion Hin; subst. simpl. unfold Js.includes. simpl.
    rewrite orb_false_r.
    destruct (String.eqb_spec (Js.toLowerCase s) "lastmessage") as [Heq|];
      [rewrite Heq|]; reflexivity.
  - destruct (fst (handle _ w)) as [ex|results]; [destruct Hin|].
    rewrite RouterFacts.trace_call in Hin.
    apply List.in_inv in Hin. destruct Hin as [Hin|Hin]; [discriminate Hin|].
    destruct (fst (handle _ _)); destruct Hin.
Qed.

Lemma query_sort_whitelist_witness :
  exists params,
    Effect.trace
      (Effect.run Sample.serve
         (ChatRouter.query Sample.parseNumber Sample.typeError
            (Sample.ctx [] (Js.Object [("sort", Js.Str "guid; DROP TABLE chat")])))
         Sample.server)
    = [ChatRouter.ChatInterface_get params; ChatRouter.iMessageRepo_getChatCount]
    /\ GetParams.sort params = None.
Proof.
  eexists. split; [reflexivity|].
  destruct (query_sort_whitelist Sample.runtime Sample.parseNumber Sample.typeError
              Sample.Server Sample.serve Sample.server
              (Sample.ctx [] (Js.Object [("sort", Js.Str "guid; DROP TABLE chat")]))
              _ (or_introl eq_refl))
    as (s & Hs & Hsort).
  inversion Hs; subst. exact Hsort.
Defined.

(** X11. [query] validates before it calls anything.  A [with] that is
    neither missing nor an array makes the handler throw a TypeError; a
    [sort] that is not a string gets 400 "Sort parameter must be a
    string!".  In both cases no collaborator is called. *)
Theorem query_validates_first
    (rt : Js.Runtime) (parseNumber : Js.Value -> option Js.Num) (typeError : Js.Value)
    (W : Type) (handle : forall c : ChatRouter.Call, W -> ChatRouter.Reply c * W)
    (w : W) (ctx : ChatRouter.RouterContext) :
  let listed :=
    Js.coalesce (Js.opt_get (Request.body (ChatRouter.request ctx)) "with") (Js.Array []) in
  let sort :=
    Js.coalesce (Js.opt_get (Request.body (ChatRouter.request ctx)) "sort") (Js.Str "") in
  ((forall items, listed <> Js.Array items) ->
   Effect.run handle (ChatRouter.query parseNumber typeError ctx) w
   = Effect.MkRun [] (inl typeError) w)
  /\ (forall items,
        listed = Js.Array items ->
        (forall s, sort <> Js.Str s) ->
        Effect.run handle (ChatRouter.query parseNumber typeError ctx) w
        = Effect.MkRun []
            (inr (ChatRouter.set_body
                    (ChatRouter.createBadRequestResponse "Sort parameter must be a string!")
                    (ChatRouter.set_status 400 ctx)))
            w).
Proof.
  intros listed sort. split.
  - intros Hlisted. unfold ChatRouter.query.
    destruct (ChatRouter.pagination parseNumber _ _ 1000) as [offset limit].
    cbv beta iota zeta. fold listed.
    destruct listed; try reflexivity. exfalso. eapply Hlisted. reflexivity.
  - intros items Hlisted Hsort. unfold ChatRouter.query.
    destruct (ChatRouter.pagination parseNumber _ _ 1000) as [offset limit].
    cbv beta iota zeta. fold listed. rewrite Hlisted. fold sort.
    destruct sort; try reflexivity. exfalso. eapply Hsort. reflexivity.
Qed.

Lemma query_validates_first_witness :
  Effect.run Sample.serve
    (ChatRouter.query Sample.parseNumber Sample.typeError
       (Sample.ctx [] (Js.Object [("with", Js.Str "participants")])))
    Sample.server
  = Effect.MkRun [] (inl Sample.typeError) Sample.server
  /\ Effect.run Sample.serve
       (ChatRouter.query Sample.parseNumber Sample.typeError
          (Sample.ctx [] (Js.Object [("sort", Js.Number (Js.of_Z 1))])))
       Sample.server
     = Effect.MkRun []
         (inr (ChatRouter.set_body
                 (ChatRouter.createBadRequestResponse "Sort parameter must be a string!")
                 (ChatRouter.set_status 400
                    (Sample.ctx [] (Js.Object [("sort", Js.Number (Js.of_Z 1))])))))
         Sample.server.
Proof.
  split.
  - apply (proj1 (query_validates_first Sample.runtime Sample.parseNumber Sample.typeError
                    Sample.Server Sample.serve Sample.server
                    (Sample.ctx [] (Js.Object [("with", Js.Str "participants")])))).
    intros items. discriminate.
  - apply (proj2 (query_validates_first Sample.runtime Sample.parseNumber Sample.typeError
                    Sample.Server Sample.serve Sample.server
                    (Sample.ctx [] (Js.Object [("sort", Js.Number (Js.of_Z 1))])))
             [] eq_refl).
    intros s. discriminate.
Defined.

(** X12. The metadata [query] returns reports the page it asked for.
    When [with] is missing or an array and [sort] is missing or a string,
    the handler calls [ChatInterface.get] with the filters of the body,
    the whitelisted sort and the clamped page; when that call and then
    [getChatCount] answer, these are all the calls, and the success
    response carries the chats with a metadata whose [total] is the count
    and whose [offset] and [limit] are the very ones passed to
    [ChatInterface.get]. *)
Theorem query_metadata
    (rt : Js.Runtime) (parseNumber : Js.Value -> option Js.Num) (typeError : Js.Value)
    (W : Type) (handle : forall c : ChatRouter.Call, W -> ChatRouter.Reply c * W)
    (w : W) (ctx : ChatRouter.RouterContext)
    (items : list Js.Value) (s : string) (results count : Js.Value) :
  let body := Request.body (ChatRouter.request ctx) in
  let withQuery :=
    List.map (fun e => Js.trim (Js.toLowerCase e)) (ChatRouter.strings items) in
  let page :=
    ChatRouter.pagination parseNumber
      (Js.opt_get body "offset") (Js.opt_get body "limit") 1000 in
  let get :=
    ChatRouter.ChatInterface_get
      {| GetParams.guid := Js.opt_get body "guid";
         GetParams.withSMS := Js.includes withQuery "sms";
         GetParams.withParticipants := Js.includes withQuery "participants";
         GetParams.withLastMessage := Js.includes withQuery "lastmessage";
         GetParams.withArchived := Js.includes withQuery "archived";
         GetParams.offset := fst page;
         GetParams.limit := snd page;
         GetParams.sort :=
           if Js.includes ["lastmessage"] (Js.toLowerCase s)
           then Some (Js.toLowerCase s) else None |} in
  let w1 := snd (handle get w) in
  Js.coalesce (Js.opt_get body "with") (Js.Array []) = Js.Array items ->
  Js.coalesce (Js.opt_get body "sort") (Js.Str "") = Js.Str s ->
  fst (handle get w) = inr results ->
  fst (handle ChatRouter.iMessageRepo_getChatCount w1) = inr count ->
  Effect.run handle (ChatRouter.query parseNumber typeError ctx) w
  = Effect.MkRun [get; ChatRouter.iMessageRepo_getChatCount]
      (inr (ChatRouter.set_body
              (ChatRouter.createSuccessResponse results None
                 (Some {| ChatRouter.total := count;
                          ChatRouter.offset := fst page;
                          ChatRouter.limit := snd page |}))
              ctx))
      (snd (handle ChatRouter.iMessageRepo_getChatCount w1)).
Proof.
  cbv zeta. intros Hlisted Hsort Hresults Hcount. unfold ChatRouter.query.
  destruct (ChatRouter.pagination parseNumber _ _ 1000) as [offset limit].
  cbv beta iota zeta. cbn [fst snd] in *. rewrite Hlisted, Hsort.
  assert (Hvalid :
            (if negb (Js.includes ["lastmessage"] (Js.toLowerCase s))
             then None else Some (Js.toLowerCase s))
            = (if Js.includes ["lastmessage"] (Js.toLowerCase s)
               then Some (Js.toLowerCase s) else None)).
  { destruct (Js.includes ["lastmessage"] (Js.toLowerCase s)); reflexivity. }
  rewrite Hvalid.
  rewrite RouterFacts.run_call, Hresults. cbv beta iota zeta.
  rewrite RouterFacts.run_call, Hcount. reflexivity.
Qed.

Lemma query_metadata_witness :
  Effect.run Sample.serve
    (ChatRouter.query Sample.parseNumber Sample.typeError
       (Sample.ctx [] (Js.Object [("limit", Js.Number (Js.of_Z 5000))])))
    Sample.server
  = Effect.MkRun
      [ChatRouter.ChatInterface_get
         {| GetParams.guid := Js.Undefined;
            GetParams.withSMS := false;
            GetParams.withParticipants := false;
            GetParams.withLastMessage := false;
            GetParams.withArchived := false;
            GetParams.offset := Js.of_Z 0;
            GetParams.limit := Js.of_Z 1000;
            GetParams.sort := None |};
       ChatRouter.iMessageRepo_getChatCount]
      (inr (ChatRouter.set_body
              (ChatRouter.createSuccessResponse (Js.Array [Sample.chat1]) None
                 (Some {| ChatRouter.total := Js.Number (Js.of_Z 1);
                          ChatRouter.offset := Js.of_Z 0;
                          ChatRouter.limit := Js.of_Z 1000 |}))
              (Sample.ctx [] (Js.Object [("limit", Js.Number (Js.of_Z 5000))]))))
      Sample.server.
Proof.
  exact (query_metadata Sample.runtime Sample.parseNumber Sample.typeError
           Sample.Server Sample.serve Sample.server
           (Sample.ctx [] (Js.Object [("limit", Js.Number (Js.of_Z 5000))]))
           [] "" (Js.Array [Sample.chat1]) (Js.Number (Js.of_Z 1))
           eq_refl eq_refl eq_refl eq_refl).
Defined.

Module UpdateFacts.
Import ChatRouter.
Section AnyServer.
Variable W : Type.
Variable handle : forall c : Call, W -> Reply c * W.

(** A call inside [try] whose [catch] makes no call: one call, and a
    result either way. *)
Lemma run_try_call {A : Type} (c : Call) (g : Result c -> A) (h : Js.Value -> A) (w : W) :
  Effect.run handle
    (Effect.try_catch (Effect.bind (call c) (fun v => Effect.Ret (g v)))
       (fun ex => Effect.Ret (h ex))) w
  = Effect.MkRun [c]
      (inr (match fst (handle c w) with
            | inl ex => h ex
            | inr v => g v
            end))
      (snd (handle c w)).
Proof.
  simpl. destruct (handle c w) as [[ex|v] w1]; reflexivity.
Qed.

End AnyServer.
End UpdateFacts.

(** X13. [update] does not let a failed rename escape.  When the Private
    API is enabled, the chat exists, the body carries a [displayName] and
    [ChatInterface.setDisplayName] throws, the handler returns normally:
    it responds with the server error "Chat update executed with errors!"
    whose error text is the exception's [message] (the exception itself
    when it has none), calls nothing after the failed rename, and assigns
    no status. *)
Theorem update_catches_failed_rename
    (rt : Js.Runtime) (W : Type)
    (handle : forall c : ChatRouter.Call, W -> ChatRouter.Reply c * W)
    (w : W) (ctx : ChatRouter.RouterContext)
    (enabled : Js.Value) (chats : option (list Js.Value)) (ex : Js.Value) :
  let displayName := Js.opt_get (Request.body (ChatRouter.request ctx)) "displayName" in
  let config := ChatRouter.repo_getConfig "enable_private_api" in
  let lookup :=
    ChatRouter.iMessageRepo_getChats {| ChatParams.chatGuid := ChatRouter.params_guid ctx;
                                        ChatParams.withSMS := None;
                                        ChatParams.withParticipants := Some true |} in
  let rename :=
    ChatRouter.ChatInterface_setDisplayName (ChatRouter.first_chat chats) displayName in
  let w1 := snd (handle config w) in
  let w2 := snd (handle lookup w1) in
  let message := Js.coalesce (Js.opt_get ex "message") ex in
  ChatRouter.provided displayName = true ->
  fst (handle config w) = inr enabled ->
  Js.truthy enabled = true ->
  fst (handle lookup w1) = inr chats ->
  ChatRouter.no_chats chats = false ->
  fst (handle rename w2) = inl ex ->
  Effect.run handle (ChatRouter.update ctx) w
  = Effect.MkRun [config; lookup; rename]
      (inr (ChatRouter.set_body
              (ChatRouter.createServerErrorResponse
                 (if Js.nullish message then "" else Js.toString message)
                 ChatRouter.IMESSAGE_ERROR
                 (Some "Chat update executed with errors!"))
              ctx))
      (snd (handle rename w2)).
Proof.
  intros displayName config lookup rename w1 w2 message
         Hprovided Henabled Htruthy Hchats Hsome Hthrows.
  unfold ChatRouter.update. cbv beta iota zeta.
  fold displayName. fold config.
  rewrite RouterFacts.run_call, Henabled. cbv beta iota zeta.
  rewrite Htruthy. simpl negb. cbv iota. fold w1. fold lookup.
  rewrite RouterFacts.run_call, Hchats. cbv beta iota zeta.
  rewrite Hsome, Hprovided. fold w2. fold rename.
  rewrite ProgFacts.run_bind, UpdateFacts.run_try_call, Hthrows.
  reflexivity.
Qed.

Lemma update_catches_failed_rename_witness :
  Effect.run SampleRest.failing
    (ChatRouter.update (Sample.ctx [] (Js.Object [("displayName", Js.Str "Friends")])))
    Sample.server
  = Effect.MkRun
      [ChatRouter.repo_getConfig "enable_private_api";
       ChatRouter.iMessageRepo_getChats
         {| ChatParams.chatGuid := "iMessage;+;chat1"; ChatParams.withSMS := None;
            ChatParams.withParticipants := Some true |};
       ChatRouter.ChatInterface_setDisplayName Sample.chat1 (Js.Str "Friends")]
      (inr (ChatRouter.set_body
              (ChatRouter.createServerErrorResponse "Failed to set display name"
                 ChatRouter.IMESSAGE_ERROR (Some "Chat update executed with errors!"))
              (Sample.ctx [] (Js.Object [("displayName", Js.Str "Friends")]))))
      Sample.server.
Proof.
  exact (update_catches_failed_rename Sample.runtime Sample.Server SampleRest.failing
           Sample.server (Sample.ctx [] (Js.Object [("displayName", Js.Str "Friends")]))
           (Js.Bool true) (Some [Sample.chat1])
           (Js.Object [("message", Js.Str "Failed to set display name")])
           eq_refl eq_refl eq_refl eq_refl eq_refl eq_refl).
Defined.

(** X14. A successful rename is reported with the renamed chat.  When the
    Private API is enabled, the chat exists and the body carries a
    [displayName], [update] passes the first chat of the lookup and the
    [displayName] to [ChatInterface.setDisplayName]; when that answers,
    the response is built from the chat it answers, not from the chat
    looked up, with the message "Successfully updated the following
    fields: displayName". *)
Theorem update_reports_renamed_chat
    (rt : Js.Runtime) (W : Type)
    (handle : forall c : ChatRouter.Call, W -> ChatRouter.Reply c * W)
    (w : W) (ctx : ChatRouter.RouterContext)
    (enabled : Js.Value) (chats : option (list Js.Value)) (renamed response : Js.Value) :
  let displayName := Js.opt_get (Request.body (ChatRouter.request ctx)) "displayName" in
  let config := ChatRouter.repo_getConfig "enable_private_api" in
  let lookup :=
    ChatRouter.iMessageRepo_getChats {| ChatParams.chatGuid := ChatRouter.params_guid ctx;
                                        ChatParams.withSMS := None;
                                        ChatParams.withParticipants := Some true |} in
  let rename :=
    ChatRouter.ChatInterface_setDisplayName (ChatRouter.first_chat chats) displayName in
  let w1 := snd (handle config w) in
  let w2 := snd (handle lookup w1) in
  let w3 := snd (handle rename w2) in
  ChatRouter.provided displayName = true ->
  fst (handle config w) = inr enabled ->
  Js.truthy enabled = true ->
  fst (handle lookup w1) = inr chats ->
  ChatRouter.no_chats chats = false ->
  fst (handle rename w2) = inr renamed ->
  fst (handle (ChatRouter.getChatResponse renamed) w3) = inr response ->
  Effect.run handle (ChatRouter.update ctx) w
  = Effect.MkRun [config; lookup; rename; ChatRouter.getChatResponse renamed]
      (inr (ChatRouter.set_body
              (ChatRouter.createSuccessResponse response
                 (Some "Successfully updated the following fields: displayName") None)
              ctx))
      (snd (handle (ChatRouter.getChatResponse renamed) w3)).
Proof.
  intros displayName config lookup rename w1 w2 w3
         Hprovided Henabled Htruthy Hchats Hsome Hrenamed Hresponse.
  unfold ChatRouter.update. cbv beta iota zeta.
  fold displayName. fold config.
  rewrite RouterFacts.run_call, Henabled. cbv beta iota zeta.
  rewrite Htruthy. simpl negb. cbv iota. fold w1. fold lookup.
  rewrite RouterFacts.run_call, Hchats. cbv beta iota zeta.
  rewrite Hsome, Hprovided. fold w2. fold rename.
  rewrite ProgFacts.run_bind, UpdateFacts.run_try_call, Hrenamed.
  cbn [Effect.trace Effect.outcome Effect.final]. cbv beta iota zeta.
  change (Nat.ltb 0 (@List.length Js.Value [])) with false.
  change (Nat.eqb (@List.length string ["displayName"]) 0) with false.
  cbv iota. fold w3.
  rewrite RouterFacts.run_call, Hresponse. reflexivity.
Qed.

Lemma update_reports_renamed_chat_witness :
  Effect.outcome
    (Effect.run Sample.serve
       (ChatRouter.update (Sample.ctx [] (Js.Object [("displayName", Js.Str "Friends")])))
       Sample.server)
  = inr (ChatRouter.set_body
           (ChatRouter.createSuccessResponse
              (Js.Object [("guid", Js.Str "iMessage;+;chat1");
                          ("displayName", Js.Str "Friends")])
              (Some "Successfully updated the following fields: displayName") None)
           (Sample.ctx [] (Js.Object [("displayName", Js.Str "Friends")]))).
Proof.
  exact (f_equal Effect.outcome
           (update_reports_renamed_chat Sample.runtime Sample.Server Sample.serve
              Sample.server (Sample.ctx [] (Js.Object [("displayName", Js.Str "Friends")]))
              (Js.Bool true) (Some [Sample.chat1])
              (Js.Object [("guid", Js.Str "iMessage;+;chat1");
                          ("displayName", Js.Str "Friends")])
              (Js.Object [("guid", Js.Str "iMessage;+;chat1");
                          ("displayName", Js.Str "Friends")])
              eq_refl eq_refl eq_refl eq_refl eq_refl eq_refl eq_refl)).
Defined.

(** X15. With the Private API disabled [update] touches nothing: whatever
    the body asks for, a falsy [enable_private_api] ends the handler
    after the configuration read with the 404 server error
    "Private API is not enabled!"; the chat is neither looked up nor
    renamed. *)
Theorem update_disabled
    (rt : Js.Runtime) (W : Type)
    (handle : forall c : ChatRouter.Call, W -> ChatRouter.Reply c * W)
    (w : W) (ctx : ChatRouter.RouterContext) (enabled : Js.Value) :
  fst (handle (ChatRouter.repo_getConfig "enable_private_api") w) = inr enabled ->
  Js.truthy enabled = false ->
  Effect.run handle (ChatRouter.update ctx) w
  = Effect.MkRun [ChatRouter.repo_getConfig "enable_private_api"]
      (inr (ChatRouter.set_body
              (ChatRouter.createServerErrorResponse "Private API is not enabled!"
                 ChatRouter.IMESSAGE_ERROR None)
              (ChatRouter.set_status 404 ctx)))
      (snd (handle (ChatRouter.repo_getConfig "enable_private_api") w)).
Proof.
  intros Henabled Hfalsy. unfold ChatRouter.update. cbv beta iota zeta.
  rewrite RouterFacts.run_call, Henabled. cbv beta iota zeta. rewrite Hfalsy. reflexivity.
Qed.

Lemma update_disabled_witness :
  Effect.trace
    (Effect.run Sample.serve
       (ChatRouter.update (Sample.ctx [] (Js.Object [("displayName", Js.Str "Friends")])))
       Sample.disabled)
  = [ChatRouter.repo_getConfig "enable_private_api"].
Proof.
  exact (f_equal Effect.trace
           (update_disabled Sample.runtime Sample.Server Sample.serve Sample.disabled
              (Sample.ctx [] (Js.Object [("displayName", Js.Str "Friends")]))
              (Js.Bool false) eq_refl eq_refl)).
Defined.

(** X16. [toggleParticipant] changes the participant of the first chat
    the lookup finds, with the address of the body and the action it was
    called with, once.  When the change throws, the handler throws the
    same exception and calls nothing more; when it answers, the response
    is built from the chat it answers. *)
Theorem toggleParticipant_dispatch
    (W : Type) (handle : forall c : ChatRouter.Call, W -> ChatRouter.Reply c * W)
    (w : W) (ctx : ChatRouter.RouterContext) (action : ChatRouter.ParticipantAction)
    (chats : option (list Js.Value)) :
  let address := Js.opt_get (Request.body (ChatRouter.request ctx)) "address" in
  let check := ChatRouter.checkPrivateApiStatus in
  let lookup :=
    ChatRouter.iMessageRepo_getChats {| ChatParams.chatGuid := ChatRouter.params_guid ctx;
                                        ChatParams.withSMS := None;
                                        ChatParams.withParticipants := Some false |} in
  let toggle :=
    ChatRouter.ChatInterface_toggleParticipant (ChatRouter.first_chat chats) address action in
  let w1 := snd (handle check w) in
  let w2 := snd (handle lookup w1) in
  let w3 := snd (handle toggle w2) in
  fst (handle check w) = inr tt ->
  ChatRouter.not_provided address = false ->
  fst (handle lookup w1) = inr chats ->
  ChatRouter.no_chats chats = false ->
  Effect.run handle (ChatRouter.toggleParticipant ctx action) w
  = match fst (handle toggle w2) with
    | inl ex => Effect.MkRun [check; lookup; toggle] (inl ex) w3
    | inr chat =>
        Effect.MkRun [check; lookup; toggle; ChatRouter.getChatResponse chat]
          (match fst (handle (ChatRouter.getChatResponse chat) w3) with
           | inl ex => inl ex
           | inr response =>
               inr (ChatRouter.set_body
                      (ChatRouter.createSuccessResponse response
                         (Some "Successfully added participant!") None)
                      ctx)
           end)
          (snd (handle (ChatRouter.getChatResponse chat) w3))
    end.
Proof.
  intros address check lookup toggle w1 w2 w3 Hcheck Hgiven Hchats Hsome.
  unfold ChatRouter.toggleParticipant. cbv beta iota zeta.
  fold address. fold check.
  rewrite RouterFacts.run_call, Hcheck. cbv beta iota zeta. rewrite Hgiven.
  fold w1. fold lookup.
  rewrite RouterFacts.run_call, Hchats. cbv beta iota zeta. rewrite Hsome.
  fold w2. fold toggle.
  rewrite RouterFacts.run_call. fold w3.
  destruct (fst (handle toggle w2)) as [ex|chat]; [reflexivity|].
  cbv beta iota zeta. rewrite RouterFacts.run_call.
  destruct (fst (handle (ChatRouter.getChatResponse chat) w3)); reflexivity.
Qed.

Lemma toggleParticipant_dispatch_witness :
  Effect.run SampleRest.failing
    (ChatRouter.removeParticipant
       (Sample.ctx [] (Js.Object [("address", Js.Str "a@b.c")])))
    Sample.server
  = Effect.MkRun
      [ChatRouter.checkPrivateApiStatus;
       ChatRouter.iMessageRepo_getChats
         {| ChatParams.chatGuid := "iMessage;+;chat1"; ChatParams.withSMS := None;
            ChatParams.withParticipants := Some false |};
       ChatRouter.ChatInterface_toggleParticipant Sample.chat1 (Js.Str "a@b.c")
         ChatRouter.remove]
      (inl (Js.Object [("message", Js.Str "Failed to toggle participant")]))
      Sample.server.
Proof.
  exact (toggleParticipant_dispatch Sample.Server SampleRest.failing Sample.server
           (Sample.ctx [] (Js.Object [("address", Js.Str "a@b.c")])) ChatRouter.remove
           (Some [Sample.chat1]) eq_refl eq_refl eq_refl eq_refl).
Defined.

(** X18. Inside its range the pagination is the identity, and the limit
    is never negative.  For a [parseNumber] that never answers [NaN]:
    a requested offset that is at least 0 is passed on as it is, a
    requested limit between 0 and 1000 (0 included) is passed on as it
    is, and the limit passed on is at least 0 in every case. *)
Theorem pagination_in_range
    (parseNumber : Js.Value -> option Js.Num) (o l : Js.Value) (d : Z) :
  (forall v, parseNumber v <> Some Js.NaN) ->
  (0 <= d <= 1000)%Z ->
  (forall n, parseNumber o = Some n -> Js.ge n (Js.of_Z 0) = true ->
             fst (ChatRouter.pagination parseNumber o l d) = n)
  /\ (forall n, parseNumber l = Some n ->
                Js.ge n (Js.of_Z 0) = true -> Js.le n (Js.of_Z 1000) = true ->
                snd (ChatRouter.pagination parseNumber o l d) = n)
  /\ Js.ge (snd (ChatRouter.pagination parseNumber o l d)) (Js.of_Z 0) = true.
Proof.
  intros Hnum Hd. split; [|split].
  - intros n Ho Hge. unfold ChatRouter.pagination. rewrite Ho.
    cbn [fst default from_option id].
    destruct n as [|[|]|q]; simpl in *; try discriminate; try reflexivity.
    rewrite Hge. reflexivity.
  - intros n Hl Hge Hle. unfold ChatRouter.pagination. rewrite Hl.
    cbn [snd default from_option id].
    destruct n as [|[|]|q]; simpl in *; try discriminate.
    unfold Js.gt. simpl. rewrite Hge, Hle. reflexivity.
  - unfold ChatRouter.pagination. cbn [snd].
    pose proof (Hnum l) as Hl.
    destruct (parseNumber l) as [n|]; cbn [default from_option id].
    + destruct n as [|[|]|q]; simpl; try reflexivity; [congruence|].
      unfold Js.gt, Js.ge. simpl.
      destruct (Qle_bool (inject_Z 0) q) eqn:Hlo; simpl; [|reflexivity].
      destruct (Qle_bool q (inject_Z 1000)); simpl; [exact Hlo|reflexivity].
    + assert (Hlo : Qle_bool (inject_Z 0) (inject_Z d) = true).
      { apply Qle_bool_iff. rewrite <- Zle_Qle. lia. }
      assert (Hhi : Qle_bool (inject_Z d) (inject_Z 1000) = true).
      { apply Qle_bool_iff. rewrite <- Zle_Qle. lia. }
      unfold Js.gt, Js.ge. simpl. rewrite Hlo, Hhi. simpl. exact Hlo.
Qed.

Lemma sample_parseNumber_never_NaN (v : Js.Value) : Sample.parseNumber v <> Some Js.NaN.
Proof.
  destruct v as [| | |n|s| | |]; simpl; try discriminate.
  - destruct n; discriminate.
  - destruct (Sample.integer s); discriminate.
Qed.

Lemma pagination_in_range_witness :
  (forall v, Sample.parseNumber v <> Some Js.NaN)
  /\ (0 <= 100 <= 1000)%Z
  /\ ChatRouter.pagination Sample.parseNumber (Js.Str "20") (Js.Str "0") 100
     = (Js.of_Z 20, Js.of_Z 0).
Proof.
  split; [exact sample_parseNumber_never_NaN|]. split; [lia|].
  destruct (pagination_in_range Sample.parseNumber (Js.Str "20") (Js.Str "0") 100
              sample_parseNumber_never_NaN ltac:(lia)) as (Hoffset & Hlimit & _).
  specialize (Hoffset (Js.of_Z 20) eq_refl eq_refl).
  specialize (Hlimit (Js.of_Z 0) eq_refl eq_refl eq_refl).
  rewrite (surjective_pairing (ChatRouter.pagination _ _ _ _)), Hoffset, Hlimit.
  reflexivity.
Defined.

Module RespondedFacts.
Import ChatRouter.

Lemma responded_not_found (ctx : RouterContext) (error : string) :
  ChatRouterRest.responded ctx (set_body (createNotFoundResponse error) (set_status 404 ctx)).
Proof. repeat split. eexists. split; reflexivity. Qed.

Lemma responded_bad_request (ctx : RouterContext) (error : string) :
  ChatRouterRest.responded ctx (set_body (createBadRequestResponse error) (set_status 400 ctx)).
Proof. repeat split. eexists. split; reflexivity. Qed.

Lemma responded_disabled (ctx : RouterContext) (error : string) (type : ErrorTypes)
    (message : option string) :
  ChatRouterRest.responded ctx
    (set_body (createServerErrorResponse error type message) (set_status 404 ctx)).
Proof. repeat split. eexists. split; [reflexivity|]. left. reflexivity. Qed.

Lemma responded_error (ctx : RouterContext) (error : string) (type : ErrorTypes)
    (message : option string) :
  ChatRouterRest.responded ctx (set_body (createServerErrorResponse error type message) ctx).
Proof. repeat split. eexists. split; [reflexivity|]. right. reflexivity. Qed.

Lemma responded_success (ctx : RouterContext) (data : Js.Value) (message : option string)
    (metadata : option Metadata) :
  ChatRouterRest.responded ctx (set_body (createSuccessResponse data message metadata) ctx).
Proof. repeat split. eexists. split; reflexivity. Qed.

End RespondedFacts.

(** X17. A handler that returns has responded, and only to the request
    it was given.  For [getMessages], [query], [update],
    [toggleParticipant], [find] and [create], against any collaborators:
    whenever the handler returns rather than throws, the context carries
    a body, the request and the route parameters are untouched, and the
    status is assigned only together with an error response: 404 with
    "not found", 400 with "bad request", 404 or nothing with a server
    error, nothing with a success response. *)
Theorem handlers_respond
    (rt : Js.Runtime) (parseNumber : Js.Value -> option Js.Num) (typeError : Js.Value)
    (W : Type) (handle : forall c : ChatRouter.Call, W -> ChatRouter.Reply c * W)
    (serve : forall c : ChatRouterRest.Call, W -> ChatRouterRest.Reply c * W)
    (w : W) (ctx ctx' : ChatRouter.RouterContext) :
  (Effect.outcome (Effect.run handle (ChatRouter.getMessages parseNumber ctx) w) = inr ctx'
   -> ChatRouterRest.responded ctx ctx')
  /\ (Effect.outcome (Effect.run handle (ChatRouter.query parseNumber typeError ctx) w)
      = inr ctx' -> ChatRouterRest.responded ctx ctx')
  /\ (Effect.outcome (Effect.run handle (ChatRouter.update ctx) w) = inr ctx'
      -> ChatRouterRest.responded ctx ctx')
  /\ (forall action,
        Effect.outcome (Effect.run handle (ChatRouter.toggleParticipant ctx action) w)
        = inr ctx' -> ChatRouterRest.responded ctx ctx')
  /\ (Effect.outcome (Effect.run serve (ChatRouterRest.find typeError ctx) w) = inr ctx'
      -> ChatRouterRest.responded ctx ctx')
  /\ (Effect.outcome (Effect.run serve (ChatRouterRest.create ctx) w) = inr ctx'
      -> ChatRouterRest.responded ctx ctx').
Proof.
  split; [|split; [|split; [|split; [|split]]]].
  - intros Hrun. unfold ChatRouter.getMessages in Hrun.
    destruct (ChatRouter.pagination parseNumber _ _ 100) as [offset limit].
    cbv beta iota zeta in Hrun. rewrite RouterFacts.outcome_call in Hrun.
    destruct (fst (handle _ w)) as [ex|chats]; [discriminate Hrun|].
    destruct (ChatRouter.no_chats chats).
    { inversion Hrun; subst. apply RespondedFacts.responded_not_found. }
    rewrite RouterFacts.outcome_call in Hrun.
    destruct (fst (handle _ _)) as [ex|messages]; [discriminate Hrun|].
    rewrite ProgFacts.run_bind in Hrun.
    destruct (Effect.outcome (Effect.run handle (Effect.for_each _ _ _) _)) as [ex|results];
      [discriminate Hrun|].
    inversion Hrun; subst. apply RespondedFacts.responded_success.
  - intros Hrun. unfold ChatRouter.query in Hrun.
    destruct (ChatRouter.pagination parseNumber _ _ 1000) as [offset limit].
    cbv beta iota zeta in Hrun.
    destruct (Js.coalesce (Js.opt_get _ "with") _); try discriminate Hrun.
    destruct (Js.coalesce (Js.opt_get _ "sort") _);
      try (inversion Hrun; subst; apply RespondedFacts.responded_bad_request).
    rewrite RouterFacts.outcome_call in Hrun.
    destruct (fst (handle _ w)) as [ex|results]; [discriminate Hrun|].
    rewrite RouterFacts.outcome_call in Hrun.
    destruct (fst (handle _ _)) as [ex|count]; [discriminate Hrun|].
    inversion Hrun; subst. apply RespondedFacts.responded_success.
  - intros Hrun. unfold ChatRouter.update in Hrun. cbv beta iota zeta in Hrun.
    rewrite RouterFacts.outcome_call in Hrun.
    destruct (fst (handle _ w)) as [ex|enabled]; [discriminate Hrun|].
    destruct (negb (Js.truthy enabled)).
    { inversion Hrun; subst. apply RespondedFacts.responded_disabled. }
    rewrite RouterFacts.outcome_call in Hrun.
    destruct (fst (handle _ _)) as [ex|chats]; [discriminate Hrun|].
    destruct (ChatRouter.no_chats chats).
    { inversion Hrun; subst. apply RespondedFacts.responded_not_found. }
    rewrite ProgFacts.run_bind in Hrun.
    destruct (ChatRouter.provided _).
    + rewrite UpdateFacts.run_try_call in Hrun.
      cbn [Effect.trace Effect.outcome Effect.final] in Hrun.
      destruct (fst (handle (ChatRouter.ChatInterface_setDisplayName _ _) _)) as [ex|renamed];
        cbv beta iota zeta in Hrun.
      * simpl in Hrun. inversion Hrun; subst. apply RespondedFacts.responded_error.
      * change (Nat.ltb 0 (@List.length Js.Value [])) with false in Hrun.
        change (Nat.eqb (@List.length string ["displayName"]) 0) with false in Hrun.
        cbv iota in Hrun. cbn [Effect.outcome] in Hrun.
        rewrite RouterFacts.outcome_call in Hrun.
        destruct (fst (handle _ _)) as [ex|response]; [discriminate Hrun|].
        inversion Hrun; subst. apply RespondedFacts.responded_success.
    + simpl in Hrun.
      destruct (handle (ChatRouter.getChatResponse (ChatRouter.first_chat chats)) _)
        as [[ex|response] w3]; simpl in Hrun; [discriminate Hrun|].
      inversion Hrun; subst. apply RespondedFacts.responded_success.
  - intros action Hrun. unfold ChatRouter.toggleParticipant in Hrun.
    cbv beta iota zeta in Hrun. rewrite RouterFacts.outcome_call in Hrun.
    destruct (fst (handle _ w)) as [ex|[]]; [discriminate Hrun|].
    destruct (ChatRouter.not_provided _).
    { inversion Hrun; subst. apply RespondedFacts.responded_not_found. }
    rewrite RouterFacts.outcome_call in Hrun.
    destruct (fst (handle _ _)) as [ex|chats]; [discriminate Hrun|].
    destruct (ChatRouter.no_chats chats).
    { inversion Hrun; subst. apply RespondedFacts.responded_not_found. }
    rewrite RouterFacts.outcome_call in Hrun.
    destruct (fst (handle _ _)) as [ex|chat]; [discriminate Hrun|].
    rewrite RouterFacts.outcome_call in Hrun.
    destruct (fst (handle _ _)) as [ex|response]; [discriminate Hrun|].
    inversion Hrun; subst. apply RespondedFacts.responded_success.
  - intros Hrun. unfold ChatRouterRest.find in Hrun. cbv beta iota zeta in Hrun.
    rewrite RestFacts.rest_outcome_call in Hrun.
    destruct (fst (serve _ w)) as [ex|chats]; [discriminate Hrun|].
    destruct (ChatRouter.no_chats chats).
    { inversion Hrun; subst. apply RespondedFacts.responded_not_found. }
    rewrite RestFacts.rest_outcome_call in Hrun.
    destruct (fst (serve _ _)) as [ex|res]; [discriminate Hrun|].
    rewrite RestFacts.rest_run_bind in Hrun.
    destruct (Effect.outcome (Effect.run serve _ _)) as [ex|data]; [discriminate Hrun|].
    inversion Hrun; subst. apply RespondedFacts.responded_success.
  - intros Hrun. unfold ChatRouterRest.create in Hrun. cbv beta iota zeta in Hrun.
    rewrite RestFacts.rest_outcome_call in Hrun.
    destruct (fst (serve _ w)) as [ex|enabled]; [discriminate Hrun|].
    destruct (negb (Js.truthy enabled)).
    { inversion Hrun; subst. apply RespondedFacts.responded_disabled. }
    rewrite RestFacts.rest_outcome_call in Hrun.
    destruct (fst (serve _ _)) as [ex|created]; [discriminate Hrun|].
    inversion Hrun; subst. apply RespondedFacts.responded_success.
Qed.

Lemma handlers_respond_witness :
  Effect.outcome
    (Effect.run Sample.serve
       (ChatRouter.query Sample.parseNumber Sample.typeError
          (Sample.ctx [] (Js.Object [("sort", Js.Bool true)])))
       Sample.server)
  = inr (ChatRouter.set_body
           (ChatRouter.createBadRequestResponse "Sort parameter must be a string!")
           (ChatRouter.set_status 400 (Sample.ctx [] (Js.Object [("sort", Js.Bool true)]))))
  /\ ChatRouterRest.responded (Sample.ctx [] (Js.Object [("sort", Js.Bool true)]))
       (ChatRouter.set_body
          (ChatRouter.createBadRequestResponse "Sort parameter must be a string!")
          (ChatRouter.set_status 400 (Sample.ctx [] (Js.Object [("sort", Js.Bool true)])))).
Proof.
  split; [reflexivity|].
  exact (proj1 (proj2
           (handlers_respond Sample.runtime Sample.parseNumber Sample.typeError
              Sample.Server Sample.serve SampleRest.serve Sample.server
              (Sample.ctx [] (Js.Object [("sort", Js.Bool true)])) _))
           eq_refl).
Defined.

(** X19. A Domain Action hands the dispatcher's answer on, whatever it
    is.  For each of the four actions, against any dispatcher: the last
    call of the run is its [sendApiMessage], and the action's outcome and
    the state it leaves are exactly what that call answered and left, a
    result or a failure; the action neither catches a failure nor sends
    again. *)
Theorem domain_actions_delegate
    (d : PrivateApiFaceTime.DomainAction) (W : Type)
    (handle : forall c : PrivateApiFaceTime.Call, W -> PrivateApiFaceTime.Reply c * W)
    (w : W) :
  exists a data t before w0,
    Effect.trace (Effect.run handle (PrivateApiFaceTime.invoke d) w)
    = before ++ [PrivateApiFaceTime.SendApiMessage a data t]
    /\ PrivateApiFaceTime.sent before = []
    /\ Effect.outcome (Effect.run handle (PrivateApiFaceTime.invoke d) w)
       = fst (handle (PrivateApiFaceTime.SendApiMessage a data t) w0)
    /\ Effect.final (Effect.run handle (PrivateApiFaceTime.invoke d) w)
       = snd (handle (PrivateApiFaceTime.SendApiMessage a data t) w0).
Proof.
  destruct d; simpl PrivateApiFaceTime.invoke.
  - unfold PrivateApiFaceTime.answerCall. rewrite FaceTimeFacts.run_sendApiMessage.
    eexists _, _, _, [], w. repeat split.
  - unfold PrivateApiFaceTime.leaveCall. rewrite FaceTimeFacts.run_sendApiMessage.
    eexists _, _, _, [], w. repeat split.
  - rewrite FaceTimeFacts.run_generateLink.
    eexists _, _, _, [PrivateApiFaceTime.NewTransactionPromise Transaction.OTHER], _.
    repeat split.
  - unfold PrivateApiFaceTime.admitParticipant. rewrite FaceTimeFacts.run_sendApiMessage.
    eexists _, _, _, [], w. repeat split.
Qed.

Module ChangeFacts.

(** The loop of [count] makes no call, whatever the chats are. *)
Lemma tally_trace `{Js.Runtime} (typeError : Js.Value) (W : Type)
    (serve : forall c : ChatRouterRest.Call, W -> ChatRouterRest.Reply c * W)
    (chats : list Js.Value) :
  forall (acc : gmap string nat) (w : W),
    Effect.trace
      (Effect.run serve
         (Effect.for_each
            (fun (serviceCounts : gmap string nat) (chat : Js.Value) =>
               if Js.nullish chat then Effect.Throw typeError
               else Effect.Ret (ChatRouterRest.tally serviceCounts chat))
            chats acc) w)
    = [].
Proof.
  induction chats as [|chat chats IH]; intros acc w; [reflexivity|].
  simpl. destruct (Js.nullish chat); simpl; [reflexivity|apply IH].
Qed.

End ChangeFacts.

(** X20. The lookups change nothing.  Every call [getMessages] and
    [query] make, and every call [find] and [count] make, is a read: no
    run of them calls [setDisplayName], [toggleParticipant] or [create].
    So against collaborators whose reads leave the state as it is, the
    state after [getMessages] is the state before. *)
Theorem lookups_are_read_only
    (rt : Js.Runtime) (parseNumber : Js.Value -> option Js.Num) (typeError : Js.Value)
    (W : Type) (handle : forall c : ChatRouter.Call, W -> ChatRouter.Reply c * W)
    (serve : forall c : ChatRouterRest.Call, W -> ChatRouterRest.Reply c * W)
    (w : W) (ctx : ChatRouter.RouterContext) :
  Forall (fun c => ChatRouter.mutates c = false)
    (Effect.trace (Effect.run handle (ChatRouter.getMessages parseNumber ctx) w))
  /\ Forall (fun c => ChatRouter.mutates c = false)
       (Effect.trace (Effect.run handle (ChatRouter.query parseNumber typeError ctx) w))
  /\ Forall (fun c => ChatRouterRest.mutates c = false)
       (Effect.trace (Effect.run serve (ChatRouterRest.find typeError ctx) w))
  /\ Forall (fun c => ChatRouterRest.mutates c = false)
       (Effect.trace (Effect.run serve (ChatRouterRest.count typeError) w))
  /\ ((forall c w', ChatRouter.mutates c = false -> snd (handle c w') = w') ->
      Effect.final (Effect.run handle (ChatRouter.getMessages parseNumber ctx) w) = w).
Proof.
  assert (Hmessages : Forall (fun c => ChatRouter.mutates c = false)
            (Effect.trace (Effect.run handle (ChatRouter.getMessages parseNumber ctx) w))).
  { unfold ChatRouter.getMessages.
    destruct (ChatRouter.pagination parseNumber _ _ 100) as [offset limit].
    cbv beta iota zeta. rewrite RouterFacts.trace_call. constructor; [reflexivity|].
    destruct (fst (handle _ w)) as [ex|chats]; [constructor|].
    destruct (ChatRouter.no_chats chats); [constructor|].
    rewrite RouterFacts.trace_call. constructor; [reflexivity|].
    destruct (fst (handle _ _)) as [ex|messages]; [constructor|].
    rewrite EffectFacts.trace_bind_ret.
    eapply Forall_impl; [apply RouterFacts.responses_trace|].
    intros c [msg ->]. reflexivity. }
  split; [exact Hmessages|]. split; [|split; [|split]].
  - unfold ChatRouter.query.
    destruct (ChatRouter.pagination parseNumber _ _ 1000) as [offset limit].
    cbv beta iota zeta.
    destruct (Js.coalesce (Js.opt_get _ "with") _); try constructor.
    destruct (Js.coalesce (Js.opt_get _ "sort") _); try constructor.
    rewrite RouterFacts.trace_call. constructor; [reflexivity|].
    destruct (fst (handle _ w)) as [ex|results]; [constructor|].
    rewrite RouterFacts.trace_call. constructor; [reflexivity|].
    destruct (fst (handle _ _)); constructor.
  - unfold ChatRouterRest.find. cbv beta iota zeta.
    rewrite RestFacts.rest_trace_call. constructor; [reflexivity|].
    destruct (fst (serve _ w)) as [ex|chats]; [constructor|].
    destruct (ChatRouter.no_chats chats); [constructor|].
    rewrite RestFacts.rest_trace_call. constructor; [reflexivity|].
    destruct (fst (serve _ _)) as [ex|res]; [constructor|].
    destruct (Js.includes _ "lastmessage"); [|constructor].
    rewrite RestFacts.rest_run_bind, RestFacts.rest_run_call.
    destruct (fst (serve (ChatRouterRest.iMessageRepo_getChatLastMessage _) _)) as [ex|last];
      cbv beta iota zeta; cbn [Effect.trace Effect.outcome Effect.final].
    { repeat constructor. }
    rewrite RestFacts.rest_run_call.
    destruct (fst (serve (ChatRouterRest.known (ChatRouter.getMessageResponse last)) _))
      as [ex|lastMessage]; cbv beta iota zeta; cbn [Effect.trace Effect.outcome Effect.final].
    { repeat constructor. }
    destruct res; simpl; repeat constructor.
  - unfold ChatRouterRest.count. rewrite RestFacts.rest_trace_call. constructor; [reflexivity|].
    destruct (fst (serve _ w)) as [ex|[chats|]]; try constructor.
    cbv beta iota zeta. rewrite RestFacts.rest_run_bind.
    pose proof (ChangeFacts.tally_trace typeError W serve chats ∅
                  (snd (serve (ChatRouterRest.iMessageRepo_getChats_withSMS true) w)))
      as Hloop.
    destruct (Effect.outcome (Effect.run serve (Effect.for_each _ _ _) _));
      cbn [Effect.trace]; rewrite Hloop; constructor.
  - intros Hframe.
    apply (EffectFacts.final_frame _ _ _ _ handle
             (fun c => ChatRouter.mutates c = false) _ Hframe w Hmessages).
Qed.

Lemma lookups_are_read_only_witness :
  (forall c w', ChatRouter.mutates c = false -> snd (Sample.serve c w') = w')
  /\ Effect.final
       (Effect.run Sample.serve
          (ChatRouter.getMessages Sample.parseNumber (Sample.ctx [] Js.Null)) Sample.server)
     = Sample.server.
Proof.
  assert (Hframe : forall c w', ChatRouter.mutates c = false -> snd (Sample.serve c w') = w').
  { intros c w' Hread. destruct c; try reflexivity; discriminate Hread. }
  split; [exact Hframe|].
  exact (proj2 (proj2 (proj2 (proj2
           (lookups_are_read_only Sample.runtime Sample.parseNumber Sample.typeError
              Sample.Server Sample.serve SampleRest.serve Sample.server
              (Sample.ctx [] Js.Null))))) Hframe).
Defined.

(** X21. A request changes at most one thing, once.  In every run of
    [update], of [toggleParticipant] and of [create], against any
    collaborators, at most one call is a changing one
    ([setDisplayName], [toggleParticipant], [create]): the handlers never
    repeat a change, not even after it failed. *)
Theorem at_most_one_change
    (rt : Js.Runtime) (W : Type)
    (handle : forall c : ChatRouter.Call, W -> ChatRouter.Reply c * W)
    (serve : forall c : ChatRouterRest.Call, W -> ChatRouterRest.Reply c * W)
    (w : W) (ctx : ChatRouter.RouterContext) :
  (List.length (List.filter ChatRouter.mutates
                  (Effect.trace (Effect.run handle (ChatRouter.update ctx) w))) <= 1)%nat
  /\ (forall action,
        (List.length
           (List.filter ChatRouter.mutates
              (Effect.trace (Effect.run handle (ChatRouter.toggleParticipant ctx action) w)))
         <= 1)%nat)
  /\ (List.length (List.filter ChatRouterRest.mutates
                     (Effect.trace (Effect.run serve (ChatRouterRest.create ctx) w)))
      <= 1)%nat.
Proof.
  split; [|split].
  - unfold ChatRouter.update. cbv beta iota zeta. rewrite RouterFacts.trace_call.
    destruct (fst (handle _ w)) as [ex|enabled]; [simpl; lia|].
    destruct (negb (Js.truthy enabled)); [simpl; lia|].
    rewrite RouterFacts.trace_call.
    destruct (fst (handle _ _)) as [ex|chats]; [simpl; lia|].
    destruct (ChatRouter.no_chats chats); [simpl; lia|].
    rewrite ProgFacts.run_bind.
    destruct (ChatRouter.provided _).
    + rewrite UpdateFacts.run_try_call.
      cbn [Effect.trace Effect.outcome Effect.final].
      destruct (fst (handle (ChatRouter.ChatInterface_setDisplayName _ _) _)) as [ex|renamed];
        cbv beta iota zeta.
      * simpl. lia.
      * change (Nat.ltb 0 (@List.length Js.Value [])) with false.
        change (Nat.eqb (@List.length string ["displayName"]) 0) with false.
        cbv iota. cbn [Effect.trace]. rewrite RouterFacts.trace_call.
        destruct (fst (handle (ChatRouter.getChatResponse renamed) _)); simpl; lia.
    + simpl.
      destruct (handle (ChatRouter.getChatResponse (ChatRouter.first_chat chats)) _)
        as [[ex|response] w3]; simpl; lia.
  - intros action. unfold ChatRouter.toggleParticipant. cbv beta iota zeta.
    rewrite RouterFacts.trace_call.
    destruct (fst (handle _ w)) as [ex|[]]; [simpl; lia|].
    destruct (ChatRouter.not_provided _); [simpl; lia|].
    rewrite RouterFacts.trace_call.
    destruct (fst (handle _ _)) as [ex|chats]; [simpl; lia|].
    destruct (ChatRouter.no_chats chats); [simpl; lia|].
    rewrite RouterFacts.trace_call.
    destruct (fst (handle _ _)) as [ex|chat]; [simpl; lia|].
    rewrite RouterFacts.trace_call.
    destruct (fst (handle _ _)); simpl; lia.
  - unfold ChatRouterRest.create. cbv beta iota zeta. rewrite RestFacts.rest_trace_call.
    destruct (fst (serve _ w)) as [ex|enabled]; [simpl; lia|].
    destruct (negb (Js.truthy enabled)); [simpl; lia|].
    rewrite RestFacts.rest_trace_call.
    destruct (fst (serve _ _)); simpl; lia.
Qed.
